(** * NeuraVeil front end: bulk-prediction aggregation and prediction history

    A shallow embedding of the logic of [src/app/(tabs)/_layout.tsx] and
    [src/app/(tabs)/history.tsx]: the bulk loop of [processBulkImages], the
    bounded history logs kept in [AsyncStorage], the history operations and
    the probability formatting, followed by the properties stated about them
    in the specification. *)

From Stdlib Require Import ZArith QArith Qround Qabs Qpower Qreduction.
From Stdlib Require Import Lia Lqa List String Ascii Bool Arith DecimalString.
From Stdlib Require PrimFloat FloatOps SpecFloat.
Import ListNotations.
Close Scope Q_scope.

(** ** JavaScript numbers

    A JavaScript number is an IEEE 754 binary64 value.  A finite value is kept
    as the rational it denotes, and every arithmetic operation rounds its exact
    result to the nearest binary64 value (ties to even), overflowing to an
    infinity.  The two zeros are identified: the program never divides by a
    computed value and never looks at the sign of a zero. *)
Module JS.

Local Open Scope Q_scope.

Inductive number : Type :=
| Fin (q : Q)
| PInf
| NInf
| NaN.

Definition pow2 (e : Z) : Q := Qpower 2 e.

(** [ilog2 q] is the integer [l] with [2^l <= q < 2^(l+1)], for [0 < q]. *)
Definition ilog2 (q : Q) : Z :=
  let l := (Z.log2 (Qnum q) - Z.log2 (Zpos (Qden q)))%Z in
  if Qle_bool (pow2 l) q then l else (l - 1)%Z.

(** Exponent of the last place of a binary64 value of magnitude [2^l]:
    53 bits of precision, and no exponent below that of the subnormals. *)
Definition fexp (l : Z) : Z := Z.max (l - 52) (-1074).

(** Nearest integer, ties to even. *)
Definition rne (m : Q) : Z :=
  let f := Qfloor m in
  match Qcompare (m - inject_Z f) (1 # 2) with
  | Lt => f
  | Gt => (f + 1)%Z
  | Eq => if Z.even f then f else (f + 1)%Z
  end.

(** The binary64 value nearest to the rational [q]. *)
Definition round64 (q : Q) : number :=
  if Qeq_bool q 0 then Fin 0
  else
    let e := fexp (ilog2 (Qabs q)) in
    let r := inject_Z (rne (q / pow2 e)) * pow2 e in
    if Qle_bool (pow2 1024) (Qabs r)
    then (if Qle_bool 0 q then PInf else NInf)
    else Fin (Qred r).

(** Sign of a number that is not [NaN]: [Lt] negative, [Eq] zero, [Gt] positive. *)
Definition sign (x : number) : comparison :=
  match x with
  | Fin q => Qcompare q 0
  | PInf => Gt
  | NInf => Lt
  | NaN => Eq
  end.

Definition infinity (s : comparison) : number :=
  match s with
  | Lt => NInf
  | Gt => PInf
  | Eq => NaN
  end.

Definition sign_mul (s t : comparison) : comparison :=
  match s, t with
  | Eq, _ | _, Eq => Eq
  | Lt, Lt | Gt, Gt => Gt
  | Lt, Gt | Gt, Lt => Lt
  end.

(** [x + y] *)
Definition add (x y : number) : number :=
  match x, y with
  | NaN, _ | _, NaN => NaN
  | PInf, NInf | NInf, PInf => NaN
  | PInf, _ | _, PInf => PInf
  | NInf, _ | _, NInf => NInf
  | Fin a, Fin b => round64 (a + b)
  end.

(** [x * y] *)
Definition mul (x y : number) : number :=
  match x, y with
  | NaN, _ | _, NaN => NaN
  | Fin a, Fin b => round64 (a * b)
  | _, _ => infinity (sign_mul (sign x) (sign y))
  end.

(** [x / y]; a zero divisor is the positive zero. *)
Definition div (x y : number) : number :=
  match x, y with
  | NaN, _ | _, NaN => NaN
  | Fin a, Fin b =>
      if Qeq_bool b 0 then infinity (Qcompare a 0) else round64 (a / b)
  | Fin _, _ => Fin 0
  | _, Fin b => infinity (sign_mul (sign x) (if Qeq_bool b 0 then Gt else Qcompare b 0))
  | _, _ => NaN
  end.

(** [x < y], false as soon as one side is [NaN]. *)
Definition ltb (x y : number) : bool :=
  match x, y with
  | NaN, _ | _, NaN => false
  | _, NInf => false
  | NInf, _ => true
  | PInf, _ => false
  | _, PInf => true
  | Fin a, Fin b => match Qcompare a b with Lt => true | _ => false end
  end.

(** [Math.max(...xs)]: [-Infinity] for no argument, [NaN] as soon as one
    argument is [NaN], the largest argument otherwise. *)
Definition Math_max (xs : list number) : number :=
  fold_left
    (fun highest x =>
       match highest, x with
       | NaN, _ | _, NaN => NaN
       | _, _ => if ltb highest x then x else highest
       end)
    xs NInf.

(** The length of an array read as a number: an integer below [2^32], which
    binary64 holds exactly. *)
Definition of_length {A : Type} (xs : list A) : number :=
  Fin (inject_Z (Z.of_nat (List.length xs))).

(** The largest length an array can have. *)
Definition MAX_ARRAY_LENGTH : Z := 2 ^ 32 - 1.

(** [Number.prototype.toFixed(2)] on a finite [0 <= q < 10^21] prints [n / 100]
    for the integer [n] with [n / 100 - q] closest to zero, the larger [n] when
    there are two. *)
Definition toFixed2_n (q : Q) : Z := Qfloor (q * 100 + (1 # 2)).

Definition toFixed_limit : Q := inject_Z (10 ^ 21).

(** [Number(x.toFixed(2))].  Below [10^21] in magnitude the string is the
    decimal [n / 100] with the sign of [x], which [Number] reads back as the
    nearest binary64 value; from [10^21] on, and for the values that are not
    finite, [toFixed] prints the number as [String(x)] does and [Number] reads
    [x] back. *)
Definition Number_toFixed2 (x : number) : number :=
  match x with
  | Fin q =>
      if Qle_bool toFixed_limit (Qabs q) then x
      else
        let n := inject_Z (toFixed2_n (Qabs q)) in
        round64 ((if Qle_bool 0 q then n else - n) / 100)
  | _ => x
  end.

Local Open Scope string_scope.

Definition digits (n : Z) : string := NilZero.string_of_uint (N.to_uint (Z.to_N n)).

(** [x.toFixed(2)] as a string.  [NumberToString] stands for the built-in
    [Number::toString], which [toFixed] falls back to from [10^21] on. *)
Definition toFixed2 (NumberToString : number -> string) (x : number) : string :=
  match x with
  | NaN => "NaN"
  | PInf => "Infinity"
  | NInf => "-Infinity"
  | Fin q =>
      (if Qle_bool 0 q then "" else "-") ++
      (if Qle_bool toFixed_limit (Qabs q) then NumberToString (Fin (Qabs q))
       else
         let n := toFixed2_n (Qabs q) in
         digits (n / 100)%Z ++ "." ++ digits ((n mod 100) / 10)%Z ++ digits (n mod 10)%Z)
  end.

End JS.

Import JS.
Local Open Scope string_scope.

(** ** Records kept in the history logs *)

(** [interface Prediction]: one entry of the single-prediction log. *)
Module Prediction.
Record t : Type := {
  class : string;
  probability : list number;
  imageUri : string;
  modelName : string;
  preprocessFunction : option string;
  note : string;
  timestamp : string
}.

Definition set_note (p : t) (text : string) : t :=
  {| class := class p; probability := probability p; imageUri := imageUri p;
     modelName := modelName p; preprocessFunction := preprocessFunction p;
     note := text; timestamp := timestamp p |}.
End Prediction.

(** [interface BulkPredictionResult]: the aggregate record of one bulk run. *)
Module BulkPredictionResult.
Record t : Type := {
  glioma : nat;
  meningioma : nat;
  pituitary : nat;
  noTumor : nat;
  modelName : string;
  timestamp : string;
  gliomaAccuracy : number;
  meningiomaAccuracy : number;
  pituitaryAccuracy : number;
  noTumorAccuracy : number;
  isGrayscale : bool
}.
End BulkPredictionResult.

(** ** The device store

    [AsyncStorage] under the two keys the application uses.  A key holds the
    JSON text of an array of records, or nothing; the text is kept as the array
    that was handed to [JSON.stringify].  [JSON.parse] gives that array back
    when every number in it is finite.  A number that is not finite is written
    as [null], so the array read back is then another one: the properties that
    read a log after it was written are stated for logs whose numbers are
    finite ([finite_prediction], [finite_record] below). *)
Module AsyncStorage.
Record t : Type := {
  predictionHistory : option (list Prediction.t);
  bulkPredictionHistory : option (list BulkPredictionResult.t)
}.

Definition empty : t :=
  {| predictionHistory := None; bulkPredictionHistory := None |}.

Definition set_predictionHistory (s : t) (v : option (list Prediction.t)) : t :=
  {| predictionHistory := v; bulkPredictionHistory := bulkPredictionHistory s |}.

Definition set_bulkPredictionHistory (s : t) (v : option (list BulkPredictionResult.t)) : t :=
  {| predictionHistory := predictionHistory s; bulkPredictionHistory := v |}.
End AsyncStorage.

(** What one awaited call of the platform did: it resolved, or it rejected
    with an error carrying a message. *)
Inductive settled : Type :=
| Resolves
| Rejects (message : string).

(** Everything outside the component state that the handlers touch: the
    store, the console and the alerts shown.  A console line is kept as one
    string.  Where the program calls [console.error(label, error)] with an
    [Error] object, the line is the label followed by the message of the
    error; how the console prints the rest of the object is left out. *)
Record World : Type := {
  storage : AsyncStorage.t;
  console : list string;
  alerts : list (string * string)
}.

Definition with_storage (w : World) (s : AsyncStorage.t) : World :=
  {| storage := s; console := console w; alerts := alerts w |}.

Definition console_write (w : World) (line : string) : World :=
  {| storage := storage w; console := console w ++ [line]; alerts := alerts w |}.

Definition Alert_alert (w : World) (title text : string) : World :=
  {| storage := storage w; console := console w; alerts := alerts w ++ [(title, text)] |}.

(** [array.slice(0, n)] *)
Definition slice0 {A : Type} (n : nat) (xs : list A) : list A := firstn n xs.

(** [array.unshift(x)] *)
Definition unshift {A : Type} (x : A) (xs : list A) : list A := x :: xs.

(** [stored ? JSON.parse(stored) : []] *)
Definition parse_or_empty {A : Type} (stored : option (list A)) : list A :=
  match stored with
  | Some xs => xs
  | None => []
  end.

(** [array[index] * 100]: an index past the end reads [undefined], and the
    product is [NaN]. *)
Definition percent_at (probabilities : list number) (index : nat) : number :=
  match nth_error probabilities index with
  | Some p => mul p (Fin 100)
  | None => NaN
  end.

(** [array.join('\n')] *)
Definition join_lines (lines : list string) : string :=
  String.concat (String (ascii_of_nat 10) "") lines.

(** [CLASS_LABELS.map((label, index) => ...)] *)
Fixpoint map_indexed {A B : Type} (f : A -> nat -> B) (index : nat) (xs : list A) : list B :=
  match xs with
  | [] => []
  | x :: rest => f x index :: map_indexed f (S index) rest
  end.

(** ** [_layout.tsx] *)
Module Layout.

Definition CLASS_LABELS : list string := ["Glioma"; "No Tumor"; "Meningioma"; "Pituitary"].
Definition MAX_BULK_IMAGES : nat := 500.

(** The JSON body of a [/predict] response. *)
Module Data.
Record t : Type := {
  class : string;
  probability : list number;
  preprocess_function : option string;
  error : option string
}.
End Data.

(** How the [try] block of one image goes: an exception leaves it (an awaited
    call rejected: the fetch of the image, [blob()], the POST or [json()]), or
    the server answers with a status that is [ok] or not and a body.  The body
    is taken to hold an array of numbers under [probability], as
    [interface Prediction] declares it. *)
Inductive Request : Type :=
| Threw (message : string)
| Responded (ok : bool) (data : Data.t).

(** A picked image, together with what the request made for it does. *)
Record Asset : Type := {
  uri : string;
  fileName : option string;
  predict : Request
}.

Record ImagePickerResult : Type := {
  canceled : bool;
  assets : list Asset
}.

(** The component state the handlers below read and set. *)
Record App : Type := {
  modelName : string;
  isGrayscaleEnabled : bool;
  error : option string;
  bulkImages : option ImagePickerResult;
  bulkPrediction : option BulkPredictionResult.t;
  bulkPredictionHistory : list BulkPredictionResult.t;
  bulkLoading : bool;
  estimatedTime : nat
}.

Definition setError (app : App) (e : option string) : App :=
  {| modelName := modelName app; isGrayscaleEnabled := isGrayscaleEnabled app;
     error := e; bulkImages := bulkImages app; bulkPrediction := bulkPrediction app;
     bulkPredictionHistory := bulkPredictionHistory app;
     bulkLoading := bulkLoading app; estimatedTime := estimatedTime app |}.

Definition setBulkImages (app : App) (r : option ImagePickerResult) : App :=
  {| modelName := modelName app; isGrayscaleEnabled := isGrayscaleEnabled app;
     error := error app; bulkImages := r; bulkPrediction := bulkPrediction app;
     bulkPredictionHistory := bulkPredictionHistory app;
     bulkLoading := bulkLoading app; estimatedTime := estimatedTime app |}.

Definition setBulkPrediction (app : App) (r : option BulkPredictionResult.t) : App :=
  {| modelName := modelName app; isGrayscaleEnabled := isGrayscaleEnabled app;
     error := error app; bulkImages := bulkImages app; bulkPrediction := r;
     bulkPredictionHistory := bulkPredictionHistory app;
     bulkLoading := bulkLoading app; estimatedTime := estimatedTime app |}.

Definition setBulkPredictionHistory (app : App) (h : list BulkPredictionResult.t) : App :=
  {| modelName := modelName app; isGrayscaleEnabled := isGrayscaleEnabled app;
     error := error app; bulkImages := bulkImages app; bulkPrediction := bulkPrediction app;
     bulkPredictionHistory := h;
     bulkLoading := bulkLoading app; estimatedTime := estimatedTime app |}.

Definition setBulkLoading (app : App) (b : bool) : App :=
  {| modelName := modelName app; isGrayscaleEnabled := isGrayscaleEnabled app;
     error := error app; bulkImages := bulkImages app; bulkPrediction := bulkPrediction app;
     bulkPredictionHistory := bulkPredictionHistory app;
     bulkLoading := b; estimatedTime := estimatedTime app |}.

Definition setEstimatedTime (app : App) (n : nat) : App :=
  {| modelName := modelName app; isGrayscaleEnabled := isGrayscaleEnabled app;
     error := error app; bulkImages := bulkImages app; bulkPrediction := bulkPrediction app;
     bulkPredictionHistory := bulkPredictionHistory app;
     bulkLoading := bulkLoading app; estimatedTime := n |}.

(** *** Probability formatting *)
Section Formatting.

(** The built-in [Number::toString], see [JS.toFixed2]. *)
Variable NumberToString : number -> string.

Definition formatProbabilities (probabilities : option (list number)) : string :=
  match probabilities with
  | None => "Olasılıklar hesaplanamadı."
  | Some ps =>
      if negb (List.length ps =? List.length CLASS_LABELS)%nat
      then "Olasılıklar hesaplanamadı."
      else
        join_lines
          (map_indexed
             (fun label index =>
                let percentage := toFixed2 NumberToString (percent_at ps index) in
                label ++ ": %" ++ percentage)
             0%nat CLASS_LABELS)
  end.

End Formatting.

(** [prob > arr[maxIndex]]: reading past the end gives [undefined], and the
    comparison is then false. *)
Definition gt_at (prob : number) (arr : list number) (maxIndex : nat) : bool :=
  match nth_error arr maxIndex with
  | Some m => ltb m prob
  | None => false
  end.

(** [arr.reduce((maxIndex, prob, index, arr) => ..., 0)] *)
Fixpoint reduce_maxIndex (arr rest : list number) (index maxIndex : nat) : nat :=
  match rest with
  | [] => maxIndex
  | prob :: rest' =>
      reduce_maxIndex arr rest' (S index)
        (if gt_at prob arr maxIndex then index else maxIndex)
  end.

(** The result is [None] where [CLASS_LABELS[maxIndex]] would be [undefined]. *)
Definition getHighestProbabilityClass (probabilities : option (list number)) : option string :=
  match probabilities with
  | None => Some "Bilinmeyen"
  | Some ps =>
      if negb (List.length ps =? List.length CLASS_LABELS)%nat
      then Some "Bilinmeyen"
      else nth_error CLASS_LABELS (reduce_maxIndex ps ps 0 0)
  end.

(** *** The bulk run *)

(** The [accuracies] object of [processBulkImages]: the confidence samples
    pushed so far, class by class. *)
Module Accuracies.
Record t : Type := {
  glioma : list number;
  meningioma : list number;
  pituitary : list number;
  noTumor : list number
}.

Definition empty : t :=
  {| glioma := []; meningioma := []; pituitary := []; noTumor := [] |}.
End Accuracies.

(** The two objects the loop mutates. *)
Record Tally : Type := {
  results : BulkPredictionResult.t;
  accuracies : Accuracies.t
}.

Definition initial_results (app : App) (now : string) : BulkPredictionResult.t :=
  {| BulkPredictionResult.glioma := 0;
     BulkPredictionResult.meningioma := 0;
     BulkPredictionResult.pituitary := 0;
     BulkPredictionResult.noTumor := 0;
     BulkPredictionResult.modelName := modelName app;
     BulkPredictionResult.timestamp := now;
     BulkPredictionResult.gliomaAccuracy := Fin 0;
     BulkPredictionResult.meningiomaAccuracy := Fin 0;
     BulkPredictionResult.pituitaryAccuracy := Fin 0;
     BulkPredictionResult.noTumorAccuracy := Fin 0;
     BulkPredictionResult.isGrayscale := isGrayscaleEnabled app |}.

Definition with_counts (r : BulkPredictionResult.t) (g m p n : nat) : BulkPredictionResult.t :=
  {| BulkPredictionResult.glioma := g;
     BulkPredictionResult.meningioma := m;
     BulkPredictionResult.pituitary := p;
     BulkPredictionResult.noTumor := n;
     BulkPredictionResult.modelName := BulkPredictionResult.modelName r;
     BulkPredictionResult.timestamp := BulkPredictionResult.timestamp r;
     BulkPredictionResult.gliomaAccuracy := BulkPredictionResult.gliomaAccuracy r;
     BulkPredictionResult.meningiomaAccuracy := BulkPredictionResult.meningiomaAccuracy r;
     BulkPredictionResult.pituitaryAccuracy := BulkPredictionResult.pituitaryAccuracy r;
     BulkPredictionResult.noTumorAccuracy := BulkPredictionResult.noTumorAccuracy r;
     BulkPredictionResult.isGrayscale := BulkPredictionResult.isGrayscale r |}.

Definition with_accuracies (r : BulkPredictionResult.t) (g m p n : number) : BulkPredictionResult.t :=
  {| BulkPredictionResult.glioma := BulkPredictionResult.glioma r;
     BulkPredictionResult.meningioma := BulkPredictionResult.meningioma r;
     BulkPredictionResult.pituitary := BulkPredictionResult.pituitary r;
     BulkPredictionResult.noTumor := BulkPredictionResult.noTumor r;
     BulkPredictionResult.modelName := BulkPredictionResult.modelName r;
     BulkPredictionResult.timestamp := BulkPredictionResult.timestamp r;
     BulkPredictionResult.gliomaAccuracy := g;
     BulkPredictionResult.meningiomaAccuracy := m;
     BulkPredictionResult.pituitaryAccuracy := p;
     BulkPredictionResult.noTumorAccuracy := n;
     BulkPredictionResult.isGrayscale := BulkPredictionResult.isGrayscale r |}.

(** The two objects as they are before the loop. *)
Definition initial_tally (app : App) (now : string) : Tally :=
  {| results := initial_results app now; accuracies := Accuracies.empty |}.

(** The body of the [for] loop: one asset, its [try] block and its [catch]. *)
Definition processAsset (st : Tally * World) (asset : Asset) : Tally * World :=
  let (tally, w) := st in
  match predict asset with
  | Threw message => (tally, console_write w ("Image upload error: " ++ message))
  | Responded ok data =>
      if ok then
        let maxProbability := Math_max (Data.probability data) in
        let r := results tally in
        let a := accuracies tally in
        let g := BulkPredictionResult.glioma r in
        let m := BulkPredictionResult.meningioma r in
        let p := BulkPredictionResult.pituitary r in
        let n := BulkPredictionResult.noTumor r in
        if Data.class data =? "Glioma" then
          ({| results := with_counts r (g + 1) m p n;
              accuracies :=
                {| Accuracies.glioma := Accuracies.glioma a ++ [mul maxProbability (Fin 100)];
                   Accuracies.meningioma := Accuracies.meningioma a;
                   Accuracies.pituitary := Accuracies.pituitary a;
                   Accuracies.noTumor := Accuracies.noTumor a |} |}, w)
        else if Data.class data =? "Meningioma" then
          ({| results := with_counts r g (m + 1) p n;
              accuracies :=
                {| Accuracies.glioma := Accuracies.glioma a;
                   Accuracies.meningioma := Accuracies.meningioma a ++ [mul maxProbability (Fin 100)];
                   Accuracies.pituitary := Accuracies.pituitary a;
                   Accuracies.noTumor := Accuracies.noTumor a |} |}, w)
        else if Data.class data =? "Pituitary" then
          ({| results := with_counts r g m (p + 1) n;
              accuracies :=
                {| Accuracies.glioma := Accuracies.glioma a;
                   Accuracies.meningioma := Accuracies.meningioma a;
                   Accuracies.pituitary := Accuracies.pituitary a ++ [mul maxProbability (Fin 100)];
                   Accuracies.noTumor := Accuracies.noTumor a |} |}, w)
        else if Data.class data =? "No Tumor" then
          ({| results := with_counts r g m p (n + 1);
              accuracies :=
                {| Accuracies.glioma := Accuracies.glioma a;
                   Accuracies.meningioma := Accuracies.meningioma a;
                   Accuracies.pituitary := Accuracies.pituitary a;
                   Accuracies.noTumor := Accuracies.noTumor a ++ [mul maxProbability (Fin 100)] |} |}, w)
        else (tally, w)
      else (tally, w)
  end.

(** [for (const asset of bulkImages.assets) { ... }] *)
Definition bulkLoop (batch : list Asset) (st : Tally * World) : Tally * World :=
  fold_left processAsset batch st.

(** [xs.length > 0 ? Number((xs.reduce((a, b) => a + b, 0) / xs.length).toFixed(2)) : 0] *)
Definition mean_accuracy (xs : list number) : number :=
  if (0 <? List.length xs)%nat
  then Number_toFixed2 (div (fold_left add xs (Fin 0)) (of_length xs))
  else Fin 0.

(** The four assignments after the loop. *)
Definition set_means (tally : Tally) : BulkPredictionResult.t :=
  let a := accuracies tally in
  with_accuracies (results tally)
    (mean_accuracy (Accuracies.glioma a))
    (mean_accuracy (Accuracies.meningioma a))
    (mean_accuracy (Accuracies.pituitary a))
    (mean_accuracy (Accuracies.noTumor a)).

(** The record a bulk run over [batch] produces. *)
Definition bulkResults (app : App) (now : string) (batch : list Asset) (w : World)
  : BulkPredictionResult.t * World :=
  let (tally, w') :=
    bulkLoop batch (initial_tally app now, w) in
  (set_means tally, w').

(** The last [try] block of [processBulkImages]: the record is put at the head
    of the stored log, the log is cut to 50 entries and written back; the state
    follows only once the write went through. *)
Definition saveBulkResults (getItem setItem : settled) (r : BulkPredictionResult.t)
    (app : App) (w : World) : App * World :=
  match getItem with
  | Rejects message => (app, console_write w ("Toplu tahmin geçmişi kaydedilemedi: " ++ message))
  | Resolves =>
      let storedHistory := AsyncStorage.bulkPredictionHistory (storage w) in
      let history := slice0 50 (unshift r (parse_or_empty storedHistory)) in
      match setItem with
      | Rejects message => (app, console_write w ("Toplu tahmin geçmişi kaydedilemedi: " ++ message))
      | Resolves =>
          (setBulkPredictionHistory app history,
           with_storage w (AsyncStorage.set_bulkPredictionHistory (storage w) (Some history)))
      end
  end.

(** [now] is what [new Date().toISOString()] returns when the run starts;
    [getItem] and [setItem] tell what the two calls of the store do. *)
Definition processBulkImages (now : string) (getItem setItem : settled)
    (app : App) (w : World) : App * World :=
  match bulkImages app with
  | None => (app, Alert_alert w "Hata" "Lütfen önce görüntüler seçin.")
  | Some images =>
      if canceled images
      then (app, Alert_alert w "Hata" "Lütfen önce görüntüler seçin.")
      else
        let (r, w1) := bulkResults app now (assets images) w in
        let app1 := setEstimatedTime (setBulkLoading (setBulkPrediction app (Some r)) false) 0 in
        saveBulkResults getItem setItem r app1 w1
  end.

(** The part of [pickBulkImages] after the picker returned [result]. *)
Definition pickBulkImages (result : ImagePickerResult) (app : App) (w : World) : App * World :=
  if negb (canceled result) && (0 <? List.length (assets result))%nat then
    let over := (MAX_BULK_IMAGES <? List.length (assets result))%nat in
    let selectedImages :=
      if over
      then {| canceled := canceled result; assets := slice0 MAX_BULK_IMAGES (assets result) |}
      else result in
    let w' :=
      if over
      then Alert_alert w "Bilgi"
             "Maksimum 500 görüntü sınırı nedeniyle ilk 500 görüntü seçildi."
      else w in
    (setEstimatedTime (setBulkImages app (Some selectedImages))
       (List.length (assets selectedImages) * 2), w')
  else (app, w).

(** *** The single-prediction log *)

(** The inner [try] block of [uploadImage], reached when the response is
    [ok]: the new entry goes to the head of the stored log, which is cut to 10
    entries and written back. *)
Definition savePrediction (getItem setItem : settled) (newPrediction : Prediction.t)
    (w : World) : World :=
  match getItem with
  | Rejects message => console_write w ("Tahmin geçmişi kaydedilemedi: " ++ message)
  | Resolves =>
      let storedHistory := AsyncStorage.predictionHistory (storage w) in
      let history := slice0 10 (unshift newPrediction (parse_or_empty storedHistory)) in
      match setItem with
      | Rejects message => console_write w ("Tahmin geçmişi kaydedilemedi: " ++ message)
      | Resolves =>
          with_storage w (AsyncStorage.set_predictionHistory (storage w) (Some history))
      end
  end.

Definition or_else (s : option string) (d : string) : string :=
  match s with
  | Some x => if (x =? "")%string then d else x
  | None => d
  end.

(** [uploadImage] for the picked [asset], from the answer of the server on;
    the state of the section on screen is left out, and so are the two
    [console.log] calls that trace the request and print the parsed answer:
    the console of the model does not show them. *)
Definition uploadImage (NumberToString : number -> string) (now : string)
    (getItem setItem : settled) (index : nat) (asset : Asset)
    (app : App) (w : World) : App * World :=
  match predict asset with
  | Threw message =>
      (setError app (Some ("Görüntü yüklenemedi: " ++ message)),
       Alert_alert w "İstek Başarısız" ("Görüntü yüklenemedi: " ++ message))
  | Responded ok data =>
      if ok then
        let w1 :=
          Alert_alert w "Başarılı"
            ("Tahmin " ++ digits (Z.of_nat (index + 1)) ++ ": " ++ Data.class data ++
             String (ascii_of_nat 10) "Preprocess Fonksiyonu: " ++
             match Data.preprocess_function data with Some f => f | None => "undefined" end ++
             String (ascii_of_nat 10) "Olasılıklar:" ++ String (ascii_of_nat 10) "" ++
             formatProbabilities NumberToString (Some (Data.probability data))) in
        let newPrediction :=
          {| Prediction.class := Data.class data;
             Prediction.probability := Data.probability data;
             Prediction.imageUri := uri asset;
             Prediction.modelName := modelName app;
             Prediction.preprocessFunction := Data.preprocess_function data;
             Prediction.note := "";
             Prediction.timestamp := now |} in
        (app, savePrediction getItem setItem newPrediction w1)
      else
        let text := "Sunucu hatası: " ++ or_else (Data.error data) "Bilinmeyen hata" in
        (setError app (Some text), Alert_alert w "Sunucu Hatası" text)
  end.

(** *** The bulk history *)

(** [loadBulkPredictionHistory], run when the component mounts. *)
Definition loadBulkPredictionHistory (getItem : settled) (app : App) (w : World) : App * World :=
  match getItem with
  | Rejects message => (app, console_write w ("Geçmiş yüklenemedi: " ++ message))
  | Resolves =>
      match AsyncStorage.bulkPredictionHistory (storage w) with
      | Some history => (setBulkPredictionHistory app history, w)
      | None => (app, w)
      end
  end.

Definition refreshBulkPredictionHistory (getItem : settled) (app : App) (w : World) : App * World :=
  match getItem with
  | Rejects message =>
      (app, Alert_alert (console_write w ("Geçmiş yenilenemedi: " ++ message))
              "Hata" "Geçmiş yenilenemedi.")
  | Resolves =>
      match AsyncStorage.bulkPredictionHistory (storage w) with
      | Some history => (setBulkPredictionHistory app history, w)
      | None => (setBulkPredictionHistory app [], w)
      end
  end.

(** [item => item.timestamp !== timestamp] *)
Definition other_timestamp (timestamp : string) (item : BulkPredictionResult.t) : bool :=
  negb (BulkPredictionResult.timestamp item =? timestamp).

Definition deleteHistoryItem (setItem : settled) (timestamp : string)
    (app : App) (w : World) : App * World :=
  let updatedHistory := filter (other_timestamp timestamp) (bulkPredictionHistory app) in
  let app' := setBulkPredictionHistory app updatedHistory in
  match setItem with
  | Rejects message =>
      (app', Alert_alert (console_write w ("Geçmiş silinemedi: " ++ message))
               "Hata" "Geçmiş silinemedi.")
  | Resolves =>
      (app', with_storage w (AsyncStorage.set_bulkPredictionHistory (storage w) (Some updatedHistory)))
  end.

End Layout.

(** ** [history.tsx] *)
Module History.

Definition CLASS_LABELS : list string := ["Glioma"; "No Tumor"; "Meningioma"; "Pituitary"].

(** The component state. *)
Record State : Type := {
  history : list Prediction.t;
  isLoading : bool
}.

Definition setHistory (st : State) (h : list Prediction.t) : State :=
  {| history := h; isLoading := isLoading st |}.

Definition setIsLoading (st : State) (b : bool) : State :=
  {| history := history st; isLoading := b |}.

(** [loadHistory], run when the component mounts. *)
Definition loadHistory (getItem : settled) (st : State) (w : World) : State * World :=
  match getItem with
  | Rejects message =>
      (setIsLoading st false, console_write w ("Failed to load history: " ++ message))
  | Resolves =>
      match AsyncStorage.predictionHistory (storage w) with
      | Some parsedHistory => (setIsLoading (setHistory st (slice0 10 parsedHistory)) false, w)
      | None => (setIsLoading st false, w)
      end
  end.

Definition resetHistory (removeItem : settled) (st : State) (w : World) : State * World :=
  match removeItem with
  | Rejects message => (st, console_write w ("Failed to reset history: " ++ message))
  | Resolves =>
      (setHistory st [],
       console_write (with_storage w (AsyncStorage.set_predictionHistory (storage w) None))
         "Prediction history cleared.")
  end.

(** [updatedHistory[index].note = note] on the copy of the array. *)
Fixpoint assign_note (updatedHistory : list Prediction.t) (index : nat) (note : string)
  : list Prediction.t :=
  match updatedHistory, index with
  | [], _ => []
  | p :: rest, O => Prediction.set_note p note :: rest
  | p :: rest, S i => p :: assign_note rest i note
  end.

(** How a handler ends: it runs to its end, or an exception leaves it. *)
Inductive completion : Type :=
| Returns
| Throws (message : string).

(** [updateNote].  Where [index] is past the end, [updatedHistory[index]] is
    [undefined] and the assignment throws a [TypeError] before anything is
    set; [TypeError_message] is the text the engine gives it. *)
Definition updateNote (TypeError_message : string) (setItem : settled)
    (index : nat) (note : string) (st : State) (w : World) : completion * State * World :=
  match nth_error (history st) index with
  | None => (Throws TypeError_message, st, w)
  | Some _ =>
      let updatedHistory := assign_note (history st) index note in
      let st' := setHistory st updatedHistory in
      match setItem with
      | Rejects message => (Returns, st', console_write w ("Failed to save note: " ++ message))
      | Resolves =>
          (Returns, st',
           with_storage w (AsyncStorage.set_predictionHistory (storage w) (Some updatedHistory)))
      end
  end.

Section Formatting.

Variable NumberToString : number -> string.

Definition formatProbabilities (probabilities : option (list number)) : string :=
  match probabilities with
  | None => "Probabilities could not be calculated."
  | Some ps =>
      if negb (List.length ps =? List.length CLASS_LABELS)%nat
      then "Probabilities could not be calculated."
      else
        join_lines
          (map_indexed
             (fun label index =>
                let percentage := toFixed2 NumberToString (percent_at ps index) in
                label ++ ": " ++ percentage ++ "%")
             0%nat CLASS_LABELS)
  end.

End Formatting.

End History.

(** ** Vocabulary of the properties *)

(** The four classes of the bulk record. *)
Inductive Label : Type := Glioma | Meningioma | Pituitary | NoTumor.

Definition label_name (l : Label) : string :=
  match l with
  | Glioma => "Glioma"
  | Meningioma => "Meningioma"
  | Pituitary => "Pituitary"
  | NoTumor => "No Tumor"
  end.

Definition all_labels : list Label := [Glioma; Meningioma; Pituitary; NoTumor].

Definition count_of (l : Label) (r : BulkPredictionResult.t) : nat :=
  match l with
  | Glioma => BulkPredictionResult.glioma r
  | Meningioma => BulkPredictionResult.meningioma r
  | Pituitary => BulkPredictionResult.pituitary r
  | NoTumor => BulkPredictionResult.noTumor r
  end.

Definition accuracy_of (l : Label) (r : BulkPredictionResult.t) : number :=
  match l with
  | Glioma => BulkPredictionResult.gliomaAccuracy r
  | Meningioma => BulkPredictionResult.meningiomaAccuracy r
  | Pituitary => BulkPredictionResult.pituitaryAccuracy r
  | NoTumor => BulkPredictionResult.noTumorAccuracy r
  end.

Definition samples_of (l : Label) (a : Layout.Accuracies.t) : list number :=
  match l with
  | Glioma => Layout.Accuracies.glioma a
  | Meningioma => Layout.Accuracies.meningioma a
  | Pituitary => Layout.Accuracies.pituitary a
  | NoTumor => Layout.Accuracies.noTumor a
  end.

(** The sum of the four counts of a record. *)
Definition counts_sum (r : BulkPredictionResult.t) : nat :=
  BulkPredictionResult.glioma r + BulkPredictionResult.meningioma r +
  BulkPredictionResult.pituitary r + BulkPredictionResult.noTumor r.

(** An item fails when its request throws or the server answers with a status
    that is not [ok]. *)
Definition failed (a : Layout.Asset) : bool :=
  match Layout.predict a with
  | Layout.Threw _ => true
  | Layout.Responded ok _ => negb ok
  end.

(** The server answered with a status that is [ok]. *)
Definition succeeded (a : Layout.Asset) : bool := negb (failed a).

Definition threw (a : Layout.Asset) : bool :=
  match Layout.predict a with
  | Layout.Threw _ => true
  | Layout.Responded _ _ => false
  end.

(** The server answered [ok] and named the class [l]. *)
Definition labelled (l : Label) (a : Layout.Asset) : bool :=
  match Layout.predict a with
  | Layout.Responded true data => Layout.Data.class data =? label_name l
  | _ => false
  end.

(** The server answered [ok] and named one of the four classes. *)
Definition classified (a : Layout.Asset) : bool :=
  existsb (fun l => labelled l a) all_labels.

(** The probability vector of an answer, empty where there is no answer. *)
Definition probabilities (a : Layout.Asset) : list number :=
  match Layout.predict a with
  | Layout.Responded _ data => Layout.Data.probability data
  | Layout.Threw _ => []
  end.

(** The confidence sample of an item: [max(probabilities) * 100]. *)
Definition sample (a : Layout.Asset) : number :=
  mul (Math_max (probabilities a)) (Fin 100).

(** The number of items of a batch that satisfy [f]. *)
Definition how_many (f : Layout.Asset -> bool) (batch : list Layout.Asset) : nat :=
  List.length (filter f batch).

(** The samples of the class [l] in a batch, in the order of the batch. *)
Definition samples_in (l : Label) (batch : list Layout.Asset) : list number :=
  map sample (filter (labelled l) batch).

(** The arithmetic mean of a sequence of samples: their sum, taken from left
    to right, over their number. *)
Definition arithmetic_mean (xs : list number) : number :=
  div (fold_left add xs (Fin 0)) (of_length xs).

(** A finite number between [lo] and [hi]. *)
Definition between (lo hi : Q) (x : number) : Prop :=
  match x with
  | Fin q => (lo <= q /\ q <= hi)%Q
  | _ => False
  end.

(** The rational that a finite number denotes. *)
Definition value (x : number) : Q :=
  match x with
  | Fin q => q
  | _ => 0%Q
  end.

(** The numbers that [JSON.stringify] writes as they are; the others are
    written as [null]. *)
Definition is_finite (x : number) : bool :=
  match x with
  | Fin _ => true
  | _ => false
  end.

(** The larger of two rationals. *)
Definition Qlarger (a b : Q) : Q := if Qle_bool a b then b else a.

(** The largest probability of a vector, as a rational; probabilities are not
    negative. *)
Definition largest (ps : list number) : Q :=
  fold_right (fun p m => Qlarger (value p) m) 0%Q ps.

(** The confidence sample of an item in exact arithmetic: 100 times its
    largest probability. *)
Definition exact_sample (a : Layout.Asset) : Q := (100 * largest (probabilities a))%Q.

Definition exact_samples_in (l : Label) (batch : list Layout.Asset) : list Q :=
  map exact_sample (filter (labelled l) batch).

(** The sum and the arithmetic mean of rationals, in exact arithmetic. *)
Definition Qsum (xs : list Q) : Q := fold_right Qplus 0%Q xs.

Definition exact_mean (xs : list Q) : Q :=
  (Qsum xs / inject_Z (Z.of_nat (List.length xs)))%Q.

(** A sample as the program computes it, next to the same sample in exact
    arithmetic: a percentage within [2^-46] of it. *)
Definition sample_near (s : number) (x : Q) : Prop :=
  exists v : Q, s = Fin v /\ (0 <= v /\ v <= 100 /\ Qabs (v - x) <= pow2 (-46))%Q.

(** Two predictions that differ in their note at most. *)
Definition same_but_note (p q : Prediction.t) : Prop :=
  Prediction.class q = Prediction.class p /\
  Prediction.probability q = Prediction.probability p /\
  Prediction.imageUri q = Prediction.imageUri p /\
  Prediction.modelName q = Prediction.modelName p /\
  Prediction.preprocessFunction q = Prediction.preprocessFunction p /\
  Prediction.timestamp q = Prediction.timestamp p.

(** The records that [JSON.parse] reads back as they were written: all their
    numbers are finite. *)
Definition finite_prediction (p : Prediction.t) : Prop :=
  Forall (fun x => is_finite x = true) (Prediction.probability p).

Definition finite_record (r : BulkPredictionResult.t) : Prop :=
  forall l, is_finite (accuracy_of l r) = true.

(** A batch no longer than an array can be, in which every answer that is
    [ok] carries a probability vector that is not empty and whose entries lie
    in [[0, 1]]. *)
Definition well_formed (batch : list Layout.Asset) : Prop :=
  (Z.of_nat (List.length batch) <= MAX_ARRAY_LENGTH)%Z /\
  forall a, In a batch -> succeeded a = true ->
    probabilities a <> [] /\ Forall (between 0 1) (probabilities a).

(** The fields of a record that the loop never assigns. *)
Definition same_header (r r' : BulkPredictionResult.t) : Prop :=
  BulkPredictionResult.modelName r' = BulkPredictionResult.modelName r /\
  BulkPredictionResult.timestamp r' = BulkPredictionResult.timestamp r /\
  BulkPredictionResult.isGrayscale r' = BulkPredictionResult.isGrayscale r /\
  forall l, accuracy_of l r' = accuracy_of l r.

(** What an observer of the histories sees: the log in the component state
    and the contents of the store. *)
Definition bulk_view (s : Layout.App * World) : list BulkPredictionResult.t * AsyncStorage.t :=
  (Layout.bulkPredictionHistory (fst s), storage (snd s)).

Definition single_view (s : History.State * World) : list Prediction.t * AsyncStorage.t :=
  (History.history (fst s), storage (snd s)).

(** Running a handler from the state and world an earlier run left. *)
Definition again {S : Type} (op : S -> World -> S * World) (s : S * World) : S * World :=
  op (fst s) (snd s).

(** The line feed that separates the lines of a listing. *)
Definition LF : string := String (ascii_of_nat 10) "".

(** ** Examples *)

Definition example_app : Layout.App :=
  {| Layout.modelName := "model.h5"; Layout.isGrayscaleEnabled := false;
     Layout.error := None; Layout.bulkImages := None; Layout.bulkPrediction := None;
     Layout.bulkPredictionHistory := []; Layout.bulkLoading := false;
     Layout.estimatedTime := 0 |}.

Definition example_world : World :=
  {| storage := AsyncStorage.empty; console := []; alerts := [] |}.

Definition example_answer (class : string) (p : Q) : Layout.Request :=
  Layout.Responded true
    {| Layout.Data.class := class;
       Layout.Data.probability :=
         [round64 p; round64 ((1 - p) / 3); round64 ((1 - p) / 3); round64 ((1 - p) / 3)];
       Layout.Data.preprocess_function := None;
       Layout.Data.error := None |}.

Definition example_asset (name : string) (r : Layout.Request) : Layout.Asset :=
  {| Layout.uri := "file:///" ++ name; Layout.fileName := Some name; Layout.predict := r |}.

(** The batch of the scenario of the specification: two gliomas at 0.90 and
    0.70 around an item whose request fails. *)
Definition example_batch : list Layout.Asset :=
  [ example_asset "1.jpg" (example_answer "Glioma" (9 # 10));
    example_asset "2.jpg" (Layout.Threw "Network request failed");
    example_asset "3.jpg" (example_answer "Glioma" (7 # 10)) ].

(** Two gliomas at 0.9 and 0.9001: the mean of their samples is next to
    90.005, half way between two decimals with 2 places. *)
Definition example_close_batch : list Layout.Asset :=
  [ example_asset "1.jpg" (example_answer "Glioma" (9 # 10));
    example_asset "2.jpg" (example_answer "Glioma" (9001 # 10000)) ].

(** A single-prediction log at its cap, newest entry first. *)
Definition example_prediction (n : nat) : Prediction.t :=
  {| Prediction.class := "Glioma";
     Prediction.probability := [Fin 1; Fin 0; Fin 0; Fin 0];
     Prediction.imageUri := "file:///" ++ digits (Z.of_nat n) ++ ".jpg";
     Prediction.modelName := "model.h5";
     Prediction.preprocessFunction := None;
     Prediction.note := "";
     Prediction.timestamp := "2025-01-01T00:00:" ++ digits (Z.of_nat (10 + n)) ++ ".000Z" |}.

Definition example_single_log : list Prediction.t :=
  map example_prediction [9; 8; 7; 6; 5; 4; 3; 2; 1; 0].

(** A bulk record carrying the timestamp [now]. *)
Definition example_record (now : string) : BulkPredictionResult.t :=
  Layout.with_counts (Layout.initial_results example_app now) 2 0 1 0.

Definition example_bulk_log : list BulkPredictionResult.t :=
  [example_record "2025-01-03"; example_record "2025-01-02"; example_record "2025-01-01"].

(** A bulk log at its cap of 50 records. *)
Definition example_full_bulk_log : list BulkPredictionResult.t :=
  map (fun n => example_record (digits (Z.of_nat n))) (rev (seq 0 50)).

Definition example_stored : World :=
  {| storage :=
       {| AsyncStorage.predictionHistory := Some example_single_log;
          AsyncStorage.bulkPredictionHistory := Some example_bulk_log |};
     console := []; alerts := [] |}.

Definition example_history : History.State :=
  {| History.history := example_single_log; History.isLoading := false |}.

(** The number a machine float denotes. *)
Definition of_float (f : PrimFloat.float) : number :=
  match FloatOps.Prim2SF f with
  | SpecFloat.S754_zero _ => Fin 0
  | SpecFloat.S754_finite s m e =>
      Fin (Qred ((if s then - 1 else 1) * inject_Z (Z.pos m) * pow2 e)%Q)
  | SpecFloat.S754_infinity s => if s then NInf else PInf
  | SpecFloat.S754_nan => NaN
  end.

Definition same_number (x y : number) : bool :=
  match x, y with
  | Fin a, Fin b => Qeq_bool a b
  | PInf, PInf | NInf, NInf | NaN, NaN => true
  | _, _ => false
  end.

(** Sum, product and quotient of two machine floats, computed by the machine
    and by [add], [mul] and [div]. *)
Definition machine_agrees (ab : PrimFloat.float * PrimFloat.float) : bool :=
  let (a, b) := ab in
  same_number (add (of_float a) (of_float b)) (of_float (PrimFloat.add a b)) &&
  same_number (mul (of_float a) (of_float b)) (of_float (PrimFloat.mul a b)) &&
  same_number (div (of_float a) (of_float b)) (of_float (PrimFloat.div a b)).

(** The machine float nearest to [m * 2^e]. *)
Definition to_float (me : Z * Z) : PrimFloat.float :=
  FloatOps.SF2Prim (SpecFloat.binary_normalize 53 1024 (fst me) (snd me) false).

(** Pairs of machine floats, each given by a mantissa and an exponent: the
    values 0.9, 0.7 and 0.57 that become percentages, subnormal values, values
    next to the largest one, halfway cases. *)
Definition machine_samples : list (PrimFloat.float * PrimFloat.float) :=
  map (fun p => (to_float (fst p), to_float (snd p)))
    [ ((8106479329266893, -53), (100, 0));
      ((6305039478318694, -53), (100, 0));
      ((5134103575202365, -53), (100, 0));
      ((4953959590107546, -52), (7430939385161318, -51));
      ((7205759403792794, -56), (7205759403792794, -55));
      ((160, 0), (2, 0));
      ((1, -1074), (3, -1));
      ((9007199254740991, 971), (4503599627370497, -52));
      ((9007199254740991, 971), (9007199254740991, 971));
      ((1, 53), (1, 0));
      ((4503599627370497, -1074), (3, 0));
      ((6004799503160661, -54), (3, 0));
      ((-7074237752028440, -51), (6121026514868073, -51));
      ((1, -1074), (1, -1074));
      ((0, 0), (0, 0));
      ((1, 0), (0, 0));
      ((-9007199254740993, 0), (9007199254740995, -30)) ]%Z.

(** ** [_layout.tsx], the rest of the component *)
Module Screen.

(** The JSON body of the model endpoints. *)
Record ModelData : Type := {
  model_name : string;
  models : list string;
  error : option string
}.

(** How a request to a model endpoint goes: an awaited call rejects, or the
    server answers with a status that is [ok] or not and a body. *)
Inductive ModelRequest : Type :=
| Threw (message : string)
| Responded (ok : bool) (data : ModelData).

(** [interface ImageSection] *)
Record ImageSection : Type := {
  image : option Layout.ImagePickerResult;
  prediction : option Prediction.t;
  isLoading : bool
}.

Definition blank : ImageSection :=
  {| image := None; prediction := None; isLoading := false |}.

(** The state of the component that [Layout.App] leaves out. *)
Record State : Type := {
  sections : list ImageSection;
  layout : string;
  layoutModalVisible : bool;
  modelNameError : option string;
  availableModels : list string;
  modelModalVisible : bool;
  selectedResolution : string;
  isDarkMode : bool
}.

(** The state the component starts with. *)
Definition initial : State :=
  {| sections := [blank]; layout := "1x1"; layoutModalVisible := false;
     modelNameError := None; availableModels := []; modelModalVisible := false;
     selectedResolution := "150x150"; isDarkMode := true |}.

Definition initial_app : Layout.App :=
  {| Layout.modelName := "Yükleniyor...";
     Layout.isGrayscaleEnabled := false;
     Layout.error := None;
     Layout.bulkImages := None;
     Layout.bulkPrediction := None;
     Layout.bulkPredictionHistory := [];
     Layout.bulkLoading := false;
     Layout.estimatedTime := 0 |}.

Definition setModelName (app : Layout.App) (name : string) : Layout.App :=
  {| Layout.modelName := name;
     Layout.isGrayscaleEnabled := Layout.isGrayscaleEnabled app;
     Layout.error := Layout.error app;
     Layout.bulkImages := Layout.bulkImages app;
     Layout.bulkPrediction := Layout.bulkPrediction app;
     Layout.bulkPredictionHistory := Layout.bulkPredictionHistory app;
     Layout.bulkLoading := Layout.bulkLoading app;
     Layout.estimatedTime := Layout.estimatedTime app |}.

Definition setSections (s : State) (v : list ImageSection) : State :=
  {| sections := v; layout := layout s; layoutModalVisible := layoutModalVisible s;
     modelNameError := modelNameError s; availableModels := availableModels s;
     modelModalVisible := modelModalVisible s;
     selectedResolution := selectedResolution s; isDarkMode := isDarkMode s |}.

Definition setLayout (s : State) (v : string) : State :=
  {| sections := sections s; layout := v; layoutModalVisible := layoutModalVisible s;
     modelNameError := modelNameError s; availableModels := availableModels s;
     modelModalVisible := modelModalVisible s;
     selectedResolution := selectedResolution s; isDarkMode := isDarkMode s |}.

Definition setLayoutModalVisible (s : State) (v : bool) : State :=
  {| sections := sections s; layout := layout s; layoutModalVisible := v;
     modelNameError := modelNameError s; availableModels := availableModels s;
     modelModalVisible := modelModalVisible s;
     selectedResolution := selectedResolution s; isDarkMode := isDarkMode s |}.

Definition setModelNameError (s : State) (v : option string) : State :=
  {| sections := sections s; layout := layout s; layoutModalVisible := layoutModalVisible s;
     modelNameError := v; availableModels := availableModels s;
     modelModalVisible := modelModalVisible s;
     selectedResolution := selectedResolution s; isDarkMode := isDarkMode s |}.

Definition setAvailableModels (s : State) (v : list string) : State :=
  {| sections := sections s; layout := layout s; layoutModalVisible := layoutModalVisible s;
     modelNameError := modelNameError s; availableModels := v;
     modelModalVisible := modelModalVisible s;
     selectedResolution := selectedResolution s; isDarkMode := isDarkMode s |}.

Definition setModelModalVisible (s : State) (v : bool) : State :=
  {| sections := sections s; layout := layout s; layoutModalVisible := layoutModalVisible s;
     modelNameError := modelNameError s; availableModels := availableModels s;
     modelModalVisible := v;
     selectedResolution := selectedResolution s; isDarkMode := isDarkMode s |}.

Definition setSelectedResolution (s : State) (v : string) : State :=
  {| sections := sections s; layout := layout s; layoutModalVisible := layoutModalVisible s;
     modelNameError := modelNameError s; availableModels := availableModels s;
     modelModalVisible := modelModalVisible s;
     selectedResolution := v; isDarkMode := isDarkMode s |}.

Definition setIsDarkMode (s : State) (v : bool) : State :=
  {| sections := sections s; layout := layout s; layoutModalVisible := layoutModalVisible s;
     modelNameError := modelNameError s; availableModels := availableModels s;
     modelModalVisible := modelModalVisible s;
     selectedResolution := selectedResolution s; isDarkMode := v |}.

(** The [catch] of [fetchModelInfo]. *)
Definition fetchModelInfo_failed (message : string) (app : Layout.App) (s : State) (w : World)
  : Layout.App * State * World :=
  (Layout.setError (setModelName app "Hata") (Some ("Model adı alınamadı: " ++ message)),
   setModelNameError s (Some message),
   Alert_alert w "Hata" ("Model adı alınamadı: " ++ message)).

(** [fetchModelInfo], run when the component mounts.  Where the status is not
    [ok] the handler throws [data.error || 'Model adı alınamadı'] to its own
    [catch]. *)
Definition fetchModelInfo (r : ModelRequest) (app : Layout.App) (s : State) (w : World)
  : Layout.App * State * World :=
  match r with
  | Threw message => fetchModelInfo_failed message app s w
  | Responded true data => (setModelName app (model_name data), s, w)
  | Responded false data =>
      fetchModelInfo_failed (Layout.or_else (error data) "Model adı alınamadı") app s w
  end.

(** The [catch] of [fetchModelList]. *)
Definition fetchModelList_failed (message : string) (app : Layout.App) (s : State) (w : World)
  : Layout.App * State * World :=
  (Layout.setError app (Some ("Model listesi alınamadı: " ++ message)), s,
   Alert_alert w "Hata" ("Model listesi alınamadı: " ++ message)).

(** [fetchModelList], run when the component mounts. *)
Definition fetchModelList (r : ModelRequest) (app : Layout.App) (s : State) (w : World)
  : Layout.App * State * World :=
  match r with
  | Threw message => fetchModelList_failed message app s w
  | Responded true data => (app, setAvailableModels s (models data), w)
  | Responded false data =>
      fetchModelList_failed (Layout.or_else (error data) "Model listesi alınamadı") app s w
  end.

(** The [catch] of [selectModel]. *)
Definition selectModel_failed (message : string) (app : Layout.App) (s : State) (w : World)
  : Layout.App * State * World :=
  (Layout.setError app (Some ("Model ayarlanamadı: " ++ message)), s,
   Alert_alert w "Hata" ("Model ayarlanamadı: " ++ message)).

(** [selectModel]; the name asked for only travels in the request. *)
Definition selectModel (r : ModelRequest) (app : Layout.App) (s : State) (w : World)
  : Layout.App * State * World :=
  match r with
  | Threw message => selectModel_failed message app s w
  | Responded true data =>
      (setModelName app (model_name data), setModelModalVisible s false, w)
  | Responded false data =>
      selectModel_failed (Layout.or_else (error data) "Model ayarlanamadı") app s w
  end.

Definition selectResolution (resolution : string) (s : State) : State :=
  setSelectedResolution s resolution.

Definition toggleDarkMode (s : State) : State :=
  setIsDarkMode s (negb (isDarkMode s)).

(** [parseInt(layout[0])]: the value of the first character where it is a
    decimal digit, [NaN] (here [None]) otherwise and for the empty string. *)
Definition parseInt_first (layout : string) : option nat :=
  match layout with
  | EmptyString => None
  | String c _ =>
      let n := nat_of_ascii c in
      if ((48 <=? n) && (n <=? 57))%nat then Some (n - 48) else None
  end.

(** [selectLayout].  [Array(NaN)] throws a [RangeError], whose text is
    [RangeError_message], after the layout has been set. *)
Definition selectLayout (RangeError_message : string) (layout' : string) (s : State)
  : History.completion * State :=
  let s1 := setLayout s layout' in
  match parseInt_first layout' with
  | None => (History.Throws RangeError_message, s1)
  | Some numSections =>
      (History.Returns,
       setLayoutModalVisible (setSections s1 (map (fun _ => blank) (seq 0 numSections))) false)
  end.

(** The button of the error screen. *)
Definition retry (app : Layout.App) (s : State) : Layout.App * State :=
  (setModelName (Layout.setError app None) "Yükleniyor...",
   setLayout (setSections s [blank]) "1x1").

End Screen.

(** ** Sessions

    A session is a sequence of handler runs on the two components and the
    world they share; an event names the handler and says what the platform
    does during its run. *)
Record Session : Type := {
  app : Layout.App;
  screen : Screen.State;
  history : History.State;
  world : World
}.

Inductive Event : Type :=
| FetchModelInfo (r : Screen.ModelRequest)
| FetchModelList (r : Screen.ModelRequest)
| SelectModel (r : Screen.ModelRequest)
| Retry
| LoadBulkPredictionHistory (getItem : settled)
| PickBulkImages (result : Layout.ImagePickerResult)
| ProcessBulkImages (now : string) (getItem setItem : settled)
| RefreshBulkPredictionHistory (getItem : settled)
| DeleteHistoryItem (setItem : settled) (timestamp : string)
| UploadImage (now : string) (getItem setItem : settled) (index : nat) (asset : Layout.Asset)
| LoadHistory (getItem : settled)
| ResetHistory (removeItem : settled)
| UpdateNote (setItem : settled) (index : nat) (note : string).

Section Sessions.

Variable NumberToString : number -> string.
Variable TypeError_message : string.

Definition on_layout (s : Session) (r : Layout.App * World) : Session :=
  {| app := fst r; screen := screen s; history := history s; world := snd r |}.

Definition on_screen (s : Session) (r : Layout.App * Screen.State * World) : Session :=
  {| app := fst (fst r); screen := snd (fst r); history := history s; world := snd r |}.

Definition on_history (s : Session) (r : History.State * World) : Session :=
  {| app := app s; screen := screen s; history := fst r; world := snd r |}.

Definition step (s : Session) (e : Event) : Session :=
  match e with
  | FetchModelInfo r => on_screen s (Screen.fetchModelInfo r (app s) (screen s) (world s))
  | FetchModelList r => on_screen s (Screen.fetchModelList r (app s) (screen s) (world s))
  | SelectModel r => on_screen s (Screen.selectModel r (app s) (screen s) (world s))
  | Retry =>
      on_screen s (Screen.retry (app s) (screen s), world s)
  | LoadBulkPredictionHistory getItem =>
      on_layout s (Layout.loadBulkPredictionHistory getItem (app s) (world s))
  | PickBulkImages result => on_layout s (Layout.pickBulkImages result (app s) (world s))
  | ProcessBulkImages now getItem setItem =>
      on_layout s (Layout.processBulkImages now getItem setItem (app s) (world s))
  | RefreshBulkPredictionHistory getItem =>
      on_layout s (Layout.refreshBulkPredictionHistory getItem (app s) (world s))
  | DeleteHistoryItem setItem timestamp =>
      on_layout s (Layout.deleteHistoryItem setItem timestamp (app s) (world s))
  | UploadImage now getItem setItem index asset =>
      on_layout s
        (Layout.uploadImage NumberToString now getItem setItem index asset (app s) (world s))
  | LoadHistory getItem => on_history s (History.loadHistory getItem (history s) (world s))
  | ResetHistory removeItem =>
      on_history s (History.resetHistory removeItem (history s) (world s))
  | UpdateNote setItem index note =>
      let r := History.updateNote TypeError_message setItem index note (history s) (world s) in
      on_history s (snd (fst r), snd r)
  end.

Definition run (events : list Event) (s : Session) : Session :=
  fold_left step events s.

End Sessions.

(** An application in which the scenario batch has been picked. *)
Definition example_selected_app : Layout.App :=
  Layout.setBulkImages example_app
    (Some {| Layout.canceled := false; Layout.assets := example_batch |}).

(** A session of every kind of handler run, with store calls that fail among
    them. *)
Definition example_events : list Event :=
  [ FetchModelInfo (Screen.Threw "Network request failed");
    Retry;
    SelectModel (Screen.Responded true
      {| Screen.model_name := "vgg16.h5"; Screen.models := []; Screen.error := None |});
    LoadBulkPredictionHistory Resolves;
    LoadHistory Resolves;
    UploadImage "2025-02-01T10:00:00.000Z" Resolves Resolves 0
      (example_asset "6.jpg" (example_answer "Pituitary" (8 # 10)));
    PickBulkImages {| Layout.canceled := false; Layout.assets := example_batch |};
    ProcessBulkImages "2025-02-01T10:01:00.000Z" Resolves Resolves;
    ProcessBulkImages "2025-02-01T10:02:00.000Z" Resolves (Rejects "disk full");
    ProcessBulkImages "2025-02-01T10:03:00.000Z" Resolves Resolves;
    DeleteHistoryItem Resolves "2025-02-01T10:01:00.000Z";
    RefreshBulkPredictionHistory (Rejects "locked");
    LoadHistory Resolves;
    UpdateNote Resolves 0 "recheck";
    UpdateNote Resolves 7 "out of range";
    ResetHistory Resolves ].

(** The session of a component that has just been mounted over the store [st]. *)
Definition mounted (st : AsyncStorage.t) : Session :=
  {| app := Screen.initial_app;
     screen := Screen.initial;
     history := {| History.history := []; History.isLoading := true |};
     world := {| storage := st; console := []; alerts := [] |} |}.

(** The two logs as the store holds them. *)
Definition stored_single (s : Session) : list Prediction.t :=
  parse_or_empty (AsyncStorage.predictionHistory (storage (world s))).

Definition stored_bulk (s : Session) : list BulkPredictionResult.t :=
  parse_or_empty (AsyncStorage.bulkPredictionHistory (storage (world s))).

(** No log is longer than its cap, in the store or in a component. *)
Definition within_caps (s : Session) : Prop :=
  List.length (stored_single s) <= 10 /\
  List.length (History.history (history s)) <= 10 /\
  List.length (stored_bulk s) <= 50 /\
  List.length (Layout.bulkPredictionHistory (app s)) <= 50.

(** The timestamps of a bulk log. *)
Definition timestamps (log : list BulkPredictionResult.t) : list string :=
  map BulkPredictionResult.timestamp log.

(** No two records of the bulk log carry the same timestamp, in the store or
    in the component. *)
Definition distinct_timestamps (s : Session) : Prop :=
  NoDup (timestamps (stored_bulk s)) /\
  NoDup (timestamps (Layout.bulkPredictionHistory (app s))).

(** A bulk run starts at a time that no stored record carries. *)
Definition starts_afresh (s : Session) (e : Event) : Prop :=
  match e with
  | ProcessBulkImages now _ _ => ~ In now (timestamps (stored_bulk s))
  | _ => True
  end.

(** Every bulk run of a session starts afresh. *)
Fixpoint all_afresh (NumberToString : number -> string) (TypeError_message : string)
    (events : list Event) (s : Session) : Prop :=
  match events with
  | [] => True
  | e :: rest =>
      starts_afresh s e /\
      all_afresh NumberToString TypeError_message rest
        (step NumberToString TypeError_message s e)
  end.

(** The handlers that write the key of the single-prediction log, and those
    that write the key of the bulk log. *)
Definition writes_single (e : Event) : bool :=
  match e with
  | UploadImage _ _ _ _ _ | ResetHistory _ | UpdateNote _ _ _ => true
  | _ => false
  end.

Definition writes_bulk (e : Event) : bool :=
  match e with
  | ProcessBulkImages _ _ _ | DeleteHistoryItem _ _ => true
  | _ => false
  end.

(** The handlers that set the log shown by each component. *)
Definition sets_history (e : Event) : bool :=
  match e with
  | LoadHistory _ | ResetHistory _ | UpdateNote _ _ _ => true
  | _ => false
  end.

Definition sets_bulk_history (e : Event) : bool :=
  match e with
  | LoadBulkPredictionHistory _ | ProcessBulkImages _ _ _
  | RefreshBulkPredictionHistory _ | DeleteHistoryItem _ _ => true
  | _ => false
  end.

(** The bulk log shown is the bulk log stored. *)
Definition bulk_in_sync (s : Session) : Prop :=
  Layout.bulkPredictionHistory (app s) = stored_bulk s.

(** A delete whose write is rejected. *)
Definition failed_delete (e : Event) : bool :=
  match e with
  | DeleteHistoryItem (Rejects _) _ => true
  | _ => false
  end.

(** The bulk log shown is the bulk log stored, and its numbers are finite:
    what [JSON.parse] reads from the store is the log shown. *)
Definition bulk_in_sync_finite (s : Session) : Prop :=
  bulk_in_sync s /\ Forall finite_record (Layout.bulkPredictionHistory (app s)).

(** The batch that a bulk run would work on is well formed. *)
Definition runs_well_formed (s : Session) (e : Event) : Prop :=
  match e with
  | ProcessBulkImages _ _ _ =>
      forall images, Layout.bulkImages (app s) = Some images ->
                     well_formed (Layout.assets images)
  | _ => True
  end.

(** A session in which the scenario batch has been picked over a store that
    holds both logs. *)
Definition example_session : Session :=
  {| app := example_selected_app; screen := Screen.initial;
     history := example_history; world := example_stored |}.

(** The entry of [arr] at the index [getHighestProbabilityClass] settles on. *)
Definition highest_index (arr : list number) : nat :=
  Layout.reduce_maxIndex arr arr 0 0.

(** [x <= y] between numbers, false as soon as one side is [NaN]. *)
Definition leb (x y : number) : bool :=
  match x, y with
  | NaN, _ | _, NaN => false
  | _, _ => negb (ltb y x)
  end.

(** ** The bulk loop, item by item *)

Import Layout.
Local Open Scope list_scope.

(** A concrete probability vector is not empty and its entries, once
    computed, lie in [[0, 1]]. *)
Ltac probabilities_in_range :=
  split; [discriminate|];
  vm_compute; repeat (constructor; [vm_compute; split; discriminate|]); constructor.

Ltac label_cases :=
  repeat match goal with
  | H : (_ =? _)%string = true |- _ => apply String.eqb_eq in H; try rewrite H in *
  end.

Lemma processAsset_count (st : Tally * World) (a : Asset) (l : Label) :
  count_of l (results (fst (processAsset st a))) =
  count_of l (results (fst st)) + (if labelled l a then 1 else 0).
Proof.
  destruct st as [tally w]. unfold processAsset, labelled.
  destruct (predict a) as [message | ok data]; simpl; [lia|].
  destruct ok; simpl; [|lia].
  destruct (Data.class data =? "Glioma") eqn:E1;
    [|destruct (Data.class data =? "Meningioma") eqn:E2;
      [|destruct (Data.class data =? "Pituitary") eqn:E3;
        [|destruct (Data.class data =? "No Tumor") eqn:E4]]];
    label_cases; destruct l; simpl; rewrite ?E1, ?E2, ?E3, ?E4; lia.
Qed.

Lemma processAsset_samples (st : Tally * World) (a : Asset) (l : Label) :
  samples_of l (accuracies (fst (processAsset st a))) =
  samples_of l (accuracies (fst st)) ++ (if labelled l a then [sample a] else []).
Proof.
  destruct st as [tally w]. unfold processAsset, labelled, sample, probabilities.
  destruct (predict a) as [message | ok data]; simpl; [now rewrite app_nil_r|].
  destruct ok; simpl; [|now rewrite app_nil_r].
  destruct (Data.class data =? "Glioma") eqn:E1;
    [|destruct (Data.class data =? "Meningioma") eqn:E2;
      [|destruct (Data.class data =? "Pituitary") eqn:E3;
        [|destruct (Data.class data =? "No Tumor") eqn:E4]]];
    label_cases; destruct l; simpl; rewrite ?E1, ?E2, ?E3, ?E4, ?app_nil_r; reflexivity.
Qed.

Lemma processAsset_header (st : Tally * World) (a : Asset) :
  same_header (results (fst st)) (results (fst (processAsset st a))).
Proof.
  destruct st as [tally w]. unfold processAsset, same_header.
  destruct (predict a) as [message | ok data]; simpl; [intuition|].
  destruct ok; simpl; [|intuition].
  destruct (Data.class data =? "Glioma");
    [|destruct (Data.class data =? "Meningioma");
      [|destruct (Data.class data =? "Pituitary");
        [|destruct (Data.class data =? "No Tumor")]]];
    simpl; repeat split; intros []; reflexivity.
Qed.

Lemma processAsset_tally (t : Tally) (w w' : World) (a : Asset) :
  fst (processAsset (t, w) a) = fst (processAsset (t, w') a).
Proof.
  unfold processAsset.
  destruct (predict a) as [message | [|] data]; simpl; try reflexivity.
  repeat match goal with |- context [if ?b then _ else _] => destruct b end; reflexivity.
Qed.

Lemma processAsset_world (st : Tally * World) (a : Asset) :
  snd (processAsset st a) =
  match predict a with
  | Threw message => console_write (snd st) ("Image upload error: " ++ message)%string
  | Responded _ _ => snd st
  end.
Proof.
  destruct st as [t w]. unfold processAsset.
  destruct (predict a) as [message | [|] data]; simpl; try reflexivity.
  repeat match goal with |- context [if ?b then _ else _] => destruct b end; reflexivity.
Qed.

Lemma processAsset_failed (st : Tally * World) (a : Asset) :
  failed a = true -> fst (processAsset st a) = fst st.
Proof.
  destruct st as [t w]. unfold failed, processAsset.
  destruct (predict a) as [message | [|] data]; simpl; intros H;
    try discriminate; reflexivity.
Qed.

Lemma processAsset_unclassified (st : Tally * World) (a : Asset) :
  threw a = false -> classified a = false -> processAsset st a = st.
Proof.
  destruct st as [t w]. unfold threw, classified, labelled, processAsset.
  destruct (predict a) as [message | [|] data]; simpl; intros H C;
    try discriminate; try reflexivity.
  repeat match type of C with
  | (?b || _)%bool = false => destruct b; [discriminate|simpl in C]
  end.
  reflexivity.
Qed.

(** ** The bulk loop over a batch *)

Lemma bulkLoop_cons (a : Asset) (batch : list Asset) (st : Tally * World) :
  bulkLoop (a :: batch) st = bulkLoop batch (processAsset st a).
Proof. reflexivity. Qed.

Lemma bulkLoop_app (b1 b2 : list Asset) (st : Tally * World) :
  bulkLoop (b1 ++ b2) st = bulkLoop b2 (bulkLoop b1 st).
Proof. apply fold_left_app. Qed.

Lemma bulkLoop_count (l : Label) (batch : list Asset) :
  forall st,
    count_of l (results (fst (bulkLoop batch st))) =
    count_of l (results (fst st)) + how_many (labelled l) batch.
Proof.
  unfold how_many.
  induction batch as [|a batch IH]; intros st.
  - simpl. lia.
  - rewrite bulkLoop_cons, IH, processAsset_count. simpl.
    destruct (labelled l a); simpl; lia.
Qed.

Lemma bulkLoop_samples (l : Label) (batch : list Asset) :
  forall st,
    samples_of l (accuracies (fst (bulkLoop batch st))) =
    samples_of l (accuracies (fst st)) ++ samples_in l batch.
Proof.
  unfold samples_in.
  induction batch as [|a batch IH]; intros st.
  - simpl. now rewrite app_nil_r.
  - rewrite bulkLoop_cons, IH, processAsset_samples. simpl.
    destruct (labelled l a); simpl; rewrite <- app_assoc; reflexivity.
Qed.

Lemma bulkLoop_header (batch : list Asset) :
  forall st, same_header (results (fst st)) (results (fst (bulkLoop batch st))).
Proof.
  induction batch as [|a batch IH]; intros st.
  - unfold same_header. simpl. intuition.
  - rewrite bulkLoop_cons.
    destruct (IH (processAsset st a)) as (M & T & G & A).
    destruct (processAsset_header st a) as (M' & T' & G' & A').
    unfold same_header. repeat split; try congruence.
Qed.

Lemma bulkLoop_tally (batch : list Asset) :
  forall t w w', fst (bulkLoop batch (t, w)) = fst (bulkLoop batch (t, w')).
Proof.
  induction batch as [|a batch IH]; intros t w w'; [reflexivity|].
  rewrite !bulkLoop_cons.
  pose proof (processAsset_tally t w w' a) as E.
  destruct (processAsset (t, w) a) as [t1 w1], (processAsset (t, w') a) as [t2 w2].
  simpl in E. subst t2. apply IH.
Qed.

Lemma bulkLoop_skips_failed (batch : list Asset) :
  forall st,
    fst (bulkLoop batch st) = fst (bulkLoop (filter succeeded batch) st).
Proof.
  induction batch as [|a batch IH]; intros st; [reflexivity|].
  simpl filter. unfold succeeded at 1. destruct (failed a) eqn:F; simpl negb; cbv iota.
  - rewrite bulkLoop_cons, <- IH.
    pose proof (processAsset_failed st a F) as E.
    destruct (processAsset st a) as [t1 w1], st as [t w]. simpl in E. subst t1.
    apply bulkLoop_tally.
  - rewrite !bulkLoop_cons. apply IH.
Qed.

Lemma bulkLoop_world (batch : list Asset) :
  forall st,
    storage (snd (bulkLoop batch st)) = storage (snd st) /\
    alerts (snd (bulkLoop batch st)) = alerts (snd st) /\
    List.length (console (snd (bulkLoop batch st))) =
      List.length (console (snd st)) + how_many threw batch.
Proof.
  unfold how_many.
  induction batch as [|a batch IH]; intros st.
  - simpl. repeat split; lia.
  - rewrite bulkLoop_cons.
    destruct (IH (processAsset st a)) as (S & A & C).
    rewrite S, A, C, processAsset_world. unfold threw. simpl.
    destruct (predict a); simpl; [rewrite length_app; simpl|]; repeat split; lia.
Qed.

Lemma bulkResults_fst (app : App) (now : string) (batch : list Asset) (w : World) :
  fst (bulkResults app now batch w) =
  set_means (fst (bulkLoop batch (initial_tally app now, w))).
Proof.
  unfold bulkResults. destruct (bulkLoop batch _). reflexivity.
Qed.

Lemma bulkResults_snd (app : App) (now : string) (batch : list Asset) (w : World) :
  snd (bulkResults app now batch w) =
  snd (bulkLoop batch (initial_tally app now, w)).
Proof.
  unfold bulkResults. destruct (bulkLoop batch _). reflexivity.
Qed.

Lemma bulkResults_count (l : Label) (app : App) (now : string) (batch : list Asset) (w : World) :
  count_of l (fst (bulkResults app now batch w)) = how_many (labelled l) batch.
Proof.
  rewrite bulkResults_fst.
  transitivity (count_of l (results (fst (bulkLoop batch (initial_tally app now, w))))).
  - destruct l; reflexivity.
  - rewrite bulkLoop_count. destruct l; reflexivity.
Qed.

Lemma bulkResults_accuracy (l : Label) (app : App) (now : string) (batch : list Asset) (w : World) :
  accuracy_of l (fst (bulkResults app now batch w)) = mean_accuracy (samples_in l batch).
Proof.
  rewrite bulkResults_fst. unfold set_means.
  transitivity (mean_accuracy (samples_of l (accuracies (fst (bulkLoop batch (initial_tally app now, w)))))).
  - destruct l; reflexivity.
  - rewrite bulkLoop_samples. destruct l; reflexivity.
Qed.

Lemma labelled_classified (a : Asset) :
  (if labelled Glioma a then 1 else 0) + (if labelled Meningioma a then 1 else 0) +
  (if labelled Pituitary a then 1 else 0) + (if labelled NoTumor a then 1 else 0) =
  if classified a then 1 else 0.
Proof.
  unfold classified, labelled. simpl.
  destruct (predict a) as [message | [|] data]; simpl; try reflexivity.
  destruct (Data.class data =? "Glioma") eqn:E1;
    [|destruct (Data.class data =? "Meningioma") eqn:E2;
      [|destruct (Data.class data =? "Pituitary") eqn:E3;
        [|destruct (Data.class data =? "No Tumor") eqn:E4]]];
    label_cases; reflexivity.
Qed.

Lemma how_many_classified (batch : list Asset) :
  how_many (labelled Glioma) batch + how_many (labelled Meningioma) batch +
  how_many (labelled Pituitary) batch + how_many (labelled NoTumor) batch =
  how_many classified batch.
Proof.
  unfold how_many.
  induction batch as [|a batch IH]; [reflexivity|].
  pose proof (labelled_classified a) as E. simpl.
  destruct (labelled Glioma a), (labelled Meningioma a), (labelled Pituitary a),
    (labelled NoTumor a), (classified a); simpl in *; lia.
Qed.

Lemma classified_succeeded (a : Asset) : classified a = true -> succeeded a = true.
Proof.
  unfold classified, labelled, succeeded, failed. simpl.
  destruct (predict a) as [message | [|] data]; simpl; intros H;
    try discriminate; reflexivity.
Qed.

Lemma how_many_split (f : Asset -> bool) (batch : list Asset) :
  how_many f batch + how_many (fun a => negb (f a)) batch = List.length batch.
Proof.
  unfold how_many.
  induction batch as [|a batch IH]; [reflexivity|].
  simpl. destruct (f a); simpl; lia.
Qed.

Lemma how_many_le (f g : Asset -> bool) (batch : list Asset) :
  (forall a, In a batch -> f a = true -> g a = true) ->
  how_many f batch <= how_many g batch.
Proof.
  unfold how_many.
  induction batch as [|a batch IH]; intros H; [simpl; lia|].
  assert (IH' := IH (fun x Hx => H x (or_intror Hx))).
  pose proof (H a (or_introl eq_refl)) as Ha. simpl.
  destruct (f a), (g a); simpl; try lia.
Qed.

Lemma bulkResults_counts_sum (app : App) (now : string) (batch : list Asset) (w : World) :
  counts_sum (fst (bulkResults app now batch w)) = how_many classified batch.
Proof.
  rewrite <- how_many_classified.
  rewrite <- !(fun l => bulkResults_count l app now batch w).
  reflexivity.
Qed.

Lemma how_many_app (f : Asset -> bool) (b1 b2 : list Asset) :
  how_many f (b1 ++ b2) = how_many f b1 + how_many f b2.
Proof. unfold how_many. now rewrite filter_app, length_app. Qed.

Lemma how_many_cons (f : Asset -> bool) (a : Asset) (batch : list Asset) :
  how_many f (a :: batch) = (if f a then 1 else 0) + how_many f batch.
Proof. unfold how_many. simpl. now destruct (f a). Qed.

Lemma bulkResults_skips_failed (app : App) (now : string) (batch : list Asset) (w : World) :
  fst (bulkResults app now batch w) = fst (bulkResults app now (filter succeeded batch) w).
Proof. now rewrite !bulkResults_fst, <- bulkLoop_skips_failed. Qed.

Lemma filter_succeeded_drop (b1 b2 : list Asset) (a : Asset) :
  failed a = true -> filter succeeded (b1 ++ a :: b2) = filter succeeded (b1 ++ b2).
Proof.
  intros F. rewrite !filter_app. simpl. unfold succeeded at 2. now rewrite F.
Qed.

(** [processBulkImages] shows the record of [bulkResults] whatever the store
    does, and puts it at the head of the log when the store calls resolve. *)
Lemma processBulkImages_record
    (now : string) (getItem setItem : settled) (app : App) (w : World)
    (images : ImagePickerResult) :
  bulkImages app = Some images -> canceled images = false ->
  bulkPrediction (fst (processBulkImages now getItem setItem app w)) =
    Some (fst (bulkResults app now (assets images) w)) /\
  hd_error (bulkPredictionHistory (fst (processBulkImages now Resolves Resolves app w))) =
    Some (fst (bulkResults app now (assets images) w)).
Proof.
  intros I C. unfold processBulkImages. rewrite I, C.
  destruct (bulkResults app now (assets images) w) as [r w1]. simpl fst.
  split; [|reflexivity].
  unfold saveBulkResults. destruct getItem; [destruct setItem|]; reflexivity.
Qed.

(** ** Counts and failures of a bulk run *)

(** C2.  In a bulk run over a batch of [N] items of which [F] fail, every other
    item being answered with one of the four classes, the four counts of the
    record sum to [N - F]; a failed item changes neither a counter nor a list
    of samples, the loop goes on with the items after it, and the record is the
    one the batch without that item gives. *)
Theorem bulk_counts_sum_to_successes
    (app : App) (now : string) (batch : list Asset) (w : World) :
  (forall a, In a batch -> succeeded a = true -> classified a = true) ->
  how_many failed batch <= List.length batch /\
  counts_sum (fst (bulkResults app now batch w)) = List.length batch - how_many failed batch /\
  forall b1 a b2, batch = b1 ++ a :: b2 -> failed a = true ->
    let st := bulkLoop b1 (initial_tally app now, w) in
    fst (processAsset st a) = fst st /\
    bulkLoop batch (initial_tally app now, w) = bulkLoop b2 (processAsset st a) /\
    fst (bulkResults app now batch w) = fst (bulkResults app now (b1 ++ b2) w).
Proof.
  intros H.
  pose proof (how_many_split failed batch) as S.
  assert (C : how_many classified batch = how_many succeeded batch).
  { apply Nat.le_antisymm; apply how_many_le; intros a Ha.
    - apply classified_succeeded.
    - apply H, Ha. }
  split; [lia|]. split.
  - rewrite bulkResults_counts_sum, C. unfold succeeded. lia.
  - intros b1 a b2 -> F st. repeat split.
    + apply processAsset_failed, F.
    + now rewrite bulkLoop_app, bulkLoop_cons.
    + rewrite bulkResults_skips_failed, (bulkResults_skips_failed _ _ (b1 ++ b2)).
      now rewrite filter_succeeded_drop.
Qed.

Lemma bulk_counts_sum_to_successes_witness :
  counts_sum (fst (bulkResults example_app "t" example_batch example_world)) =
    List.length example_batch - how_many failed example_batch /\
  fst (bulkResults example_app "t" example_batch example_world) =
    fst (bulkResults example_app "t"
           [example_asset "1.jpg" (example_answer "Glioma" (9 # 10));
            example_asset "3.jpg" (example_answer "Glioma" (7 # 10))] example_world).
Proof.
  assert (H : forall a, In a example_batch -> succeeded a = true -> classified a = true).
  { intros a [<-|[<-|[<-|[]]]]; intros S; try reflexivity; discriminate S. }
  destruct (bulk_counts_sum_to_successes example_app "t" example_batch example_world H)
    as (_ & C & K).
  split; [exact C|].
  exact (proj2 (proj2 (K [example_asset "1.jpg" (example_answer "Glioma" (9 # 10))]
                         (example_asset "2.jpg" (Threw "Network request failed"))
                         [example_asset "3.jpg" (example_answer "Glioma" (7 # 10))]
                         eq_refl eq_refl))).
Defined.

(** C1, as the code has it.  The loop keeps no count of failures and the
    record has no field for one: the record of a batch is that of the batch
    without its failed items.  The only trace of a failure is one line on the
    console for each item whose request threw; the store and the alerts are
    left as they were. *)
Theorem bulk_record_ignores_failures
    (app : App) (now : string) (batch : list Asset) (w : World) :
  fst (bulkResults app now batch w) = fst (bulkResults app now (filter succeeded batch) w) /\
  List.length (console (snd (bulkResults app now batch w))) =
    List.length (console w) + how_many threw batch /\
  storage (snd (bulkResults app now batch w)) = storage w /\
  alerts (snd (bulkResults app now batch w)) = alerts w.
Proof.
  split; [apply bulkResults_skips_failed|].
  rewrite bulkResults_snd.
  destruct (bulkLoop_world batch (initial_tally app now, w)) as (S & A & C).
  auto.
Qed.

(** C1 fails as stated: the scenario batch, where one item fails, and the same
    batch without that item, where none does, give the same record; so
    nothing computed from the record tells the number of failed items. *)
Lemma failure_count_not_reported :
  fst (bulkResults example_app "t" example_batch example_world) =
    fst (bulkResults example_app "t" (filter succeeded example_batch) example_world) /\
  how_many failed example_batch = 1 /\
  how_many failed (filter succeeded example_batch) = 0 /\
  ~ exists report : BulkPredictionResult.t -> nat,
      forall batch,
        report (fst (bulkResults example_app "t" batch example_world)) = how_many failed batch.
Proof.
  assert (E := bulkResults_skips_failed example_app "t" example_batch example_world).
  repeat split; try exact E; try reflexivity.
  intros [report R].
  pose proof (R example_batch) as R1.
  pose proof (R (filter succeeded example_batch)) as R2.
  rewrite E, R2 in R1. discriminate R1.
Qed.

(** C10.  An item answered [ok] with a class that is none of the four leaves
    the loop state as it was: no counter, no sample, nothing on the console.
    In every batch that holds such an item the four counts sum to less than
    the number of items answered [ok]. *)
Theorem unknown_class_is_dropped (a : Asset) (data : Data.t) :
  predict a = Responded true data ->
  ~ In (Data.class data) (map label_name all_labels) ->
  (forall st, processAsset st a = st) /\
  succeeded a = true /\ failed a = false /\ threw a = false /\
  forall app now w b1 b2,
    counts_sum (fst (bulkResults app now (b1 ++ a :: b2) w)) <
    how_many succeeded (b1 ++ a :: b2).
Proof.
  intros P N.
  assert (S : succeeded a = true) by (unfold succeeded, failed; now rewrite P).
  assert (T : threw a = false) by (unfold threw; now rewrite P).
  assert (C : classified a = false).
  { unfold classified, labelled. rewrite P. simpl.
    repeat match goal with
    | |- ((?x =? ?y)%string || _)%bool = false =>
        destruct (String.eqb_spec x y) as [E|_]; [exfalso; apply N; rewrite E; simpl; tauto|simpl]
    end.
    reflexivity. }
  split; [intros st; now apply processAsset_unclassified|].
  split; [exact S|]. split; [unfold succeeded in S; now destruct (failed a)|].
  split; [exact T|].
  intros app now w b1 b2.
  rewrite bulkResults_counts_sum, !how_many_app.
  pose proof (how_many_le classified succeeded b1 (fun x _ => classified_succeeded x)).
  pose proof (how_many_le classified succeeded b2 (fun x _ => classified_succeeded x)).
  rewrite !how_many_cons, C, S. lia.
Qed.

Lemma unknown_class_is_dropped_witness :
  counts_sum (fst (bulkResults example_app "t"
    [example_asset "4.jpg" (example_answer "Unknown" (9 # 10))] example_world)) <
  how_many succeeded [example_asset "4.jpg" (example_answer "Unknown" (9 # 10))].
Proof.
  refine (proj2 (proj2 (proj2 (proj2
    (unknown_class_is_dropped (example_asset "4.jpg" (example_answer "Unknown" (9 # 10)))
       _ eq_refl _)))) example_app "t" example_world [] []).
  simpl. intros [H|[H|[H|[H|[]]]]]; discriminate H.
Defined.

(** ** Rounding to binary64 *)

Section Rounding.

Local Open Scope Q_scope.

Lemma pow2_pos (e : Z) : 0 < pow2 e.
Proof. apply Qpower_0_lt. reflexivity. Qed.

Lemma pow2_nonneg_exp (e : Z) : (0 <= e)%Z -> pow2 e == inject_Z (2 ^ e).
Proof. intros H. unfold pow2. now rewrite Zpower_Qpower. Qed.

Lemma pow2_opp (e : Z) : pow2 e * pow2 (- e) == 1.
Proof.
  unfold pow2. rewrite <- Qpower_plus by discriminate.
  now rewrite Z.add_opp_diag_r.
Qed.

Lemma ilog2_le (q : Q) : 0 < q -> pow2 (ilog2 q) <= q.
Proof.
  intros Hq. unfold ilog2.
  destruct (Qle_bool _ q) eqn:E; [now apply Qle_bool_iff|].
  destruct q as [n d]. simpl Qnum. simpl Qden.
  assert (Hn : (0 < n)%Z).
  { unfold Qlt in Hq. simpl in Hq. lia. }
  set (a := Z.log2 n). set (b := Z.log2 (Z.pos d)).
  assert (Ha : (0 <= a)%Z) by apply Z.log2_nonneg.
  assert (Hb : (0 <= b)%Z) by apply Z.log2_nonneg.
  replace (a - b - 1)%Z with (a - (b + 1))%Z by ring.
  unfold pow2. rewrite Qpower_minus by discriminate.
  fold (pow2 a). fold (pow2 (b + 1)).
  rewrite !pow2_nonneg_exp by lia.
  rewrite (Qmake_Qdiv n d).
  assert (Hd : 0 < inject_Z (Z.pos d)) by reflexivity.
  assert (H2 : 0 < inject_Z (2 ^ (b + 1))).
  { rewrite <- pow2_nonneg_exp by lia. apply pow2_pos. }
  apply Qle_shift_div_r; [exact H2|].
  unfold Qdiv. rewrite <- Qmult_assoc, (Qmult_comm (/ _)), Qmult_assoc.
  apply Qle_shift_div_l; [exact Hd|].
  rewrite <- !inject_Z_mult, <- Zle_Qle.
  destruct (Z.log2_spec n Hn) as [L1 _].
  destruct (Z.log2_spec (Z.pos d) eq_refl) as [_ L2].
  fold a in L1. fold b in L2. rewrite <- Z.add_1_r in L2.
  assert (0 < 2 ^ a)%Z by (apply Z.pow_pos_nonneg; lia).
  nia.
Qed.

Lemma rne_nonneg (m : Q) : 0 <= m -> (0 <= rne m)%Z.
Proof.
  intros H. unfold rne.
  assert (F : (0 <= Qfloor m)%Z).
  { rewrite <- (Qfloor_Z 0). now apply Qfloor_resp_le. }
  destruct (Qcompare _ _); [destruct (Z.even _)| |]; lia.
Qed.

Lemma rne_le (m : Q) (k : Z) : m <= inject_Z k -> (rne m <= k)%Z.
Proof.
  intros H. unfold rne.
  assert (F : (Qfloor m <= k)%Z).
  { rewrite <- (Qfloor_Z k). now apply Qfloor_resp_le. }
  assert (U : (1 # 2) <= m - inject_Z (Qfloor m) -> (Qfloor m + 1 <= k)%Z).
  { intros G.
    assert (L : inject_Z (Qfloor m) < inject_Z k) by lra.
    rewrite <- Zlt_Qlt in L. lia. }
  destruct (Qcompare_spec (m - inject_Z (Qfloor m)) (1 # 2)) as [E|E|E].
  - destruct (Z.even _); [lia|]. apply U. rewrite E. apply Qle_refl.
  - lia.
  - apply U. now apply Qlt_le_weak.
Qed.

(** Rounding keeps a value between zero and an integer below [2^53]. *)
Lemma round64_between (q : Q) (k : Z) :
  (k < 2 ^ 53)%Z -> 0 <= q -> q <= inject_Z k -> between 0 (inject_Z k) (round64 q).
Proof.
  intros Hk H0 Hq. unfold round64.
  destruct (Qeq_bool q 0) eqn:Z0.
  { simpl. split; [apply Qle_refl|lra]. }
  assert (Hpos : 0 < q).
  { apply Qeq_bool_neq in Z0. apply Qle_lteq in H0. destruct H0 as [H0|H0]; [exact H0|].
    exfalso. apply Z0. now symmetry. }
  assert (A : Qabs q == q) by (apply Qabs_pos; lra).
  set (l := ilog2 (Qabs q)).
  assert (Hl : (l <= 52)%Z).
  { assert (L : pow2 l <= Qabs q).
    { apply ilog2_le. now rewrite A. }
    assert (L' : pow2 l < pow2 53).
    { rewrite (pow2_nonneg_exp 53) by lia.
      apply Qle_lt_trans with (inject_Z k); [lra|]. now rewrite <- Zlt_Qlt. }
    apply Qpower_lt_compat_l_inv in L'; [lia|reflexivity]. }
  set (e := fexp l).
  assert (He : (e <= 0)%Z) by (unfold e, fexp; lia).
  set (m := q / pow2 e).
  assert (Hm0 : 0 <= m).
  { unfold m. apply Qle_shift_div_l; [apply pow2_pos|lra]. }
  assert (Hmk : m <= inject_Z (k * 2 ^ (- e))).
  { unfold m. apply Qle_shift_div_r; [apply pow2_pos|].
    rewrite inject_Z_mult, <- pow2_nonneg_exp by lia.
    rewrite <- Qmult_assoc, (Qmult_comm (pow2 (- e))), pow2_opp. lra. }
  pose proof (rne_nonneg m Hm0) as R0.
  pose proof (rne_le m _ Hmk) as Rk.
  set (r := inject_Z (rne m) * pow2 e).
  assert (Hr0 : 0 <= r).
  { unfold r. apply Qmult_le_0_compat; [now rewrite <- (Zle_Qle 0)|].
    apply Qlt_le_weak, pow2_pos. }
  assert (Hrk : r <= inject_Z k).
  { unfold r.
    apply Qle_trans with (inject_Z (k * 2 ^ (- e)) * pow2 e).
    - apply Qmult_le_compat_r; [now rewrite <- Zle_Qle|apply Qlt_le_weak, pow2_pos].
    - rewrite inject_Z_mult, <- pow2_nonneg_exp by lia.
      rewrite <- Qmult_assoc, (Qmult_comm (pow2 (- e))), pow2_opp. lra. }
  assert (O : Qle_bool (pow2 1024) (Qabs r) = false).
  { destruct (Qle_bool _ _) eqn:B; [|reflexivity].
    apply Qle_bool_iff in B. rewrite Qabs_pos in B by exact Hr0.
    assert (C : inject_Z (2 ^ 53) <= pow2 1024) by (apply Qle_bool_iff; vm_compute; reflexivity).
    assert (D : inject_Z k < inject_Z (2 ^ 53)) by now rewrite <- Zlt_Qlt.
    lra. }
  rewrite O. pose proof (Qred_correct r) as QR.
  unfold between. split; lra.
Qed.

Lemma between_weaken (lo hi lo' hi' : Q) (x : number) :
  lo' <= lo -> hi <= hi' -> between lo hi x -> between lo' hi' x.
Proof. destruct x; simpl; intros; try tauto. lra. Qed.

Lemma Math_max_step_between (lo hi : Q) (xs : list number) :
  forall h,
    between lo hi h -> Forall (between lo hi) xs ->
    between lo hi
      (fold_left
         (fun highest x =>
            match highest, x with
            | NaN, _ | _, NaN => NaN
            | _, _ => if ltb highest x then x else highest
            end) xs h).
Proof.
  induction xs as [|x xs IH]; intros h Hh Hxs; [exact Hh|].
  inversion Hxs as [|? ? Hx Hrest]; subst.
  simpl. apply IH; [|exact Hrest].
  destruct h as [a| | |], x as [b| | |]; try contradiction.
  destruct (ltb (Fin a) (Fin b)); assumption.
Qed.

Lemma Math_max_between (lo hi : Q) (xs : list number) :
  xs <> [] -> Forall (between lo hi) xs -> between lo hi (Math_max xs).
Proof.
  destruct xs as [|x xs]; intros N F; [contradiction|].
  inversion F as [|? ? Hx Hrest]; subst.
  unfold Math_max. simpl.
  apply Math_max_step_between; [|exact Hrest].
  destruct x; try contradiction. exact Hx.
Qed.

Lemma mul_100_between (x : number) :
  between 0 1 x -> between 0 100 (mul x (Fin 100)).
Proof.
  destruct x as [q| | |]; simpl; try tauto. intros [L U].
  apply (round64_between (q * 100) 100); [reflexivity|lra|].
  change (inject_Z 100) with 100. lra.
Qed.

Lemma sum_between (xs : list number) :
  forall (acc : number) (k : Z),
    (0 <= k)%Z ->
    (100 * (k + Z.of_nat (List.length xs)) < 2 ^ 53)%Z ->
    between 0 (inject_Z (100 * k)) acc ->
    Forall (between 0 100) xs ->
    between 0 (inject_Z (100 * (k + Z.of_nat (List.length xs)))) (fold_left add xs acc).
Proof.
  induction xs as [|x xs IH]; intros acc k Hk Hlen Hacc Hxs.
  - simpl List.length. simpl Z.of_nat. now rewrite Z.add_0_r.
  - inversion Hxs as [|? ? Hx Hrest]; subst.
    simpl fold_left.
    replace (k + Z.of_nat (List.length (x :: xs)))%Z
      with ((k + 1) + Z.of_nat (List.length xs))%Z in *
      by (simpl List.length; lia).
    apply IH; [lia|exact Hlen| |exact Hrest].
    destruct acc as [a| | |], x as [b| | |]; try contradiction.
    unfold between in Hacc, Hx. unfold add.
    apply round64_between; [lia|lra|].
    replace (100 * (k + 1))%Z with (100 * k + 100)%Z by ring.
    rewrite inject_Z_plus. change (inject_Z 100) with 100. lra.
Qed.

Lemma div_length_between (s : number) (n : Z) :
  (0 < n)%Z -> between 0 (inject_Z (100 * n)) s ->
  between 0 100 (div s (Fin (inject_Z n))).
Proof.
  intros Hn Hs. destruct s as [a| | |]; try contradiction.
  unfold between in Hs. unfold div.
  assert (P : 0 < inject_Z n) by (now rewrite <- (Zlt_Qlt 0)).
  destruct (Qeq_bool (inject_Z n) 0) eqn:E.
  { apply Qeq_bool_iff in E. lra. }
  rewrite inject_Z_mult in Hs. change (inject_Z 100) with 100 in Hs.
  apply (round64_between (a / inject_Z n) 100); [reflexivity| |].
  - apply Qle_shift_div_l; [exact P|lra].
  - apply Qle_shift_div_r; [exact P|]. change (inject_Z 100) with 100. lra.
Qed.

Lemma Number_toFixed2_between (x : number) :
  between 0 100 x -> between 0 100 (Number_toFixed2 x).
Proof.
  destruct x as [q| | |]; try contradiction. intros [L U].
  unfold Number_toFixed2.
  assert (A : Qabs q == q) by (now apply Qabs_pos).
  destruct (Qle_bool toFixed_limit (Qabs q)) eqn:B.
  { simpl. split; assumption. }
  assert (P : Qle_bool 0 q = true) by now apply Qle_bool_iff.
  rewrite P.
  set (n := toFixed2_n (Qabs q)).
  assert (N0 : (0 <= n)%Z).
  { unfold n, toFixed2_n. rewrite <- (Qfloor_Z 0). apply Qfloor_resp_le.
    change (inject_Z 0) with 0. lra. }
  assert (N1 : (n <= 10000)%Z).
  { pose proof (Qfloor_le (Qabs q * 100 + (1 # 2))) as F. fold (toFixed2_n (Qabs q)) in F.
    fold n in F.
    assert (G : inject_Z n < inject_Z 10001) by (change (inject_Z 10001) with 10001; lra).
    rewrite <- Zlt_Qlt in G. lia. }
  rewrite Zle_Qle in N0, N1. change (inject_Z 10000) with 10000 in N1.
  change (inject_Z 0) with 0 in N0.
  apply (round64_between (inject_Z n / 100) 100); [reflexivity| |].
  - apply Qle_shift_div_l; [reflexivity|lra].
  - apply Qle_shift_div_r; [reflexivity|]. change (inject_Z 100) with 100. lra.
Qed.

Lemma mean_accuracy_nonempty (xs : list number) :
  xs <> [] -> mean_accuracy xs = Number_toFixed2 (arithmetic_mean xs).
Proof. destruct xs; [contradiction|reflexivity]. Qed.

Lemma arithmetic_mean_between (xs : list number) :
  xs <> [] -> (Z.of_nat (List.length xs) <= MAX_ARRAY_LENGTH)%Z ->
  Forall (between 0 100) xs -> between 0 100 (arithmetic_mean xs).
Proof.
  intros N L F. unfold arithmetic_mean, of_length.
  assert (P : (0 < Z.of_nat (List.length xs))%Z) by (destruct xs; [contradiction|simpl; lia]).
  apply div_length_between; [exact P|].
  unfold MAX_ARRAY_LENGTH in L.
  apply (sum_between xs (Fin 0) 0); [lia|simpl Z.add; lia| |exact F].
  simpl. split; apply Qle_refl.
Qed.

Lemma mean_accuracy_between (xs : list number) :
  xs <> [] -> (Z.of_nat (List.length xs) <= MAX_ARRAY_LENGTH)%Z ->
  Forall (between 0 100) xs -> between 0 100 (mean_accuracy xs).
Proof.
  intros N L F. rewrite mean_accuracy_nonempty by exact N.
  now apply Number_toFixed2_between, arithmetic_mean_between.
Qed.

Lemma Qabs_nonneg_eq (q : Q) : 0 <= q -> Qabs q = q.
Proof.
  destruct q as [n d]. unfold Qle. simpl. intros H.
  unfold Qabs. f_equal. apply Z.abs_eq. lia.
Qed.

(** [toFixed2_n q / 100] is a decimal with 2 places nearest to [q]. *)
Lemma toFixed2_n_nearest (q : Q) :
  Qabs (inject_Z (toFixed2_n q) / 100 - q) <= 1 # 200.
Proof.
  unfold toFixed2_n.
  pose proof (Qfloor_le (q * 100 + (1 # 2))) as L.
  pose proof (Qlt_floor (q * 100 + (1 # 2))) as U.
  rewrite inject_Z_plus in U. change (inject_Z 1) with 1 in U.
  set (n := inject_Z (Qfloor (q * 100 + (1 # 2)))) in *.
  apply Qabs_Qle_condition. split.
  - apply Qle_minus_iff. setoid_replace (n / 100 - q + - - (1 # 200))
      with ((n + 1 - (q * 100 + (1 # 2))) / 100) by field.
    apply Qle_shift_div_l; [reflexivity|lra].
  - apply Qle_minus_iff. setoid_replace ((1 # 200) + - (n / 100 - q))
      with ((q * 100 + (1 # 2) - n) / 100) by field.
    apply Qle_shift_div_l; [reflexivity|lra].
Qed.

(** Within [[0, 100]], [Number(x.toFixed(2))] is the binary64 value nearest
    to that decimal. *)
Lemma Number_toFixed2_rounds (q : Q) :
  0 <= q -> q <= 100 ->
  Number_toFixed2 (Fin q) = round64 (inject_Z (toFixed2_n q) / 100).
Proof.
  intros L U. unfold Number_toFixed2. rewrite (Qabs_nonneg_eq q L).
  assert (B : Qle_bool toFixed_limit q = false).
  { destruct (Qle_bool toFixed_limit q) eqn:B; [|reflexivity].
    apply Qle_bool_iff in B.
    assert (C : 100 < toFixed_limit) by reflexivity. lra. }
  rewrite B. now rewrite (proj2 (Qle_bool_iff 0 q) L).
Qed.

(** *** The distance between a rounded value and the exact one *)

Lemma rne_error (m : Q) : Qabs (inject_Z (rne m) - m) <= 1 # 2.
Proof.
  unfold rne.
  pose proof (Qfloor_le m) as L. pose proof (Qlt_floor m) as U.
  rewrite inject_Z_plus in U. change (inject_Z 1) with 1 in U.
  set (f := Qfloor m) in *.
  apply Qabs_Qle_condition.
  destruct (Qcompare_spec (m - inject_Z f) (1 # 2)) as [E|E|E].
  - destruct (Z.even f); [|rewrite inject_Z_plus; change (inject_Z 1) with 1]; split; lra.
  - split; lra.
  - rewrite inject_Z_plus; change (inject_Z 1) with 1; split; lra.
Qed.

Lemma pow2_succ (e : Z) : pow2 (e + 1) == 2 * pow2 e.
Proof.
  unfold pow2. rewrite Qpower_plus by discriminate. change (2 ^ 1) with 2. ring.
Qed.

Lemma pow2_le (a b : Z) : (a <= b)%Z -> pow2 a <= pow2 b.
Proof. intros H. unfold pow2. apply Qpower_le_compat_l; [exact H|discriminate]. Qed.

Lemma round64_error (q : Q) (k : Z) :
  (0 <= k <= 52)%Z -> 0 <= q -> q <= pow2 k ->
  exists r, round64 q = Fin r /\ 0 <= r /\ r <= pow2 k /\ Qabs (r - q) <= pow2 (k - 53).
Proof.
  intros Hk H0 Hq.
  assert (K53 : (2 ^ k < 2 ^ 53)%Z) by (apply Z.pow_lt_mono_r; lia).
  assert (Hq' : q <= inject_Z (2 ^ k)) by (rewrite <- pow2_nonneg_exp by lia; exact Hq).
  pose proof (round64_between q (2 ^ k) K53 H0 Hq') as B.
  destruct (round64 q) as [r| | |] eqn:E; try contradiction.
  exists r. destruct B as [B0 B1].
  rewrite <- pow2_nonneg_exp in B1 by lia.
  repeat split; try assumption.
  unfold round64 in E.
  destruct (Qeq_bool q 0) eqn:Z0.
  { apply Qeq_bool_iff in Z0. injection E as <-. rewrite Z0.
    setoid_replace (0 - 0) with 0 by ring. simpl Qabs.
    apply Qlt_le_weak, pow2_pos. }
  assert (Hpos : 0 < q).
  { apply Qeq_bool_neq in Z0. apply Qle_lteq in H0. destruct H0 as [H0|H0]; [exact H0|].
    exfalso. apply Z0. now symmetry. }
  assert (A : Qabs q == q) by (apply Qabs_pos; lra).
  set (l := ilog2 (Qabs q)) in *.
  assert (Hl : (l <= k)%Z).
  { assert (L : pow2 l <= Qabs q) by (apply ilog2_le; now rewrite A).
    assert (L' : pow2 l <= pow2 k) by lra.
    destruct (Z_le_gt_dec l k) as [G|G]; [exact G|exfalso].
    assert (S : pow2 (k + 1) <= pow2 l) by (apply pow2_le; lia).
    rewrite pow2_succ in S. pose proof (pow2_pos k). lra. }
  set (e := fexp l) in *.
  assert (He : (e <= k - 52)%Z) by (unfold e, fexp; lia).
  set (m := q / pow2 e) in *.
  destruct (Qle_bool (pow2 1024) _); [rewrite (proj2 (Qle_bool_iff 0 q) H0) in E; discriminate|].
  assert (R : r == inject_Z (rne m) * pow2 e) by (injection E as <-; exact (Qred_correct (inject_Z (rne m) * pow2 e))).
  rewrite R.
  pose proof (pow2_pos e) as Pe.
  setoid_replace (inject_Z (rne m) * pow2 e - q) with ((inject_Z (rne m) - m) * pow2 e)
    by (unfold m; field; lra).
  rewrite Qabs_Qmult, (Qabs_pos (pow2 e)) by lra.
  apply Qle_trans with ((1 # 2) * pow2 (k - 52)).
  - apply Qle_trans with ((1 # 2) * pow2 e).
    + apply Qmult_le_compat_r; [apply rne_error|lra].
    + apply Qmult_le_l; [reflexivity|now apply pow2_le].
  - replace (k - 52)%Z with (k - 53 + 1)%Z by ring. rewrite pow2_succ. lra.
Qed.

Lemma Qlarger_cases (a b : Q) :
  (a <= b /\ Qlarger a b = b) \/ (b < a /\ Qlarger a b = a).
Proof.
  unfold Qlarger. destruct (Qle_bool a b) eqn:E.
  - left. split; [now apply Qle_bool_iff|reflexivity].
  - right. split; [|reflexivity]. apply Qnot_le_lt. intros H.
    apply Qle_bool_iff in H. congruence.
Qed.

Lemma Qlarger_spec (a b : Q) :
  (a <= b /\ Qlarger a b == b) \/ (b < a /\ Qlarger a b == a).
Proof.
  destruct (Qlarger_cases a b) as [[? ->]|[? ->]]; [left|right]; split;
    try assumption; reflexivity.
Qed.

Lemma largest_between (ps : list number) :
  Forall (between 0 1) ps -> 0 <= largest ps /\ largest ps <= 1.
Proof.
  induction 1 as [|p ps Hp _ IH]; [simpl; lra|].
  destruct p as [q| | |]; try contradiction. destruct Hp as [Q0 Q1].
  cbn [largest fold_right value]. fold (largest ps).
  destruct (Qlarger_cases q (largest ps)) as [[_ ->]|[_ ->]]; lra.
Qed.

(** [Math.max] over probabilities agrees with the largest of the rationals
    they denote. *)
Lemma Math_max_step_largest (ps : list number) :
  Forall (between 0 1) ps ->
  forall h : Q, 0 <= h ->
    exists m : Q,
      fold_left
        (fun highest x =>
           match highest, x with
           | NaN, _ | _, NaN => NaN
           | _, _ => if ltb highest x then x else highest
           end) ps (Fin h) = Fin m /\
      m == Qlarger h (largest ps).
Proof.
  induction 1 as [|p ps Hp Hps IH]; intros h Hh.
  - exists h. split; [reflexivity|]. cbn [largest fold_right].
    destruct (Qlarger_cases h 0) as [[L ->]|[_ ->]]; lra.
  - destruct p as [q| | |]; try contradiction. destruct Hp as [Q0 Q1].
    pose proof (largest_between ps Hps) as [L0 L1].
    cbn [fold_left largest fold_right value]. fold (largest ps).
    replace (if ltb (Fin h) (Fin q) then Fin q else Fin h)
      with (Fin (if ltb (Fin h) (Fin q) then q else h))
      by (destruct (ltb (Fin h) (Fin q)); reflexivity).
    assert (St : exists h', (if ltb (Fin h) (Fin q) then q else h) = h' /\
                   ((h' = q /\ h < q) \/ (h' = h /\ q <= h))).
    { unfold ltb. destruct (Qcompare_spec h q) as [E|E|E].
      - exists h. split; [reflexivity|]. right. split; [reflexivity|]. lra.
      - exists q. split; [reflexivity|]. left. split; [reflexivity|exact E].
      - exists h. split; [reflexivity|]. right. split; [reflexivity|]. lra. }
    destruct St as [h' [-> St]].
    assert (H' : 0 <= h') by (destruct St as [[-> _]|[-> _]]; assumption).
    destruct (IH h' H') as [m [-> M]]. exists m. split; [reflexivity|].
    rewrite M.
    destruct (Qlarger_spec h' (largest ps)) as [[? ?]|[? ?]];
      destruct (Qlarger_spec q (largest ps)) as [[? ?]|[? ?]];
      destruct (Qlarger_spec h (Qlarger q (largest ps))) as [[? ?]|[? ?]];
      destruct St as [[-> S]|[-> S]]; lra.
Qed.

Lemma Math_max_largest (ps : list number) :
  ps <> [] -> Forall (between 0 1) ps ->
  exists m : Q, Math_max ps = Fin m /\ m == largest ps /\ 0 <= m /\ m <= 1.
Proof.
  destruct ps as [|p ps]; intros N F; [contradiction|].
  pose proof (largest_between _ F) as [L0 L1].
  inversion F as [|? ? Hp Hps]; subst.
  destruct p as [q| | |]; try contradiction. destruct Hp as [Q0 Q1].
  destruct (Math_max_step_largest ps Hps q Q0) as [m [E M]].
  exists m. split; [exact E|].
  assert (M' : m == largest (Fin q :: ps)) by exact M.
  split; [exact M'|]. lra.
Qed.

Lemma pow2_7 : pow2 7 == 128.
Proof. reflexivity. Qed.

(** A sample is within [2^-46] of 100 times the largest probability. *)
Lemma sample_error (a : Asset) :
  probabilities a <> [] -> Forall (between 0 1) (probabilities a) ->
  exists s : Q,
    sample a = Fin s /\ 0 <= s /\ s <= 100 /\ Qabs (s - exact_sample a) <= pow2 (-46).
Proof.
  intros N F. unfold sample, exact_sample.
  destruct (Math_max_largest _ N F) as [m [-> [M [M0 M1]]]].
  pose proof (mul_100_between (Fin m) (conj M0 M1)) as B.
  unfold mul in *.
  destruct (round64_error (m * 100) 7) as [r [E [_ [_ R]]]];
    [lia|lra|rewrite pow2_7; lra|].
  rewrite E in *. destruct B as [B0 B1].
  exists r. repeat split; try assumption.
  rewrite <- M. setoid_replace (r - 100 * m) with (r - m * 100) by ring. exact R.
Qed.

Lemma sum_error (K : Z) (ss : list number) (xs : list Q) :
  (0 <= K <= 52)%Z ->
  Forall2 sample_near ss xs ->
  forall (j : Z) (a A : Q),
    (0 <= j)%Z ->
    (100 * (j + Z.of_nat (List.length ss)) <= 2 ^ K)%Z ->
    0 <= a -> a <= inject_Z (100 * j) ->
    Qabs (a - A) <= inject_Z j * (pow2 (K - 53) + pow2 (-46)) ->
    exists a' : Q,
      fold_left add ss (Fin a) = Fin a' /\
      0 <= a' /\ a' <= inject_Z (100 * (j + Z.of_nat (List.length ss))) /\
      Qabs (a' - (A + Qsum xs)) <=
        inject_Z (j + Z.of_nat (List.length ss)) * (pow2 (K - 53) + pow2 (-46)).
Proof.
  intros HK. induction 1 as [|s x ss xs [v [-> [V0 [V1 V]]]] _ IH];
    intros j a A Hj Hlen A0 A1 HA.
  - exists a. cbn [fold_left List.length Qsum fold_right Z.of_nat].
    rewrite Z.add_0_r. repeat split; try assumption.
    setoid_replace (a - (A + 0)) with (a - A) by ring. exact HA.
  - cbn [fold_left]. unfold add at 2.
    replace (j + Z.of_nat (List.length (Fin v :: ss)))%Z
      with ((j + 1) + Z.of_nat (List.length ss))%Z in *
      by (cbn [List.length]; lia).
    assert (K53 : (2 ^ K < 2 ^ 53)%Z) by (apply Z.pow_lt_mono_r; lia).
    assert (J : inject_Z (100 * (j + 1)) == inject_Z (100 * j) + 100).
    { replace (100 * (j + 1))%Z with (100 * j + 100)%Z by ring.
      rewrite inject_Z_plus. reflexivity. }
    assert (T : inject_Z (100 * (j + 1)) <= pow2 K).
    { rewrite pow2_nonneg_exp by lia. rewrite <- Zle_Qle. lia. }
    pose proof (round64_between (a + v) (100 * (j + 1))) as B.
    destruct (round64_error (a + v) K) as [r [E [_ [_ R]]]]; [lia|lra|lra|].
    rewrite E in *.
    destruct B as [B0 B1]; [lia|lra|lra|].
    destruct (IH (j + 1)%Z r (A + x)) as [a' [F [F0 [F1 F2]]]];
      [lia|exact Hlen|exact B0|exact B1| |].
    + rewrite inject_Z_plus. change (inject_Z 1) with 1.
      set (eta := pow2 (K - 53)) in *. set (eps := pow2 (-46)) in *.
      apply Qabs_Qle_condition in R, V, HA. apply Qabs_Qle_condition.
      split; lra.
    + exists a'. repeat split; try assumption.
      cbn [Qsum fold_right]. fold (Qsum xs).
      setoid_replace (a' - (A + (x + Qsum xs))) with (a' - (A + x + Qsum xs)) by ring.
      exact F2.
Qed.

Lemma toFixed2_n_range (q : Q) :
  0 <= q -> q <= 100 -> (0 <= toFixed2_n q <= 10000)%Z.
Proof.
  intros L U. split.
  - unfold toFixed2_n. rewrite <- (Qfloor_Z 0). apply Qfloor_resp_le.
    change (inject_Z 0) with 0. lra.
  - pose proof (Qfloor_le (q * 100 + (1 # 2))) as F. fold (toFixed2_n q) in F.
    assert (G : inject_Z (toFixed2_n q) < inject_Z 10001)
      by (change (inject_Z 10001) with 10001; lra).
    rewrite <- Zlt_Qlt in G. lia.
Qed.

(** The mean the program records for samples that are near exact ones. *)
Lemma mean_accuracy_error (K : Z) (ss : list number) (xs : list Q) :
  (0 <= K <= 52)%Z ->
  Forall2 sample_near ss xs ->
  ss <> [] ->
  (100 * Z.of_nat (List.length ss) <= 2 ^ K)%Z ->
  exists (k : Z) (r : Q),
    mean_accuracy ss = Fin r /\
    round64 (inject_Z k / 100) = Fin r /\
    (0 <= k <= 10000)%Z /\
    0 <= r /\ r <= 100 /\
    Qabs (r - inject_Z k / 100) <= pow2 (-46) /\
    Qabs (inject_Z k / 100 - exact_mean xs) <= (1 # 200) + pow2 (K - 53) + pow2 (-45).
Proof.
  intros HK F N Hlen.
  rewrite mean_accuracy_nonempty by exact N.
  unfold arithmetic_mean, of_length, exact_mean.
  rewrite <- (Forall2_length F).
  set (n := Z.of_nat (List.length ss)) in *.
  assert (Hn : (0 < n)%Z) by (unfold n; destruct ss; [contradiction|cbn [List.length]; lia]).
  assert (Pn : 0 < inject_Z n) by (now rewrite <- (Zlt_Qlt 0)).
  destruct (sum_error K ss xs HK F 0 0 0) as [S [E [S0 [S1 HS]]]];
    [lia|exact Hlen|lra|apply Qle_refl| |].
  { setoid_replace (0 - 0) with 0 by ring. simpl Qabs.
    change (inject_Z 0) with 0. lra. }
  fold n in S1, HS. rewrite Z.add_0_l in S1, HS.
  rewrite E.
  pose proof (div_length_between (Fin S) n Hn (conj S0 S1)) as B.
  unfold div in *.
  destruct (Qeq_bool (inject_Z n) 0) eqn:Zn.
  { apply Qeq_bool_iff in Zn. lra. }
  rewrite inject_Z_mult in S1. change (inject_Z 100) with 100 in S1.
  assert (D0 : 0 <= S / inject_Z n) by (apply Qle_shift_div_l; [exact Pn|lra]).
  assert (D1 : S / inject_Z n <= 100) by (apply Qle_shift_div_r; [exact Pn|lra]).
  destruct (round64_error (S / inject_Z n) 7) as [m [Em [_ [_ Rm]]]];
    [lia|exact D0|rewrite pow2_7; lra|].
  rewrite Em in *. destruct B as [M0 M1].
  rewrite (Number_toFixed2_rounds m M0 M1).
  pose proof (Number_toFixed2_between (Fin m) (conj M0 M1)) as B.
  rewrite (Number_toFixed2_rounds m M0 M1) in B.
  pose proof (toFixed2_n_range m M0 M1) as HKk.
  pose proof (toFixed2_n_nearest m) as Near.
  set (k := toFixed2_n m) in *.
  assert (C0 : 0 <= inject_Z k / 100).
  { apply Qle_shift_div_l; [reflexivity|]. rewrite Qmult_0_l.
    rewrite <- (Zle_Qle 0). lia. }
  assert (C1 : inject_Z k / 100 <= 100).
  { apply Qle_shift_div_r; [reflexivity|].
    change (100 * 100) with (inject_Z 10000). rewrite <- Zle_Qle. lia. }
  destruct (round64_error (inject_Z k / 100) 7) as [r [Er [_ [_ Rr]]]];
    [lia|exact C0|rewrite pow2_7; lra|].
  rewrite Er in *. destruct B as [R0 R1].
  exists k, r. repeat split; try assumption; try lia.
  assert (P45 : pow2 (-45) == 2 * pow2 (-46)) by reflexivity.
  assert (Mean : Qabs (S / inject_Z n - Qsum xs / inject_Z n) <= pow2 (K - 53) + pow2 (-46)).
  { set (eta := pow2 (K - 53) + pow2 (-46)) in *.
    apply Qabs_Qle_condition in HS. destruct HS as [HS0 HS1].
    setoid_replace (S / inject_Z n - Qsum xs / inject_Z n)
      with ((S - (0 + Qsum xs)) / inject_Z n) by (field; lra).
    apply Qabs_Qle_condition. split.
    - apply Qle_shift_div_l; [exact Pn|]. lra.
    - apply Qle_shift_div_r; [exact Pn|]. lra. }
  set (eta := pow2 (K - 53)) in *. set (eps := pow2 (-46)) in *.
  change (7 - 53)%Z with (-46)%Z in Rm, Rr. fold eps in Rm, Rr.
  apply Qabs_Qle_condition in Rm, Near, Mean. apply Qabs_Qle_condition.
  split; lra.
Qed.

End Rounding.

(** ** Mean confidence of a class *)

Lemma samples_in_nil (l : Label) (batch : list Asset) :
  how_many (labelled l) batch = 0 -> samples_in l batch = [].
Proof.
  unfold how_many, samples_in.
  destruct (filter (labelled l) batch); [reflexivity|discriminate].
Qed.

Lemma samples_in_length (l : Label) (batch : list Asset) :
  List.length (samples_in l batch) = how_many (labelled l) batch.
Proof. unfold samples_in, how_many. apply length_map. Qed.

Lemma how_many_length (f : Asset -> bool) (batch : list Asset) :
  how_many f batch <= List.length batch.
Proof. apply filter_length_le. Qed.

Lemma samples_in_between (l : Label) (batch : list Asset) :
  (forall a, In a batch -> labelled l a = true ->
     probabilities a <> [] /\ Forall (between 0 1) (probabilities a)) ->
  Forall (between 0 100) (samples_in l batch).
Proof.
  intros H. unfold samples_in. apply Forall_map, Forall_forall.
  intros a Ha. apply filter_In in Ha. destruct Ha as [I L].
  destruct (H a I L) as [N F].
  apply mul_100_between, Math_max_between; assumption.
Qed.

(** C3.  In every bulk run, a class without a successful sample has mean
    confidence exactly 0, a finite number and not [NaN].  The mean of a list of
    samples is 0 for the empty list and is otherwise a quotient whose divisor,
    the number of samples, is positive: no division by zero takes place. *)
Theorem zero_samples_mean_zero
    (app : App) (now : string) (batch : list Asset) (w : World) (l : Label) :
  how_many (labelled l) batch = 0 ->
  count_of l (fst (bulkResults app now batch w)) = 0 /\
  accuracy_of l (fst (bulkResults app now batch w)) = Fin 0 /\
  accuracy_of l (fst (bulkResults app now batch w)) <> NaN /\
  forall xs : list number,
    (xs = [] /\ mean_accuracy xs = Fin 0) \/
    (exists k : Z, (0 < k)%Z /\ of_length xs = Fin (inject_Z k) /\
       mean_accuracy xs = Number_toFixed2 (div (fold_left add xs (Fin 0)) (Fin (inject_Z k)))).
Proof.
  intros Z. rewrite bulkResults_count, bulkResults_accuracy, (samples_in_nil l batch Z).
  repeat split; try assumption; try discriminate.
  intros [|x xs]; [left; split; reflexivity|right].
  exists (Z.of_nat (List.length (x :: xs))). repeat split.
Qed.

Lemma zero_samples_mean_zero_witness :
  (forall l, accuracy_of l (fst (bulkResults example_app "t" [] example_world)) = Fin 0) /\
  (forall l, accuracy_of l (fst (bulkResults example_app "t"
     [example_asset "2.jpg" (Threw "Network request failed");
      example_asset "5.jpg" (Responded false
        {| Data.class := ""; Data.probability := []; Data.preprocess_function := None;
           Data.error := Some "No file part" |})] example_world)) = Fin 0) /\
  accuracy_of Meningioma (fst (bulkResults example_app "t" example_batch example_world)) = Fin 0.
Proof.
  repeat split; intros;
    refine (proj1 (proj2 (zero_samples_mean_zero example_app "t" _ example_world _ _)));
    try destruct l; reflexivity.
Defined.

Lemma samples_near_exact (l : Label) (batch : list Asset) :
  (forall a, In a batch -> labelled l a = true ->
     probabilities a <> [] /\ Forall (between 0 1) (probabilities a)) ->
  Forall2 sample_near (samples_in l batch) (exact_samples_in l batch).
Proof.
  intros H. unfold samples_in, exact_samples_in.
  assert (G : forall a, In a (filter (labelled l) batch) ->
                probabilities a <> [] /\ Forall (between 0 1) (probabilities a)).
  { intros a Ha. apply filter_In in Ha. destruct Ha. now apply H. }
  induction (filter (labelled l) batch) as [|a rest IH]; [constructor|].
  cbn [map]. constructor.
  - destruct (G a (or_introl eq_refl)) as [N F]. now apply sample_error.
  - apply IH. intros b Hb. apply G. now right.
Qed.

Lemma well_formed_finite_record
    (app : App) (now : string) (batch : list Asset) (w : World) :
  well_formed batch -> finite_record (fst (bulkResults app now batch w)).
Proof.
  intros [L P] l. rewrite bulkResults_accuracy.
  destruct (samples_in l batch) as [|x xs] eqn:E; [reflexivity|].
  rewrite <- E.
  assert (B : between 0 100 (mean_accuracy (samples_in l batch))).
  { apply mean_accuracy_between.
    - rewrite E. discriminate.
    - rewrite samples_in_length. pose proof (how_many_length (labelled l) batch). lia.
    - apply samples_in_between. intros a I La. apply P; [exact I|].
      revert La. unfold labelled, succeeded, failed.
      destruct (predict a) as [message|[|] data]; intros La;
        try discriminate La; reflexivity. }
  destruct (mean_accuracy (samples_in l batch)); try contradiction. reflexivity.
Qed.

(** C4.  In a bulk run where every item of the class [l] carries a probability
    vector that is not empty and whose entries lie in [[0, 1]], and where the
    class has at least one sample, the mean confidence recorded for [l] is a
    decimal with 2 places, [k / 100] for an integer [0 <= k <= 10000], held as
    the binary64 value nearest to it: a number of [[0, 100]] within [2^-46]
    of [k / 100].  That decimal is next to the arithmetic mean of the samples
    taken in exact arithmetic, 100 times the largest probability of each item
    of the class: it is within [1/200 + 2^(K-53) + 2^-45] of it, where [2^K]
    bounds 100 times the number of samples.  The sum and the quotient are
    binary64 operations, so the decimal need not be the one nearest to the
    exact mean. *)
Theorem mean_confidence_near_exact_mean
    (app : App) (now : string) (batch : list Asset) (w : World) (l : Label) (K : Z) :
  (0 <= K <= 52)%Z ->
  (100 * Z.of_nat (how_many (labelled l) batch) <= 2 ^ K)%Z ->
  (forall a, In a batch -> labelled l a = true ->
     probabilities a <> [] /\ Forall (between 0 1) (probabilities a)) ->
  1 <= how_many (labelled l) batch ->
  exists (k : Z) (r : Q),
    accuracy_of l (fst (bulkResults app now batch w)) = Fin r /\
    round64 (inject_Z k / 100) = Fin r /\
    (0 <= k <= 10000)%Z /\
    (0 <= r /\ r <= 100)%Q /\
    (Qabs (r - inject_Z k / 100) <= pow2 (-46))%Q /\
    (Qabs (inject_Z k / 100 - exact_mean (exact_samples_in l batch))
       <= (1 # 200) + pow2 (K - 53) + pow2 (-45))%Q.
Proof.
  intros HK Hlen P C.
  rewrite bulkResults_accuracy.
  assert (N : samples_in l batch <> []).
  { intros E. pose proof (samples_in_length l batch) as S. rewrite E in S. simpl in S. lia. }
  rewrite <- samples_in_length in Hlen.
  destruct (mean_accuracy_error K _ _ HK (samples_near_exact l batch P) N Hlen)
    as [k [r [E [Er [Hk [R0 [R1 [Rr Rm]]]]]]]].
  exists k, r. repeat split; try assumption; lia.
Qed.

Lemma mean_confidence_near_exact_mean_witness :
  exists (k : Z) (r : Q),
    accuracy_of Glioma (fst (bulkResults example_app "t" example_batch example_world)) = Fin r /\
    (0 <= k <= 10000)%Z /\
    (0 <= r /\ r <= 100)%Q /\
    (Qabs (inject_Z k / 100 - exact_mean (exact_samples_in Glioma example_batch))
       <= (1 # 200) + pow2 (8 - 53) + pow2 (-45))%Q.
Proof.
  destruct (mean_confidence_near_exact_mean example_app "t" example_batch example_world
              Glioma 8) as (k & r & A & _ & Hk & [R0 R1] & _ & M).
  - lia.
  - vm_compute. discriminate.
  - intros a [<-|[<-|[<-|[]]]]; intros E; try discriminate E;
      probabilities_in_range.
  - vm_compute. lia.
  - exists k, r. repeat split; try assumption; lia.
Defined.

(** The recorded mean is not always the exact mean of the samples rounded to
    2 decimals.  For two gliomas at 0.9 and 0.9001 the samples are 90 and the
    binary64 value next to 90.01; their exact mean lies above 90.005, and so
    does the exact mean of 100 times the two probabilities: both round to
    90.01.  The binary64 sum and quotient give a value below 90.005, and the
    record holds 90. *)
Lemma recorded_mean_not_exact_mean_rounded :
  let recorded :=
    accuracy_of Glioma (fst (bulkResults example_app "t" example_close_batch example_world)) in
  let samples := samples_in Glioma example_close_batch in
  recorded = Fin 90 /\
  samples = [Fin 90; Fin (6333890663431537 # 70368744177664)] /\
  (Qabs ((9001 # 100) - exact_mean (map value samples)) <= 1 # 200)%Q /\
  (1 # 200 < Qabs (90 - exact_mean (map value samples)))%Q /\
  (Qabs ((9001 # 100) - exact_mean (exact_samples_in Glioma example_close_batch)) <= 1 # 200)%Q /\
  (1 # 200 < Qabs (90 - exact_mean (exact_samples_in Glioma example_close_batch)))%Q /\
  recorded <> round64 (9001 # 100).
Proof.
  cbv zeta. repeat split; try (vm_compute; reflexivity); try (vm_compute; discriminate).
Qed.

(** The scenario of the specification: two gliomas at 0.90 and 0.70 and a
    failed item give a count of 2 and a mean confidence of 80. *)
Example scenario_two_gliomas_one_failure :
  let r := fst (bulkResults example_app "t" example_batch example_world) in
  BulkPredictionResult.glioma r = 2 /\
  BulkPredictionResult.gliomaAccuracy r = Fin 80 /\
  counts_sum r = 2 /\
  BulkPredictionResult.meningiomaAccuracy r = Fin 0 /\
  BulkPredictionResult.pituitaryAccuracy r = Fin 0 /\
  BulkPredictionResult.noTumorAccuracy r = Fin 0.
Proof. vm_compute. repeat split. Qed.

(** Without the test on the length, the mean of no sample would be [0 / 0]. *)
Remark mean_of_nothing_unguarded : Number_toFixed2 (arithmetic_mean []) = NaN.
Proof. reflexivity. Qed.

(** ** The bounded logs *)

Lemma insert_slice {A : Type} (cap : nat) (x : A) (log : list A) :
  slice0 (S cap) (unshift x log) = x :: firstn cap log /\
  List.length (slice0 (S cap) (unshift x log)) = Nat.min (S cap) (S (List.length log)).
Proof.
  unfold slice0, unshift. split; [reflexivity|]. apply length_firstn.
Qed.

Lemma firstn_removelast {A : Type} (log : list A) (cap : nat) :
  List.length log = S cap -> firstn cap log = removelast log.
Proof.
  intros L.
  assert (N : log <> []) by (intros ->; discriminate L).
  destruct (exists_last N) as (front & oldest & ->).
  rewrite length_app in L. simpl in L.
  rewrite removelast_last, firstn_app.
  replace (cap - List.length front) with 0 by lia.
  rewrite firstn_all2 by lia. simpl. apply app_nil_r.
Qed.

(** C5.  Saving a record puts it at the head of the stored log and cuts the
    result to the cap, 10 for the single-prediction log and 50 for the bulk
    log.  When the stored log is at its cap, the new log has exactly the cap
    as length, starts with the new record and goes on with the old log without
    its last record, in the same order. *)
Theorem bounded_log_insertion
    (p : Prediction.t) (r : BulkPredictionResult.t) (app : App) (w : World) :
  let single := parse_or_empty (AsyncStorage.predictionHistory (storage w)) in
  let bulk := parse_or_empty (AsyncStorage.bulkPredictionHistory (storage w)) in
  let w1 := savePrediction Resolves Resolves p w in
  let s2 := saveBulkResults Resolves Resolves r app w in
  (AsyncStorage.predictionHistory (storage w1) = Some (p :: firstn 9 single) /\
   List.length (p :: firstn 9 single) = Nat.min 10 (S (List.length single)) /\
   AsyncStorage.bulkPredictionHistory (storage w1) = AsyncStorage.bulkPredictionHistory (storage w)) /\
  (AsyncStorage.bulkPredictionHistory (storage (snd s2)) = Some (r :: firstn 49 bulk) /\
   bulkPredictionHistory (fst s2) = r :: firstn 49 bulk /\
   List.length (r :: firstn 49 bulk) = Nat.min 50 (S (List.length bulk)) /\
   AsyncStorage.predictionHistory (storage (snd s2)) = AsyncStorage.predictionHistory (storage w)) /\
  (List.length single = 10 ->
   AsyncStorage.predictionHistory (storage w1) = Some (p :: removelast single) /\
   List.length (p :: removelast single) = 10 /\
   single = removelast single ++ [last single p]) /\
  (List.length bulk = 50 ->
   AsyncStorage.bulkPredictionHistory (storage (snd s2)) = Some (r :: removelast bulk) /\
   List.length (r :: removelast bulk) = 50 /\
   bulk = removelast bulk ++ [last bulk r]).
Proof.
  intros single bulk w1 s2.
  assert (E1 : AsyncStorage.predictionHistory (storage w1) = Some (p :: firstn 9 single))
    by reflexivity.
  assert (E2 : AsyncStorage.bulkPredictionHistory (storage (snd s2)) = Some (r :: firstn 49 bulk))
    by reflexivity.
  split; [|split; [|split]].
  - repeat split; try reflexivity. apply (insert_slice 9 p single).
  - repeat split; try reflexivity. apply (insert_slice 49 r bulk).
  - intros L. rewrite E1, (firstn_removelast single 9 L).
    repeat split.
    + rewrite <- (firstn_removelast single 9 L). cbn [List.length]. rewrite length_firstn. lia.
    + apply app_removelast_last. intros N. rewrite N in L. discriminate L.
  - intros L. rewrite E2, (firstn_removelast bulk 49 L).
    repeat split.
    + rewrite <- (firstn_removelast bulk 49 L). cbn [List.length]. rewrite length_firstn. lia.
    + apply app_removelast_last. intros N. rewrite N in L. discriminate L.
Qed.

Lemma bounded_log_insertion_witness :
  (AsyncStorage.predictionHistory
     (storage (savePrediction Resolves Resolves (example_prediction 10) example_stored)) =
   Some (example_prediction 10 :: removelast example_single_log) /\
   List.length (example_prediction 10 :: removelast example_single_log) = 10 /\
   example_single_log = removelast example_single_log ++ [example_prediction 0]) /\
  (AsyncStorage.bulkPredictionHistory
     (storage (snd (saveBulkResults Resolves Resolves (example_record "50") example_app
        (with_storage example_stored
           (AsyncStorage.set_bulkPredictionHistory (storage example_stored)
              (Some example_full_bulk_log)))))) =
   Some (example_record "50" :: removelast example_full_bulk_log) /\
   List.length (example_record "50" :: removelast example_full_bulk_log) = 50 /\
   example_full_bulk_log = removelast example_full_bulk_log ++ [example_record "0"]).
Proof.
  split.
  - exact (proj1 (proj2 (proj2
      (bounded_log_insertion (example_prediction 10) (example_record "50")
         example_app example_stored))) eq_refl).
  - exact (proj2 (proj2 (proj2
      (bounded_log_insertion (example_prediction 10) (example_record "50") example_app
         (with_storage example_stored
            (AsyncStorage.set_bulkPredictionHistory (storage example_stored)
               (Some example_full_bulk_log)))))) eq_refl).
Defined.

(** ** Deleting a bulk record *)

Lemma filter_other_timestamp_all (timestamp : string) (log : list BulkPredictionResult.t) :
  (forall x, In x log -> BulkPredictionResult.timestamp x <> timestamp) ->
  filter (other_timestamp timestamp) log = log.
Proof.
  induction log as [|x log IH]; intros H; [reflexivity|].
  simpl. unfold other_timestamp at 1.
  destruct (String.eqb_spec (BulkPredictionResult.timestamp x) timestamp) as [E|_].
  - exfalso. exact (H x (or_introl eq_refl) E).
  - simpl. f_equal. apply IH. intros y Hy. apply H. now right.
Qed.

Lemma filter_other_timestamp_one
    (timestamp : string) (l1 l2 : list BulkPredictionResult.t) (r : BulkPredictionResult.t) :
  BulkPredictionResult.timestamp r = timestamp ->
  (forall x, In x (l1 ++ l2) -> BulkPredictionResult.timestamp x <> timestamp) ->
  filter (other_timestamp timestamp) (l1 ++ r :: l2) = l1 ++ l2.
Proof.
  intros E H. rewrite filter_app. simpl. unfold other_timestamp at 2.
  rewrite (proj2 (String.eqb_eq _ _) E). simpl.
  rewrite <- filter_app. now apply filter_other_timestamp_all.
Qed.

Lemma setBulkPredictionHistory_same (app : App) :
  setBulkPredictionHistory app (bulkPredictionHistory app) = app.
Proof. now destruct app. Qed.

(** C6.  [deleteHistoryItem] with a timestamp that one record of the log
    carries, and no other, removes that record and keeps the others in their
    order, in the state and, once the write went through, in the store.  With
    a timestamp that no record carries, the state is left as it was, the store
    holds the same log, and nothing is written to the console or alerted. *)
Theorem deleteHistoryItem_removes_the_match
    (setItem : settled) (timestamp : string) (app : App) (w : World) :
  (forall l1 r l2,
     bulkPredictionHistory app = l1 ++ r :: l2 ->
     BulkPredictionResult.timestamp r = timestamp ->
     (forall x, In x (l1 ++ l2) -> BulkPredictionResult.timestamp x <> timestamp) ->
     bulkPredictionHistory (fst (deleteHistoryItem setItem timestamp app w)) = l1 ++ l2 /\
     List.length (bulkPredictionHistory (fst (deleteHistoryItem setItem timestamp app w))) + 1 =
       List.length (bulkPredictionHistory app) /\
     AsyncStorage.bulkPredictionHistory
       (storage (snd (deleteHistoryItem Resolves timestamp app w))) = Some (l1 ++ l2)) /\
  ((forall x, In x (bulkPredictionHistory app) -> BulkPredictionResult.timestamp x <> timestamp) ->
   fst (deleteHistoryItem setItem timestamp app w) = app /\
   AsyncStorage.bulkPredictionHistory
     (storage (snd (deleteHistoryItem Resolves timestamp app w))) =
     Some (bulkPredictionHistory app) /\
   console (snd (deleteHistoryItem Resolves timestamp app w)) = console w /\
   alerts (snd (deleteHistoryItem Resolves timestamp app w)) = alerts w).
Proof.
  split.
  - intros l1 r l2 E T U.
    assert (F : filter (other_timestamp timestamp) (bulkPredictionHistory app) = l1 ++ l2).
    { rewrite E. now apply filter_other_timestamp_one. }
    assert (M : bulkPredictionHistory (fst (deleteHistoryItem setItem timestamp app w)) = l1 ++ l2).
    { unfold deleteHistoryItem. rewrite F. now destruct setItem. }
    repeat split.
    + exact M.
    + rewrite M, E, !length_app. simpl. lia.
    + unfold deleteHistoryItem. now rewrite F.
  - intros U.
    assert (F : filter (other_timestamp timestamp) (bulkPredictionHistory app) =
                bulkPredictionHistory app)
      by now apply filter_other_timestamp_all.
    repeat split; unfold deleteHistoryItem; rewrite F; try reflexivity.
    destruct setItem; apply setBulkPredictionHistory_same.
Qed.

Lemma deleteHistoryItem_removes_the_match_witness :
  (bulkPredictionHistory
     (fst (deleteHistoryItem Resolves "2025-01-02"
             (setBulkPredictionHistory example_app example_bulk_log) example_stored)) =
   [example_record "2025-01-03"; example_record "2025-01-01"]) /\
  (fst (deleteHistoryItem Resolves "2024-12-31"
          (setBulkPredictionHistory example_app example_bulk_log) example_stored) =
   setBulkPredictionHistory example_app example_bulk_log).
Proof.
  split.
  - refine (proj1 (proj1 (deleteHistoryItem_removes_the_match Resolves "2025-01-02"
        (setBulkPredictionHistory example_app example_bulk_log) example_stored)
        [example_record "2025-01-03"] (example_record "2025-01-02") [example_record "2025-01-01"]
        eq_refl eq_refl _)).
    intros x [<-|[<-|[]]]; discriminate.
  - refine (proj1 (proj2 (deleteHistoryItem_removes_the_match Resolves "2024-12-31"
        (setBulkPredictionHistory example_app example_bulk_log) example_stored) _)).
    intros x [<-|[<-|[<-|[]]]]; discriminate.
Defined.

(** A timestamp shared by several records removes them all. *)
Remark deleteHistoryItem_shared_timestamp :
  bulkPredictionHistory
    (fst (deleteHistoryItem Resolves "2025-01-02"
            (setBulkPredictionHistory example_app
               [example_record "2025-01-02"; example_record "2025-01-03";
                example_record "2025-01-02"]) example_stored)) =
  [example_record "2025-01-03"].
Proof. reflexivity. Qed.

(** ** Retrying the history operations *)

Lemma filter_twice {A : Type} (f : A -> bool) (xs : list A) :
  filter f (filter f xs) = filter f xs.
Proof.
  induction xs as [|x xs IH]; [reflexivity|].
  simpl. destruct (f x) eqn:E; simpl; rewrite ?E, IH; reflexivity.
Qed.

Lemma loadHistory_again (getItem : settled) (st : History.State) (w : World) :
  single_view (again (History.loadHistory getItem) (History.loadHistory getItem st w)) =
  single_view (History.loadHistory getItem st w).
Proof.
  unfold again, History.loadHistory.
  destruct getItem; [|reflexivity].
  destruct (AsyncStorage.predictionHistory (storage w)) eqn:E; simpl; rewrite E; reflexivity.
Qed.

Lemma resetHistory_again (removeItem : settled) (st : History.State) (w : World) :
  single_view (again (History.resetHistory removeItem) (History.resetHistory removeItem st w)) =
  single_view (History.resetHistory removeItem st w).
Proof. unfold again, History.resetHistory. destruct removeItem; reflexivity. Qed.

Lemma loadBulkPredictionHistory_again (getItem : settled) (app : App) (w : World) :
  bulk_view (again (loadBulkPredictionHistory getItem) (loadBulkPredictionHistory getItem app w)) =
  bulk_view (loadBulkPredictionHistory getItem app w).
Proof.
  unfold again, loadBulkPredictionHistory.
  destruct getItem; [|reflexivity].
  destruct (AsyncStorage.bulkPredictionHistory (storage w)) eqn:E; simpl; rewrite E; reflexivity.
Qed.

Lemma refreshBulkPredictionHistory_again (getItem : settled) (app : App) (w : World) :
  bulk_view (again (refreshBulkPredictionHistory getItem)
               (refreshBulkPredictionHistory getItem app w)) =
  bulk_view (refreshBulkPredictionHistory getItem app w).
Proof.
  unfold again, refreshBulkPredictionHistory.
  destruct getItem; [|reflexivity].
  destruct (AsyncStorage.bulkPredictionHistory (storage w)) eqn:E; simpl; rewrite E; reflexivity.
Qed.

Lemma deleteHistoryItem_again (setItem : settled) (timestamp : string) (app : App) (w : World) :
  bulk_view (again (deleteHistoryItem setItem timestamp)
               (deleteHistoryItem setItem timestamp app w)) =
  bulk_view (deleteHistoryItem setItem timestamp app w).
Proof.
  unfold again, deleteHistoryItem, bulk_view.
  destruct setItem; simpl; rewrite filter_twice; reflexivity.
Qed.

(** C7.  Each of the five history operations, run a second time with the
    platform behaving as in the first run, leaves the log held in the state
    and the contents of the store as the first run left them. *)
Theorem history_operations_idempotent :
  (forall getItem st w,
     single_view (again (History.loadHistory getItem) (History.loadHistory getItem st w)) =
     single_view (History.loadHistory getItem st w)) /\
  (forall getItem app w,
     bulk_view (again (loadBulkPredictionHistory getItem) (loadBulkPredictionHistory getItem app w)) =
     bulk_view (loadBulkPredictionHistory getItem app w)) /\
  (forall removeItem st w,
     single_view (again (History.resetHistory removeItem) (History.resetHistory removeItem st w)) =
     single_view (History.resetHistory removeItem st w)) /\
  (forall setItem timestamp app w,
     bulk_view (again (deleteHistoryItem setItem timestamp)
                  (deleteHistoryItem setItem timestamp app w)) =
     bulk_view (deleteHistoryItem setItem timestamp app w)) /\
  (forall getItem app w,
     bulk_view (again (refreshBulkPredictionHistory getItem)
                  (refreshBulkPredictionHistory getItem app w)) =
     bulk_view (refreshBulkPredictionHistory getItem app w)).
Proof.
  repeat split; intros.
  - apply loadHistory_again.
  - apply loadBulkPredictionHistory_again.
  - apply resetHistory_again.
  - apply deleteHistoryItem_again.
  - apply refreshBulkPredictionHistory_again.
Qed.

(** After a run that went through, a further run leaves the same view
    whatever the platform does then. *)
Remark history_operations_retry_after_success :
  (forall io st w,
     single_view (again (History.loadHistory io) (History.loadHistory Resolves st w)) =
     single_view (History.loadHistory Resolves st w)) /\
  (forall io st w,
     single_view (again (History.resetHistory io) (History.resetHistory Resolves st w)) =
     single_view (History.resetHistory Resolves st w)) /\
  (forall io timestamp app w,
     bulk_view (again (deleteHistoryItem io timestamp)
                  (deleteHistoryItem Resolves timestamp app w)) =
     bulk_view (deleteHistoryItem Resolves timestamp app w)) /\
  (forall io app w,
     bulk_view (again (refreshBulkPredictionHistory io)
                  (refreshBulkPredictionHistory Resolves app w)) =
     bulk_view (refreshBulkPredictionHistory Resolves app w)).
Proof.
  repeat split; intros.
  - unfold again, History.loadHistory. destruct io; [|destruct (AsyncStorage.predictionHistory _); reflexivity].
    destruct (AsyncStorage.predictionHistory (storage w)) eqn:E; simpl; rewrite E; reflexivity.
  - unfold again, History.resetHistory. destruct io; reflexivity.
  - unfold again, deleteHistoryItem, bulk_view. destruct io; simpl; rewrite filter_twice; reflexivity.
  - unfold again, refreshBulkPredictionHistory.
    destruct io; [|destruct (AsyncStorage.bulkPredictionHistory _); reflexivity].
    destruct (AsyncStorage.bulkPredictionHistory (storage w)) eqn:E; simpl; rewrite E; reflexivity.
Qed.

(** ** Editing a note *)

Lemma assign_note_length (log : list Prediction.t) :
  forall index note, List.length (History.assign_note log index note) = List.length log.
Proof.
  induction log as [|p log IH]; intros [|i] note; simpl; try reflexivity.
  now rewrite IH.
Qed.

Lemma assign_note_at (log : list Prediction.t) :
  forall index note p,
    nth_error log index = Some p ->
    nth_error (History.assign_note log index note) index = Some (Prediction.set_note p note).
Proof.
  induction log as [|q log IH]; intros [|i] note p H; simpl in *; try discriminate.
  - now inversion H.
  - now apply IH.
Qed.

Lemma assign_note_elsewhere (log : list Prediction.t) :
  forall index note j,
    j <> index ->
    nth_error (History.assign_note log index note) j = nth_error log j.
Proof.
  induction log as [|q log IH]; intros [|i] note [|j] N; simpl; try reflexivity;
    try contradiction.
  apply IH. congruence.
Qed.

Lemma set_note_same_but_note (p : Prediction.t) (note : string) :
  Prediction.note (Prediction.set_note p note) = note /\
  same_but_note p (Prediction.set_note p note).
Proof. unfold same_but_note. repeat split. Qed.

Lemma assign_note_timestamps (log : list Prediction.t) :
  forall index note,
    map Prediction.timestamp (History.assign_note log index note) =
    map Prediction.timestamp log.
Proof.
  induction log as [|p log IH]; intros [|i] note; simpl; try reflexivity.
  now rewrite IH.
Qed.

Lemma assign_note_finite (log : list Prediction.t) :
  forall index note,
    Forall finite_prediction log ->
    Forall finite_prediction (History.assign_note log index note).
Proof.
  induction log as [|p log IH]; intros [|i] note F; simpl; try exact F;
    inversion F as [|? ? Hp Hlog]; subst; constructor; try assumption.
  now apply IH.
Qed.

(** C8.  [updateNote] at an index of the loaded log returns after it has set
    the note of that record in the state: the record at the index now carries
    the new note and is otherwise the record it was, every other record and
    the length of the log are as before, and a log of finite numbers stays
    one.  The whole log is then handed to the store.  When the write goes
    through, the key of the single-prediction log holds the log of the state
    and the other key is as it was; when it fails the state keeps the new
    note, the store is left as it was and the failure is written to the
    console, as the label of [console.error] followed by the message of the
    error. *)
Theorem updateNote_keeps_edit_when_save_fails
    (TypeError_message : string) (setItem : settled) (index : nat) (note : string)
    (st : History.State) (w : World) (p : Prediction.t) :
  nth_error (History.history st) index = Some p ->
  let result := History.updateNote TypeError_message setItem index note st w in
  let st' := snd (fst result) in
  let w' := snd result in
  fst (fst result) = History.Returns /\
  nth_error (History.history st') index = Some (Prediction.set_note p note) /\
  (exists q,
     nth_error (History.history st') index = Some q /\
     Prediction.note q = note /\ same_but_note p q) /\
  (forall j, j <> index ->
     nth_error (History.history st') j = nth_error (History.history st) j) /\
  List.length (History.history st') = List.length (History.history st) /\
  History.isLoading st' = History.isLoading st /\
  (Forall finite_prediction (History.history st) ->
   Forall finite_prediction (History.history st')) /\
  alerts w' = alerts w /\
  match setItem with
  | Resolves =>
      storage w' = AsyncStorage.set_predictionHistory (storage w) (Some (History.history st')) /\
      AsyncStorage.predictionHistory (storage w') = Some (History.history st') /\
      AsyncStorage.bulkPredictionHistory (storage w') =
        AsyncStorage.bulkPredictionHistory (storage w) /\
      console w' = console w
  | Rejects message =>
      storage w' = storage w /\
      console w' = console w ++ [("Failed to save note: " ++ message)%string]
  end.
Proof.
  intros H. unfold History.updateNote. rewrite H.
  destruct (set_note_same_but_note p note) as [N S].
  destruct setItem; cbn [fst snd History.history History.setHistory History.isLoading
                         alerts storage console with_storage console_write
                         AsyncStorage.predictionHistory AsyncStorage.bulkPredictionHistory
                         AsyncStorage.set_predictionHistory];
    repeat split;
    try (now apply assign_note_at);
    try (intros j Nj; now apply assign_note_elsewhere);
    try apply assign_note_length;
    try (now apply assign_note_finite);
    try (exists (Prediction.set_note p note); split; [now apply assign_note_at|];
         split; [exact N|exact S]).
Qed.

Lemma updateNote_keeps_edit_when_save_fails_witness :
  let result :=
    History.updateNote "undefined is not an object" (Rejects "disk full") 2 "recheck"
      example_history example_stored in
  option_map Prediction.note (nth_error (History.history (snd (fst result))) 2) =
    Some "recheck"%string /\
  option_map Prediction.timestamp (nth_error (History.history (snd (fst result))) 2) =
    Some (Prediction.timestamp (example_prediction 7)) /\
  storage (snd result) = storage example_stored /\
  console (snd result) = ["Failed to save note: disk full"%string].
Proof.
  destruct (updateNote_keeps_edit_when_save_fails "undefined is not an object"
              (Rejects "disk full") 2 "recheck" example_history example_stored
              (example_prediction 7) eq_refl)
    as (_ & _ & (q & Q & N & _ & _ & _ & _ & _ & T) & _ & _ & _ & _ & _ & S & C).
  cbv zeta. rewrite Q. cbn [option_map]. rewrite N, T.
  repeat split; assumption.
Defined.

(** An index past the end of the log throws before anything is set. *)
Remark updateNote_out_of_range
    (TypeError_message : string) (setItem : settled) (index : nat) (note : string)
    (st : History.State) (w : World) :
  List.length (History.history st) <= index ->
  History.updateNote TypeError_message setItem index note st w =
    (History.Throws TypeError_message, st, w).
Proof.
  intros L. unfold History.updateNote.
  now rewrite (proj2 (nth_error_None _ _) L).
Qed.

(** ** Formatting a probability vector *)





(** The listing of a vector as the server sends it. *)
Example formatProbabilities_listing :
  Layout.formatProbabilities (fun _ => "1e+21"%string)
    (Some [round64 (2 # 100); round64 (5 # 100); round64 (9 # 10); round64 (3 # 100)]) =
    ("Glioma: %2.00" ++ LF ++ "No Tumor: %5.00" ++ LF ++
     "Meningioma: %90.00" ++ LF ++ "Pituitary: %3.00")%string /\
  getHighestProbabilityClass
    (Some [round64 (2 # 100); round64 (5 # 100); round64 (9 # 10); round64 (3 # 100)]) =
    Some "Meningioma"%string.
Proof. vm_compute. split; reflexivity. Qed.

(** ** The rounding checked against the binary64 of the machine *)

Example round64_agrees_with_machine_floats :
  forallb machine_agrees machine_samples = true.
Proof. vm_compute. reflexivity. Qed.

(** * Further properties of the handlers *)

(** ** Picking and running a batch *)

(** X1.  [pickBulkImages] on a selection that is not cancelled and not empty
    keeps its first 500 images, in their order, sets the estimated time to
    twice their number and alerts exactly when images were left out; a
    cancelled or empty selection changes nothing. *)
Theorem pickBulkImages_keeps_first_500
    (result : ImagePickerResult) (app : App) (w : World) :
  (canceled result = false -> assets result <> [] ->
   exists selected,
     bulkImages (fst (pickBulkImages result app w)) = Some selected /\
     canceled selected = false /\
     assets selected = firstn 500 (assets result) /\
     List.length (assets selected) = Nat.min 500 (List.length (assets result)) /\
     estimatedTime (fst (pickBulkImages result app w)) = List.length (assets selected) * 2 /\
     storage (snd (pickBulkImages result app w)) = storage w /\
     console (snd (pickBulkImages result app w)) = console w /\
     (List.length (assets result) <= 500 -> alerts (snd (pickBulkImages result app w)) = alerts w) /\
     (500 < List.length (assets result) ->
      List.length (alerts (snd (pickBulkImages result app w))) = S (List.length (alerts w)))) /\
  (canceled result = true \/ assets result = [] -> pickBulkImages result app w = (app, w)).
Proof.
  split.
  - intros C N. unfold pickBulkImages. rewrite C.
    destruct (assets result) as [|a rest] eqn:A; [contradiction|].
    change (negb false && (0 <? List.length (a :: rest))%nat)%bool with true. cbv iota.
    unfold MAX_BULK_IMAGES, slice0.
    destruct (Nat.ltb_spec 500 (List.length (a :: rest))) as [L|L].
    + eexists. repeat split; try reflexivity; try (apply length_firstn); try (intros; lia).
      intros _. cbn [snd Alert_alert alerts]. rewrite length_app. simpl. lia.
    + exists result. rewrite A. repeat split; try reflexivity; try assumption;
        try (intros; lia); try (symmetry; apply firstn_all2; exact L).
  - intros [C|E]; unfold pickBulkImages; [now rewrite C|].
    rewrite E. now destruct (canceled result).
Qed.

Lemma pickBulkImages_keeps_first_500_witness :
  (exists selected,
     bulkImages (fst (pickBulkImages
       {| canceled := false;
          assets := repeat (example_asset "1.jpg" (Threw "offline")) 501 |}
       example_app example_world)) = Some selected /\
     List.length (assets selected) = 500) /\
  pickBulkImages {| canceled := true; assets := example_batch |} example_app example_world =
    (example_app, example_world).
Proof.
  split.
  - destruct (proj1 (pickBulkImages_keeps_first_500
        {| canceled := false;
           assets := repeat (example_asset "1.jpg" (Threw "offline")) 501 |}
        example_app example_world) eq_refl) as (selected & S & _ & _ & L & _).
    + discriminate.
    + exists selected. split; [exact S|]. rewrite L. cbn [assets].
      rewrite repeat_length. reflexivity.
  - apply (proj2 (pickBulkImages_keeps_first_500
        {| canceled := true; assets := example_batch |} example_app example_world)).
    left. reflexivity.
Defined.

(** X2.  When a call of the store rejects at the end of a bulk run, the record
    of the run is still shown and the run is over (not loading, no estimated
    time), but neither the log of the component nor the store changes, and
    the console gets one more line than the loop wrote. *)
Theorem processBulkImages_store_failure
    (now message : string) (getItem setItem : settled) (app : App) (w : World)
    (images : ImagePickerResult) :
  bulkImages app = Some images -> canceled images = false ->
  getItem = Rejects message \/ (getItem = Resolves /\ setItem = Rejects message) ->
  let s := processBulkImages now getItem setItem app w in
  bulkPrediction (fst s) = Some (fst (bulkResults app now (assets images) w)) /\
  bulkLoading (fst s) = false /\
  estimatedTime (fst s) = 0 /\
  bulkPredictionHistory (fst s) = bulkPredictionHistory app /\
  storage (snd s) = storage w /\
  alerts (snd s) = alerts w /\
  console (snd s) =
    console (snd (bulkResults app now (assets images) w)) ++
    [("Toplu tahmin geçmişi kaydedilemedi: " ++ message)%string].
Proof.
  intros I C F s. subst s. unfold processBulkImages. rewrite I, C.
  pose proof (bulkLoop_world (assets images) (initial_tally app now, w)) as (S & A & _).
  rewrite <- bulkResults_snd in S, A.
  destruct (bulkResults app now (assets images) w) as [r w1]. simpl in S, A |- *.
  unfold saveBulkResults.
  destruct F as [->|[-> ->]]; simpl; rewrite S, A; repeat split.
Qed.

Lemma processBulkImages_store_failure_witness :
  bulkPredictionHistory
    (fst (processBulkImages "t" Resolves (Rejects "disk full") example_selected_app
            example_stored)) = [] /\
  storage (snd (processBulkImages "t" Resolves (Rejects "disk full") example_selected_app
                  example_stored)) = storage example_stored.
Proof.
  destruct (processBulkImages_store_failure "t" "disk full" Resolves (Rejects "disk full")
              example_selected_app example_stored
              {| canceled := false; assets := example_batch |} eq_refl eq_refl
              (or_intror (conj eq_refl eq_refl))) as (_ & _ & _ & H & S & _).
  split; assumption.
Defined.

(** X3.  Whatever the server answers, the four counts of a bulk record sum to
    the number of items answered [ok] with one of the four classes, which is at
    most the number of items answered [ok]; counts and failed items together
    never exceed the size of the batch. *)
Theorem bulk_counts_never_exceed_successes
    (app : App) (now : string) (batch : list Asset) (w : World) :
  counts_sum (fst (bulkResults app now batch w)) = how_many classified batch /\
  counts_sum (fst (bulkResults app now batch w)) <= how_many succeeded batch /\
  counts_sum (fst (bulkResults app now batch w)) + how_many failed batch <= List.length batch /\
  forall l, count_of l (fst (bulkResults app now batch w)) <=
            counts_sum (fst (bulkResults app now batch w)).
Proof.
  pose proof (bulkResults_counts_sum app now batch w) as C.
  pose proof (how_many_le classified succeeded batch (fun a _ => classified_succeeded a)) as L.
  pose proof (how_many_split failed batch) as S. fold succeeded in S.
  repeat split; try lia.
  intros l. unfold counts_sum. destruct l; simpl; lia.
Qed.

(** ** Invariants of a session *)

Lemma bulkResults_world (app : App) (now : string) (batch : list Asset) (w : World) :
  storage (snd (bulkResults app now batch w)) = storage w.
Proof.
  rewrite bulkResults_snd. apply (bulkLoop_world batch (initial_tally app now, w)).
Qed.

Lemma bulkResults_timestamp (app : App) (now : string) (batch : list Asset) (w : World) :
  BulkPredictionResult.timestamp (fst (bulkResults app now batch w)) = now /\
  BulkPredictionResult.modelName (fst (bulkResults app now batch w)) = modelName app /\
  BulkPredictionResult.isGrayscale (fst (bulkResults app now batch w)) = isGrayscaleEnabled app.
Proof.
  rewrite bulkResults_fst.
  destruct (bulkLoop_header batch (initial_tally app now, w)) as (M & T & G & _).
  simpl in M, T, G. unfold set_means. simpl. auto.
Qed.

(** What a handler of [_layout.tsx] leaves of the logs, in four cases. *)
Lemma processBulkImages_logs
    (now : string) (getItem setItem : settled) (app : App) (w : World) :
  let s := processBulkImages now getItem setItem app w in
  AsyncStorage.predictionHistory (storage (snd s)) = AsyncStorage.predictionHistory (storage w) /\
  ((bulkPredictionHistory (fst s) = bulkPredictionHistory app /\
    AsyncStorage.bulkPredictionHistory (storage (snd s)) =
      AsyncStorage.bulkPredictionHistory (storage w)) \/
   (exists r,
      BulkPredictionResult.timestamp r = now /\
      bulkPredictionHistory (fst s) =
        firstn 50 (r :: parse_or_empty (AsyncStorage.bulkPredictionHistory (storage w))) /\
      AsyncStorage.bulkPredictionHistory (storage (snd s)) =
        Some (bulkPredictionHistory (fst s)))).
Proof.
  unfold processBulkImages.
  destruct (bulkImages app) as [images|]; [|simpl; auto].
  destruct (canceled images); [simpl; auto|].
  pose proof (bulkResults_world app now (assets images) w) as S.
  pose proof (bulkResults_timestamp app now (assets images) w) as (T & _).
  destruct (bulkResults app now (assets images) w) as [r w1]. simpl in S, T.
  unfold saveBulkResults.
  destruct getItem; [destruct setItem|]; simpl; rewrite S; split; auto.
  right. exists r. auto.
Qed.

Lemma uploadImage_logs
    (NumberToString : number -> string) (now : string) (getItem setItem : settled)
    (index : nat) (asset : Asset) (app : App) (w : World) :
  let s := uploadImage NumberToString now getItem setItem index asset app w in
  bulkPredictionHistory (fst s) = bulkPredictionHistory app /\
  AsyncStorage.bulkPredictionHistory (storage (snd s)) =
    AsyncStorage.bulkPredictionHistory (storage w) /\
  (AsyncStorage.predictionHistory (storage (snd s)) =
     AsyncStorage.predictionHistory (storage w) \/
   exists p,
     AsyncStorage.predictionHistory (storage (snd s)) =
       Some (firstn 10 (p :: parse_or_empty (AsyncStorage.predictionHistory (storage w))))).
Proof.
  unfold uploadImage.
  destruct (predict asset) as [message|[|] data]; simpl; auto.
  unfold savePrediction.
  destruct getItem; [destruct setItem|]; simpl; auto.
  split; [reflexivity|]. split; [reflexivity|]. right. eexists. reflexivity.
Qed.

Lemma step_within_caps
    (NumberToString : number -> string) (TypeError_message : string)
    (s : Session) (e : Event) :
  within_caps s -> within_caps (step NumberToString TypeError_message s e).
Proof.
  unfold within_caps, stored_single, stored_bulk.
  intros (A & B & C & D).
  destruct e; cbn [step on_layout on_screen on_history app screen history world fst snd].
  - destruct r as [m|[|] d]; simpl; auto.
  - destruct r as [m|[|] d]; simpl; auto.
  - destruct r as [m|[|] d]; simpl; auto.
  - simpl; auto.
  - unfold loadBulkPredictionHistory. destruct getItem; [|simpl; auto].
    destruct (AsyncStorage.bulkPredictionHistory (storage (world s))) eqn:E;
      simpl in *; rewrite ?E; simpl; auto.
  - unfold pickBulkImages.
    destruct (negb _ && _)%bool; [|simpl; auto].
    destruct (MAX_BULK_IMAGES <? _)%nat; simpl; auto.
  - destruct (processBulkImages_logs now getItem setItem (app s) (world s))
      as (P & [[M S]|(r & _ & M & S)]).
    + rewrite P, M, S. auto.
    + rewrite P, S, M. simpl parse_or_empty.
      assert (L : List.length (firstn 50
                (r :: parse_or_empty (AsyncStorage.bulkPredictionHistory (storage (world s))))) <= 50)
        by apply firstn_le_length.
      auto.
  - unfold refreshBulkPredictionHistory. destruct getItem; [|simpl; auto].
    destruct (AsyncStorage.bulkPredictionHistory (storage (world s))) eqn:E;
      simpl in *; rewrite ?E; simpl; repeat split; auto; lia.
  - assert (L : List.length (filter (other_timestamp timestamp) (bulkPredictionHistory (app s)))
                <= 50).
    { pose proof (filter_length_le (other_timestamp timestamp) (bulkPredictionHistory (app s))).
      lia. }
    unfold deleteHistoryItem. destruct setItem; simpl; auto.
  - destruct (uploadImage_logs NumberToString now getItem setItem index asset (app s) (world s))
      as (M & S & [P|(p & P)]).
    + rewrite M, S, P. auto.
    + rewrite M, S, P. simpl parse_or_empty.
      assert (L : List.length (firstn 10
                (p :: parse_or_empty (AsyncStorage.predictionHistory (storage (world s))))) <= 10)
        by apply firstn_le_length.
      auto.
  - unfold History.loadHistory. destruct getItem; [|simpl; auto].
    destruct (AsyncStorage.predictionHistory (storage (world s))) as [l|] eqn:E.
    + assert (L : List.length (slice0 10 l) <= 10) by apply firstn_le_length.
      set (f := slice0 10 l) in *. simpl in *. rewrite ?E. simpl. auto.
    + simpl in *. rewrite ?E. simpl. auto.
  - unfold History.resetHistory. destruct removeItem; [|simpl; auto].
    simpl. repeat split; auto; lia.
  - unfold History.updateNote.
    destruct (nth_error (History.history (history s)) index); [|simpl; auto].
    destruct setItem; simpl; rewrite ?assign_note_length; auto.
Qed.

(** X4.  In a session of handlers run one after the other, whatever the store
    calls and the server do, no log exceeds its cap: the stored and the shown
    single-prediction log hold at most 10 entries, the stored and the shown
    bulk log at most 50, once they do at the start. *)
Theorem session_keeps_logs_within_caps
    (NumberToString : number -> string) (TypeError_message : string)
    (events : list Event) (s : Session) :
  within_caps s -> within_caps (run NumberToString TypeError_message events s).
Proof.
  revert s. unfold run.
  induction events as [|e events IH]; intros s H; [exact H|].
  simpl. apply IH. now apply step_within_caps.
Qed.

Lemma session_keeps_logs_within_caps_witness :
  within_caps (run (fun _ => "1e+21"%string) "undefined is not an object"
                 example_events (mounted (storage example_stored))).
Proof.
  apply session_keeps_logs_within_caps.
  unfold within_caps. simpl. lia.
Defined.

Lemma timestamps_filter_In (p : BulkPredictionResult.t -> bool)
    (log : list BulkPredictionResult.t) (t : string) :
  In t (timestamps (filter p log)) -> In t (timestamps log).
Proof.
  unfold timestamps. rewrite !in_map_iff.
  intros (x & E & I). apply filter_In in I. exists x. tauto.
Qed.

Lemma timestamps_firstn_In (log : list BulkPredictionResult.t) :
  forall n t, In t (timestamps (firstn n log)) -> In t (timestamps log).
Proof.
  induction log as [|x log IH]; intros [|n] t; simpl; try tauto.
  intros [E|I]; [now left|right]. now apply (IH n).
Qed.

Lemma timestamps_filter_NoDup (p : BulkPredictionResult.t -> bool)
    (log : list BulkPredictionResult.t) :
  NoDup (timestamps log) -> NoDup (timestamps (filter p log)).
Proof.
  induction log as [|x log IH]; intros H; [constructor|].
  simpl in H. apply NoDup_cons_iff in H. destruct H as [N H].
  simpl. destruct (p x); [|now apply IH].
  simpl. constructor; [|now apply IH].
  intros I. apply N. now apply (timestamps_filter_In p).
Qed.

Lemma timestamps_firstn_NoDup (log : list BulkPredictionResult.t) :
  forall n, NoDup (timestamps log) -> NoDup (timestamps (firstn n log)).
Proof.
  induction log as [|x log IH]; intros [|n] H; simpl; try constructor.
  - simpl in H. apply NoDup_cons_iff in H. intros I. apply (proj1 H).
    now apply (timestamps_firstn_In log n).
  - simpl in H. apply NoDup_cons_iff in H. now apply IH.
Qed.

Lemma step_distinct_timestamps
    (NumberToString : number -> string) (TypeError_message : string)
    (s : Session) (e : Event) :
  distinct_timestamps s -> starts_afresh s e ->
  distinct_timestamps (step NumberToString TypeError_message s e).
Proof.
  unfold distinct_timestamps, stored_bulk.
  intros (S & M) F.
  destruct e; cbn [step on_layout on_screen on_history app screen history world fst snd].
  - destruct r as [m|[|] d]; simpl; auto.
  - destruct r as [m|[|] d]; simpl; auto.
  - destruct r as [m|[|] d]; simpl; auto.
  - simpl; auto.
  - unfold loadBulkPredictionHistory. destruct getItem; [|simpl; auto].
    destruct (AsyncStorage.bulkPredictionHistory (storage (world s))) eqn:E;
      simpl in *; rewrite ?E; simpl; auto.
  - unfold pickBulkImages.
    destruct (negb _ && _)%bool; [|simpl; auto].
    destruct (MAX_BULK_IMAGES <? _)%nat; simpl; auto.
  - destruct (processBulkImages_logs now getItem setItem (app s) (world s))
      as (_ & [[Me St]|(r & T & Me & St)]).
    + rewrite Me, St. auto.
    + rewrite St, Me. simpl parse_or_empty.
      assert (N : NoDup (timestamps (firstn 50
                (r :: parse_or_empty (AsyncStorage.bulkPredictionHistory (storage (world s))))))).
      { apply timestamps_firstn_NoDup. simpl. rewrite T. constructor; [exact F|exact S]. }
      auto.
  - unfold refreshBulkPredictionHistory. destruct getItem; [|simpl; auto].
    destruct (AsyncStorage.bulkPredictionHistory (storage (world s))) eqn:E;
      simpl in *; rewrite ?E; simpl; repeat split; auto; constructor.
  - assert (N : NoDup (timestamps
                (filter (other_timestamp timestamp) (bulkPredictionHistory (app s)))))
      by now apply timestamps_filter_NoDup.
    unfold deleteHistoryItem. destruct setItem; simpl; auto.
  - destruct (uploadImage_logs NumberToString now getItem setItem index asset (app s) (world s))
      as (Me & St & _).
    rewrite Me, St. auto.
  - unfold History.loadHistory. destruct getItem; [|simpl; auto].
    destruct (AsyncStorage.predictionHistory (storage (world s))); simpl; auto.
  - unfold History.resetHistory. destruct removeItem; simpl; auto.
  - unfold History.updateNote.
    destruct (nth_error (History.history (history s)) index); [|simpl; auto].
    destruct setItem; simpl; auto.
Qed.

(** X5.  In a session of handlers run one after the other in which every
    bulk run starts at a time that no stored record carries, the records of the
    bulk log keep pairwise distinct timestamps, in the store and in the
    component, once they have them at the start. *)
Theorem session_keeps_timestamps_distinct
    (NumberToString : number -> string) (TypeError_message : string)
    (events : list Event) (s : Session) :
  distinct_timestamps s ->
  all_afresh NumberToString TypeError_message events s ->
  distinct_timestamps (run NumberToString TypeError_message events s).
Proof.
  revert s. unfold run.
  induction events as [|e events IH]; intros s D F; [exact D|].
  destruct F as [F1 F2]. simpl. apply IH; [|exact F2].
  now apply step_distinct_timestamps.
Qed.

Lemma session_keeps_timestamps_distinct_witness :
  distinct_timestamps (run (fun _ => "1e+21"%string) "undefined is not an object"
                         example_events (mounted (storage example_stored))).
Proof.
  apply session_keeps_timestamps_distinct.
  - unfold distinct_timestamps. simpl. split; [|constructor].
    repeat constructor; simpl; intuition discriminate.
  - simpl. repeat split; intuition discriminate.
Defined.

(** X6.  On a log whose records carry pairwise distinct timestamps,
    [deleteHistoryItem] with a timestamp of the log leaves a log shorter by
    exactly one record, in which that timestamp no longer occurs and every
    other record is kept. *)
Theorem deleteHistoryItem_removes_one_when_distinct
    (setItem : settled) (timestamp : string) (app : App) (w : World) :
  NoDup (timestamps (bulkPredictionHistory app)) ->
  In timestamp (timestamps (bulkPredictionHistory app)) ->
  let log' := bulkPredictionHistory (fst (deleteHistoryItem setItem timestamp app w)) in
  List.length log' + 1 = List.length (bulkPredictionHistory app) /\
  ~ In timestamp (timestamps log') /\
  (forall x, In x (bulkPredictionHistory app) ->
     BulkPredictionResult.timestamp x <> timestamp -> In x log') /\
  NoDup (timestamps log').
Proof.
  intros N I log'.
  assert (E : log' = filter (other_timestamp timestamp) (bulkPredictionHistory app)).
  { unfold log', deleteHistoryItem. now destruct setItem. }
  clearbody log'. subst log'.
  unfold timestamps in I. apply in_map_iff in I. destruct I as (r & T & I).
  apply in_split in I. destruct I as (l1 & l2 & L).
  assert (U : forall x, In x (l1 ++ l2) -> BulkPredictionResult.timestamp x <> timestamp).
  { intros x Hx Ex. rewrite L in N. unfold timestamps in N.
    rewrite map_app in N. simpl in N. apply NoDup_remove_2 in N. apply N.
    rewrite <- map_app, T, <- Ex. now apply in_map. }
  assert (F : filter (other_timestamp timestamp) (bulkPredictionHistory app) = l1 ++ l2).
  { rewrite L. now apply filter_other_timestamp_one. }
  rewrite F. repeat split.
  - rewrite L, !length_app. simpl. lia.
  - unfold timestamps. rewrite in_map_iff. intros (x & Ex & Hx). exact (U x Hx Ex).
  - intros x Hx D. rewrite L in Hx. apply in_app_iff in Hx. apply in_app_iff.
    destruct Hx as [Hx|[Hx|Hx]]; auto. subst x. contradiction.
  - rewrite <- F. now apply timestamps_filter_NoDup.
Qed.

Lemma deleteHistoryItem_removes_one_when_distinct_witness :
  List.length (bulkPredictionHistory
     (fst (deleteHistoryItem Resolves "2025-01-02"
             (setBulkPredictionHistory example_app example_bulk_log) example_stored))) + 1 =
  List.length example_bulk_log.
Proof.
  refine (proj1 (deleteHistoryItem_removes_one_when_distinct Resolves "2025-01-02"
            (setBulkPredictionHistory example_app example_bulk_log) example_stored _ _)).
  - repeat constructor; simpl; intuition discriminate.
  - simpl. tauto.
Defined.

Lemma step_untouched
    (NumberToString : number -> string) (TypeError_message : string)
    (s : Session) (e : Event) :
  let s' := step NumberToString TypeError_message s e in
  (writes_single e = false ->
   AsyncStorage.predictionHistory (storage (world s')) =
   AsyncStorage.predictionHistory (storage (world s))) /\
  (writes_bulk e = false ->
   AsyncStorage.bulkPredictionHistory (storage (world s')) =
   AsyncStorage.bulkPredictionHistory (storage (world s))) /\
  (sets_history e = false -> history s' = history s) /\
  (sets_bulk_history e = false ->
   bulkPredictionHistory (app s') = bulkPredictionHistory (app s)).
Proof.
  destruct e; cbn [step on_layout on_screen on_history app screen history world fst snd
                   writes_single writes_bulk sets_history sets_bulk_history];
    repeat split; intros H; try discriminate H; try reflexivity.
  all: try (destruct r as [m|[|] d]; reflexivity).
  all: try (unfold loadBulkPredictionHistory; destruct getItem;
            [destruct (AsyncStorage.bulkPredictionHistory (storage (world s))) eqn:E|];
            simpl; rewrite ?E; reflexivity).
  all: try (unfold pickBulkImages; destruct (negb _ && _)%bool; [|reflexivity];
            destruct (MAX_BULK_IMAGES <? _)%nat; reflexivity).
  all: try (apply (processBulkImages_logs now getItem setItem (app s) (world s))).
  all: try (unfold refreshBulkPredictionHistory; destruct getItem;
            [destruct (AsyncStorage.bulkPredictionHistory (storage (world s))) eqn:E|];
            simpl; rewrite ?E; reflexivity).
  all: try (unfold deleteHistoryItem; destruct setItem; reflexivity).
  all: try (apply (uploadImage_logs NumberToString now getItem setItem index asset
                     (app s) (world s))).
  all: try (unfold History.loadHistory; destruct getItem;
            [destruct (AsyncStorage.predictionHistory (storage (world s))) eqn:E|];
            simpl; rewrite ?E; reflexivity).
  all: try (unfold History.resetHistory; destruct removeItem; reflexivity).
  all: try (unfold History.updateNote;
            destruct (nth_error (History.history (history s)) index); [|reflexivity];
            destruct setItem; reflexivity).
Qed.

(** X7.  In a session of handlers run one after the other, the stored
    single-prediction log is changed by no handler other than [uploadImage],
    [resetHistory] and [updateNote], and the stored bulk log by none other than
    [processBulkImages] and [deleteHistoryItem]; the logs shown change only in
    the handlers that load, reset, refresh or edit them. *)
Theorem session_logs_change_only_in_their_handlers
    (NumberToString : number -> string) (TypeError_message : string)
    (events : list Event) (s : Session) :
  let s' := run NumberToString TypeError_message events s in
  (forallb (fun e => negb (writes_single e)) events = true ->
   AsyncStorage.predictionHistory (storage (world s')) =
   AsyncStorage.predictionHistory (storage (world s))) /\
  (forallb (fun e => negb (writes_bulk e)) events = true ->
   AsyncStorage.bulkPredictionHistory (storage (world s')) =
   AsyncStorage.bulkPredictionHistory (storage (world s))) /\
  (forallb (fun e => negb (sets_history e)) events = true -> history s' = history s) /\
  (forallb (fun e => negb (sets_bulk_history e)) events = true ->
   bulkPredictionHistory (app s') = bulkPredictionHistory (app s)).
Proof.
  revert s. unfold run.
  induction events as [|e events IH]; intros s; [simpl; auto|].
  destruct (step_untouched NumberToString TypeError_message s e) as (A & B & C & D).
  destruct (IH (step NumberToString TypeError_message s e)) as (A' & B' & C' & D').
  cbn [fold_left forallb].
  repeat split; intros H; apply andb_prop in H; destruct H as [H1 H2];
    apply negb_true_iff in H1.
  - rewrite (A' H2). exact (A H1).
  - rewrite (B' H2). exact (B H1).
  - rewrite (C' H2). exact (C H1).
  - rewrite (D' H2). exact (D H1).
Qed.

Lemma session_logs_change_only_in_their_handlers_witness :
  AsyncStorage.predictionHistory
    (storage (world (run (fun _ => "1e+21"%string) "undefined is not an object"
       [PickBulkImages {| canceled := false; assets := example_batch |};
        ProcessBulkImages "2025-02-01T10:01:00.000Z" Resolves Resolves;
        DeleteHistoryItem Resolves "2025-01-02";
        RefreshBulkPredictionHistory Resolves;
        LoadHistory Resolves]
       (mounted (storage example_stored))))) =
  Some example_single_log.
Proof.
  exact (proj1 (session_logs_change_only_in_their_handlers
                  (fun _ => "1e+21"%string) "undefined is not an object"
                  [PickBulkImages {| canceled := false; assets := example_batch |};
                   ProcessBulkImages "2025-02-01T10:01:00.000Z" Resolves Resolves;
                   DeleteHistoryItem Resolves "2025-01-02";
                   RefreshBulkPredictionHistory Resolves;
                   LoadHistory Resolves]
                  (mounted (storage example_stored))) eq_refl).
Defined.

(** ** Round trips through the store *)

Lemma Forall_firstn {A : Type} (P : A -> Prop) (n : nat) (xs : list A) :
  Forall P xs -> Forall P (firstn n xs).
Proof.
  intros F. revert n.
  induction F as [|x xs Hx _ IH]; intros [|n]; simpl; constructor; auto.
Qed.

Lemma Forall_filter {A : Type} (P : A -> Prop) (f : A -> bool) (xs : list A) :
  Forall P xs -> Forall P (filter f xs).
Proof.
  intros F. apply Forall_forall. intros x Hx. apply filter_In in Hx.
  apply (proj1 (Forall_forall P xs) F). tauto.
Qed.



(** X9.  When a bulk run that starts at a time no stored record carries is
    saved on top of a stored log of at most 49 records, deleting the record of
    that time afterwards gives back, in the component and in the store, the
    log stored before the run. *)
Theorem processBulkImages_then_delete
    (now : string) (app : App) (w : World) (images : ImagePickerResult) :
  bulkImages app = Some images -> canceled images = false ->
  ~ In now (timestamps (parse_or_empty (AsyncStorage.bulkPredictionHistory (storage w)))) ->
  List.length (parse_or_empty (AsyncStorage.bulkPredictionHistory (storage w))) <= 49 ->
  let ran := processBulkImages now Resolves Resolves app w in
  let deleted := deleteHistoryItem Resolves now (fst ran) (snd ran) in
  bulkPredictionHistory (fst deleted) =
    parse_or_empty (AsyncStorage.bulkPredictionHistory (storage w)) /\
  AsyncStorage.bulkPredictionHistory (storage (snd deleted)) =
    Some (parse_or_empty (AsyncStorage.bulkPredictionHistory (storage w))) /\
  AsyncStorage.predictionHistory (storage (snd deleted)) =
    AsyncStorage.predictionHistory (storage w).
Proof.
  intros I C F L ran deleted.
  set (old := parse_or_empty (AsyncStorage.bulkPredictionHistory (storage w))) in *.
  pose proof (bulkResults_world app now (assets images) w) as W.
  pose proof (bulkResults_timestamp app now (assets images) w) as (T & _).
  assert (R : exists r,
            BulkPredictionResult.timestamp r = now /\
            bulkPredictionHistory (fst ran) = r :: old /\
            AsyncStorage.predictionHistory (storage (snd ran)) =
              AsyncStorage.predictionHistory (storage w)).
  { unfold ran, processBulkImages. rewrite I, C.
    destruct (bulkResults app now (assets images) w) as [r w1].
    cbn [fst snd] in W, T. exists r. split; [exact T|].
    unfold saveBulkResults, slice0, unshift.
    cbn [fst snd setBulkPredictionHistory bulkPredictionHistory with_storage storage
         AsyncStorage.set_bulkPredictionHistory AsyncStorage.predictionHistory].
    rewrite W. fold old. split; [|reflexivity].
    apply firstn_all2. cbn [List.length]. lia. }
  destruct R as (r & Tr & M & P).
  assert (D : filter (other_timestamp now) (bulkPredictionHistory (fst ran)) = old).
  { rewrite M. apply (filter_other_timestamp_one now [] old r Tr).
    intros x Hx Ex. apply F. unfold timestamps. rewrite <- Ex. now apply in_map. }
  unfold deleted, deleteHistoryItem.
  cbn [fst snd setBulkPredictionHistory bulkPredictionHistory with_storage storage
       AsyncStorage.set_bulkPredictionHistory AsyncStorage.predictionHistory
       AsyncStorage.bulkPredictionHistory].
  rewrite D. repeat split. exact P.
Qed.

Lemma processBulkImages_then_delete_witness :
  bulkPredictionHistory
    (fst (deleteHistoryItem Resolves "2025-02-01"
            (fst (processBulkImages "2025-02-01" Resolves Resolves example_selected_app
                    example_stored))
            (snd (processBulkImages "2025-02-01" Resolves Resolves example_selected_app
                    example_stored)))) = example_bulk_log.
Proof.
  refine (proj1 (processBulkImages_then_delete "2025-02-01" example_selected_app example_stored
                   {| canceled := false; assets := example_batch |} eq_refl eq_refl _ _)).
  - simpl. intuition discriminate.
  - simpl. lia.
Defined.

(** X10.  Two deletions give the same shown log in either order, whatever the
    store does, and the same stored log when the writes go through. *)
Theorem deleteHistoryItem_commutes
    (io1 io2 : settled) (t1 t2 : string) (app : App) (w : World) :
  bulkPredictionHistory
    (fst (again (deleteHistoryItem io2 t2) (deleteHistoryItem io1 t1 app w))) =
  bulkPredictionHistory
    (fst (again (deleteHistoryItem io1 t1) (deleteHistoryItem io2 t2 app w))) /\
  bulk_view (again (deleteHistoryItem Resolves t2) (deleteHistoryItem Resolves t1 app w)) =
  bulk_view (again (deleteHistoryItem Resolves t1) (deleteHistoryItem Resolves t2 app w)).
Proof.
  assert (F : forall log : list BulkPredictionResult.t,
             filter (other_timestamp t2) (filter (other_timestamp t1) log) =
             filter (other_timestamp t1) (filter (other_timestamp t2) log)).
  { induction log as [|x log IH]; [reflexivity|]. simpl.
    destruct (other_timestamp t1 x) eqn:E1, (other_timestamp t2 x) eqn:E2;
      simpl; rewrite ?E1, ?E2, IH; reflexivity. }
  split.
  - unfold again, deleteHistoryItem. destruct io1, io2; simpl; apply F.
  - unfold again, deleteHistoryItem, bulk_view. simpl. now rewrite F.
Qed.

(** ** The log shown and the log stored *)

Lemma parse_or_empty_some {A : Type} (xs : list A) : parse_or_empty (Some xs) = xs.
Proof. reflexivity. Qed.

Lemma processBulkImages_saved
    (now : string) (app : App) (w : World) (images : ImagePickerResult) :
  bulkImages app = Some images -> canceled images = false ->
  AsyncStorage.bulkPredictionHistory
    (storage (snd (processBulkImages now Resolves Resolves app w))) =
  Some (bulkPredictionHistory (fst (processBulkImages now Resolves Resolves app w))).
Proof.
  intros I C. unfold processBulkImages. rewrite I, C.
  destruct (bulkResults app now (assets images) w) as [r w1]. reflexivity.
Qed.

Lemma processBulkImages_shown
    (now : string) (getItem setItem : settled) (app : App) (w : World) :
  let s := processBulkImages now getItem setItem app w in
  bulkPredictionHistory (fst s) = bulkPredictionHistory app \/
  exists images,
    bulkImages app = Some images /\
    bulkPredictionHistory (fst s) =
      firstn 50 (fst (bulkResults app now (assets images) w)
                 :: parse_or_empty (AsyncStorage.bulkPredictionHistory (storage w))).
Proof.
  unfold processBulkImages.
  destruct (bulkImages app) as [images|]; [|simpl; auto].
  destruct (canceled images); [simpl; auto|].
  pose proof (bulkResults_world app now (assets images) w) as S.
  destruct (bulkResults app now (assets images) w) as [r w1] eqn:R. simpl in S.
  unfold saveBulkResults, slice0, unshift.
  destruct getItem; [destruct setItem|];
    cbn [fst snd setBulkPredictionHistory bulkPredictionHistory setEstimatedTime
         setBulkLoading setBulkPrediction]; auto.
  right. exists images. rewrite R, S. split; reflexivity.
Qed.

(** The handlers keep the bulk log shown equal to the bulk log stored, but
    for a delete whose write is rejected. *)
Lemma step_bulk_in_sync
    (NumberToString : number -> string) (TypeError_message : string)
    (s : Session) (e : Event) :
  bulk_in_sync s -> failed_delete e = false ->
  bulk_in_sync (step NumberToString TypeError_message s e).
Proof.
  unfold bulk_in_sync, stored_bulk.
  intros Y F.
  destruct (step_untouched NumberToString TypeError_message s e) as (_ & B & _ & D).
  destruct e; cbn [writes_bulk sets_bulk_history] in B, D;
    try (rewrite (B eq_refl), (D eq_refl); exact Y).
  + cbn [step on_layout app world fst snd] in *. rewrite (B eq_refl).
    unfold loadBulkPredictionHistory. destruct getItem; [|exact Y].
    destruct (AsyncStorage.bulkPredictionHistory (storage (world s))) eqn:E;
      [reflexivity|exact Y].
  + cbn [step on_layout app world fst snd].
    destruct (processBulkImages_logs now getItem setItem (app s) (world s))
      as (_ & [[M S]|(r & _ & M & S)]).
    * now rewrite M, S.
    * now rewrite S.
  + cbn [step on_layout app world fst snd] in *. rewrite (B eq_refl).
    unfold refreshBulkPredictionHistory. destruct getItem; [|exact Y].
    destruct (AsyncStorage.bulkPredictionHistory (storage (world s))) eqn:E; reflexivity.
  + destruct setItem; [reflexivity|discriminate F].
Qed.

(** The handlers keep the numbers of the bulk log shown finite, when the log
    stored is one of finite numbers and a bulk run works on a well-formed
    batch. *)
Lemma step_finite_shown
    (NumberToString : number -> string) (TypeError_message : string)
    (s : Session) (e : Event) :
  runs_well_formed s e ->
  Forall finite_record (stored_bulk s) ->
  Forall finite_record (bulkPredictionHistory (app s)) ->
  Forall finite_record (bulkPredictionHistory (app (step NumberToString TypeError_message s e))).
Proof.
  unfold stored_bulk. intros W FS FA.
  destruct (step_untouched NumberToString TypeError_message s e) as (_ & _ & _ & D).
  destruct e; cbn [sets_bulk_history] in D; try (rewrite (D eq_refl); exact FA).
  + cbn [step on_layout app world fst snd]. unfold loadBulkPredictionHistory.
    destruct getItem; [|exact FA].
    destruct (AsyncStorage.bulkPredictionHistory (storage (world s))) eqn:E;
      [exact FS|exact FA].
  + cbn [step on_layout app world fst snd].
    destruct (processBulkImages_shown now getItem setItem (app s) (world s))
      as [M|(images & I & M)]; rewrite M; [exact FA|].
    apply Forall_firstn. constructor; [|exact FS].
    apply well_formed_finite_record. now apply W.
  + cbn [step on_layout app world fst snd]. unfold refreshBulkPredictionHistory.
    destruct getItem; [|exact FA].
    destruct (AsyncStorage.bulkPredictionHistory (storage (world s))) eqn:E;
      [exact FS|constructor].
  + cbn [step on_layout app world fst snd]. unfold deleteHistoryItem.
    destruct setItem; cbn [fst setBulkPredictionHistory bulkPredictionHistory];
      now apply Forall_filter.
Qed.

(** X11.  With logs of finite numbers and bulk runs on well-formed batches,
    what [JSON.parse] reads from the store is the bulk log shown, and its
    numbers are finite, after a refresh that resolves, after a delete whose
    write resolves and after a bulk run (with a selection) whose store calls
    resolve; and once that holds it keeps holding through every handler but a
    delete whose write is rejected.  After a refresh that resolves the log
    shown is the log read from the store whatever the numbers are. *)
Theorem bulk_log_shown_is_stored
    (NumberToString : number -> string) (TypeError_message : string)
    (s : Session) (e : Event) :
  let s' := step NumberToString TypeError_message s e in
  runs_well_formed s e ->
  (match e with
   | RefreshBulkPredictionHistory Resolves =>
       bulk_in_sync s' /\
       (Forall finite_record (stored_bulk s) -> bulk_in_sync_finite s')
   | DeleteHistoryItem Resolves _ =>
       Forall finite_record (bulkPredictionHistory (app s)) -> bulk_in_sync_finite s'
   | ProcessBulkImages _ Resolves Resolves =>
       (exists images, bulkImages (app s) = Some images /\ canceled images = false) ->
       Forall finite_record (stored_bulk s) ->
       bulk_in_sync_finite s'
   | _ => True
   end) /\
  (bulk_in_sync_finite s -> failed_delete e = false -> bulk_in_sync_finite s').
Proof.
  intros s' W. split.
  - destruct e; try exact I.
    + destruct getItem; try exact I. destruct setItem; try exact I.
      intros (images & Im & C) FS.
      assert (Y : bulk_in_sync s').
      { unfold bulk_in_sync, stored_bulk, s'.
        cbn [step on_layout app world fst snd].
        now rewrite (processBulkImages_saved now (app s) (world s) images Im C). }
      split; [exact Y|].
      unfold s'. cbn [step on_layout app world fst snd].
      destruct (processBulkImages_shown now Resolves Resolves (app s) (world s))
        as [M|(images' & I' & M)].
      * unfold processBulkImages, saveBulkResults in M. rewrite Im, C in M.
        pose proof (bulkResults_world (app s) now (assets images) (world s)) as S.
        destruct (bulkResults (app s) now (assets images) (world s)) as [r w1] eqn:R.
        cbn [fst snd setBulkPredictionHistory bulkPredictionHistory setEstimatedTime
             setBulkLoading setBulkPrediction] in M, S.
        unfold processBulkImages, saveBulkResults. rewrite Im, C, R.
        cbn [fst snd setBulkPredictionHistory bulkPredictionHistory].
        apply Forall_firstn. constructor.
        -- replace r with (fst (bulkResults (app s) now (assets images) (world s)))
             by (now rewrite R).
           apply well_formed_finite_record. now apply W.
        -- unfold unshift. rewrite S. exact FS.
      * rewrite M. apply Forall_firstn. constructor; [|exact FS].
        apply well_formed_finite_record. now apply W.
    + destruct getItem; try exact I.
      assert (Y : bulk_in_sync s').
      { unfold bulk_in_sync, stored_bulk, s'.
        cbn [step on_layout app world fst snd]. unfold refreshBulkPredictionHistory.
        destruct (AsyncStorage.bulkPredictionHistory (storage (world s))) eqn:E;
          simpl; rewrite E; reflexivity. }
      split; [exact Y|]. intros FS. split; [exact Y|].
      unfold s'. cbn [step on_layout app world fst snd]. unfold refreshBulkPredictionHistory.
      unfold stored_bulk in FS.
      destruct (AsyncStorage.bulkPredictionHistory (storage (world s))) eqn:E;
        [exact FS|constructor].
    + destruct setItem; try exact I. intros FA. split; [reflexivity|].
      unfold s'. cbn [step on_layout app world fst snd]. unfold deleteHistoryItem.
      cbn [fst setBulkPredictionHistory bulkPredictionHistory].
      now apply Forall_filter.
  - intros [Y FA] F. split.
    + now apply step_bulk_in_sync.
    + apply step_finite_shown; [exact W| |exact FA].
      unfold bulk_in_sync in Y. now rewrite <- Y.
Qed.

Lemma bulk_log_shown_is_stored_witness :
  bulk_in_sync_finite
    (step (fun _ => "1e+21"%string) "undefined is not an object" example_session
       (ProcessBulkImages "2025-02-01T10:01:00.000Z" Resolves Resolves)).
Proof.
  refine (proj1 (bulk_log_shown_is_stored (fun _ => "1e+21"%string)
                   "undefined is not an object" example_session
                   (ProcessBulkImages "2025-02-01T10:01:00.000Z" Resolves Resolves) _) _ _).
  - intros images E. injection E as <-. split.
    + vm_compute. discriminate.
    + intros a [<-|[<-|[<-|[]]]]; intros S; try discriminate S;
        probabilities_in_range.
  - exists {| canceled := false; assets := example_batch |}. split; reflexivity.
  - repeat constructor; intros []; reflexivity.
Defined.

(** A delete whose write is rejected leaves the shown log without the record
    and the stored log with it. *)
Remark failed_delete_breaks_sync :
  let s := step (fun _ => "1e+21"%string) "undefined is not an object"
             (step (fun _ => "1e+21"%string) "undefined is not an object"
                (mounted (storage example_stored)) (RefreshBulkPredictionHistory Resolves))
             (DeleteHistoryItem (Rejects "disk full") "2025-01-02") in
  List.length (bulkPredictionHistory (app s)) = 2 /\ List.length (stored_bulk s) = 3.
Proof. split; reflexivity. Qed.

(** ** Notes *)

(** X12.  [updateNote] writes back the log that the history screen holds,
    whatever the store holds by then.  After [uploadImage] has stored a
    prediction at the head of the log, under a time that no record of the
    screen carries, a note edit on the screen loaded before the upload stores
    a log as long as the log of the screen, whose record at the index carries
    the new note and is otherwise the record of the screen, whose other
    records are those of the screen, whose numbers are finite when those of
    the screen are, and which no longer holds a record of the time of the
    upload; the bulk log is left as it was. *)
Theorem updateNote_overwrites_later_uploads
    (NumberToString : number -> string) (TypeError_message now note : string)
    (getItem setItem : settled) (index i : nat) (asset : Asset) (data : Data.t)
    (app : App) (st : History.State) (w : World) (p : Prediction.t) :
  nth_error (History.history st) index = Some p ->
  predict asset = Responded true data ->
  ~ In now (map Prediction.timestamp (History.history st)) ->
  let saved := uploadImage NumberToString now getItem setItem i asset app w in
  let edited := History.updateNote TypeError_message Resolves index note st (snd saved) in
  (getItem = Resolves -> setItem = Resolves ->
   exists u rest,
     AsyncStorage.predictionHistory (storage (snd saved)) = Some (u :: rest) /\
     Prediction.timestamp u = now /\
     Prediction.class u = Data.class data /\
     Prediction.probability u = Data.probability data /\
     Prediction.imageUri u = uri asset) /\
  exists stored,
    AsyncStorage.predictionHistory (storage (snd edited)) = Some stored /\
    History.history (snd (fst edited)) = stored /\
    List.length stored = List.length (History.history st) /\
    (exists q, nth_error stored index = Some q /\
               Prediction.note q = note /\ same_but_note p q) /\
    (forall j, j <> index -> nth_error stored j = nth_error (History.history st) j) /\
    (Forall finite_prediction (History.history st) -> Forall finite_prediction stored) /\
    ~ In now (map Prediction.timestamp stored) /\
    AsyncStorage.bulkPredictionHistory (storage (snd edited)) =
      AsyncStorage.bulkPredictionHistory (storage w).
Proof.
  intros H P N saved edited. split.
  - intros -> ->. unfold saved, uploadImage. rewrite P.
    unfold savePrediction, slice0, unshift.
    cbn [storage with_storage AsyncStorage.predictionHistory
         AsyncStorage.set_predictionHistory firstn].
    eexists. eexists. split; [reflexivity|]. repeat split.
  - exists (History.assign_note (History.history st) index note).
    destruct (set_note_same_but_note p note) as [Nq Sq].
    destruct (uploadImage_logs NumberToString now getItem setItem i asset app w)
      as (_ & B & _). fold saved in B.
    unfold edited, History.updateNote. rewrite H.
    cbn [fst snd storage with_storage AsyncStorage.predictionHistory
         AsyncStorage.bulkPredictionHistory AsyncStorage.set_predictionHistory
         History.history History.setHistory].
    repeat split.
    + apply assign_note_length.
    + exists (Prediction.set_note p note). split; [now apply assign_note_at|].
      split; [exact Nq|exact Sq].
    + intros j Nj. now apply assign_note_elsewhere.
    + intros F. now apply assign_note_finite.
    + now rewrite assign_note_timestamps.
    + exact B.
Qed.

Lemma updateNote_overwrites_later_uploads_witness :
  let saved :=
    uploadImage (fun _ => "1e+21"%string) "2025-02-01T10:00:00.000Z" Resolves Resolves 0
      (example_asset "6.jpg" (example_answer "Pituitary" (8 # 10))) example_app example_stored in
  let edited :=
    History.updateNote "undefined is not an object" Resolves 2 "recheck"
      example_history (snd saved) in
  option_map (map Prediction.class) (AsyncStorage.predictionHistory (storage (snd saved))) =
    Some ("Pituitary"%string :: repeat "Glioma"%string 9) /\
  exists stored,
    AsyncStorage.predictionHistory (storage (snd edited)) = Some stored /\
    List.length stored = 10 /\
    ~ In "2025-02-01T10:00:00.000Z"%string (map Prediction.timestamp stored).
Proof.
  split; [reflexivity|].
  destruct (updateNote_overwrites_later_uploads (fun _ => "1e+21"%string)
    "undefined is not an object" "2025-02-01T10:00:00.000Z" "recheck" Resolves Resolves 2 0
    (example_asset "6.jpg" (example_answer "Pituitary" (8 # 10))) _
    example_app example_history example_stored (example_prediction 7) eq_refl eq_refl)
    as (_ & stored & S & _ & L & _ & _ & _ & T & _).
  - simpl. intuition discriminate.
  - exists stored. repeat split; assumption.
Defined.

Lemma assign_note_twice (log : list Prediction.t) :
  forall index n1 n2,
    History.assign_note (History.assign_note log index n1) index n2 =
    History.assign_note log index n2.
Proof.
  induction log as [|x log IH]; intros [|k] n1 n2; simpl; try reflexivity.
  now rewrite IH.
Qed.

Lemma assign_note_swap (log : list Prediction.t) :
  forall i j n1 n2, i <> j ->
    History.assign_note (History.assign_note log i n1) j n2 =
    History.assign_note (History.assign_note log j n2) i n1.
Proof.
  induction log as [|x log IH]; intros [|i] [|j] n1 n2 N; simpl; try reflexivity;
    try contradiction.
  rewrite IH; [reflexivity|congruence].
Qed.

(** X13.  Of two note edits at the same index of the loaded log the second
    one wins, and two edits at different indices give the same shown and
    stored log in either order, when the writes go through. *)
Theorem updateNote_edits_compose
    (TypeError_message n1 n2 : string) (i j : nat) (st : History.State) (w : World) :
  i < List.length (History.history st) -> j < List.length (History.history st) ->
  let edit index note (s : History.State * World) :=
    let r := History.updateNote TypeError_message Resolves index note (fst s) (snd s) in
    (snd (fst r), snd r) in
  single_view (edit i n2 (edit i n1 (st, w))) = single_view (edit i n2 (st, w)) /\
  (i <> j ->
   single_view (edit j n2 (edit i n1 (st, w))) = single_view (edit i n1 (edit j n2 (st, w)))).
Proof.
  intros Li Lj edit.
  assert (S : forall index note log,
             index < List.length log ->
             forall w0 l0,
             edit index note ({| History.history := log; History.isLoading := l0 |}, w0) =
             ({| History.history := History.assign_note log index note;
                 History.isLoading := l0 |},
              with_storage w0 (AsyncStorage.set_predictionHistory (storage w0)
                                 (Some (History.assign_note log index note))))).
  { intros index note log L w0 l0. unfold edit, History.updateNote. simpl.
    destruct (nth_error log index) eqn:E; [reflexivity|].
    apply nth_error_None in E. lia. }
  destruct st as [log l0]. simpl in Li, Lj.
  split.
  - rewrite (S i n1 log Li), (S i n2 log Li).
    rewrite S by (now rewrite assign_note_length).
    unfold single_view. simpl. now rewrite assign_note_twice.
  - intros N.
    rewrite (S i n1 log Li), (S j n2 log Lj).
    rewrite !S by (now rewrite assign_note_length).
    unfold single_view. simpl. now rewrite (assign_note_swap log i j n1 n2 N).
Qed.

Lemma updateNote_edits_compose_witness :
  let edit index note (s : History.State * World) :=
    let r := History.updateNote "undefined is not an object" Resolves index note
               (fst s) (snd s) in
    (snd (fst r), snd r) in
  single_view (edit 2 "second" (edit 2 "first" (example_history, example_stored))) =
  single_view (edit 2 "second" (example_history, example_stored)).
Proof.
  refine (proj1 (updateNote_edits_compose "undefined is not an object" "first" "second" 2 2
                   example_history example_stored _ _)); simpl; lia.
Defined.

(** ** The highest probability *)

Lemma ltb_Fin (a b : Q) : ltb (Fin a) (Fin b) = true <-> (a < b)%Q.
Proof.
  simpl. destruct (Qcompare_spec a b) as [E|L|G]; split; intros H;
    try discriminate; try reflexivity; try assumption.
  - rewrite E in H. exfalso. exact (Qlt_irrefl _ H).
  - exfalso. exact (Qlt_irrefl _ (Qlt_trans _ _ _ H G)).
Qed.

Lemma ltb_irrefl (a : number) : ltb a a = false.
Proof.
  destruct a as [q| | |]; try reflexivity.
  destruct (ltb (Fin q) (Fin q)) eqn:E; [|reflexivity].
  apply ltb_Fin in E. exfalso. exact (Qlt_irrefl _ E).
Qed.

Lemma ltb_asym (a b : number) : ltb a b = true -> ltb b a = false.
Proof.
  destruct a as [p| | |], b as [q| | |]; simpl; try discriminate; try reflexivity.
  intros H. apply (ltb_Fin p q) in H.
  destruct (ltb (Fin q) (Fin p)) eqn:E; [|exact E].
  apply ltb_Fin in E. exfalso. exact (Qlt_irrefl _ (Qlt_trans _ _ _ H E)).
Qed.

Lemma ltb_le_lt (a b c : number) :
  a <> NaN -> b <> NaN -> c <> NaN ->
  ltb b a = false -> ltb b c = true -> ltb a c = true.
Proof.
  intros Na Nb Nc H1 H2.
  destruct a as [p| | |], b as [q| | |], c as [r| | |];
    try contradiction; try discriminate; try reflexivity.
  apply ltb_Fin. apply ltb_Fin in H2.
  destruct (Qlt_le_dec q p) as [L|L].
  - apply (proj2 (ltb_Fin q p)) in L. rewrite L in H1. discriminate.
  - exact (Qle_lt_trans _ _ _ L H2).
Qed.

Lemma skipn_cons_nth {A : Type} (l : list A) :
  forall i x r, skipn i l = x :: r -> nth_error l i = Some x /\ skipn (S i) l = r.
Proof.
  induction l as [|y l IH]; intros [|i] x r H; simpl in *; try discriminate.
  - inversion H. auto.
  - now apply IH.
Qed.

(** The index the reduction settles on is that of the first largest entry. *)
Lemma reduce_maxIndex_first_max (arr : list number) :
  Forall (fun x => x <> NaN) arr ->
  forall rest index m,
    skipn index arr = rest ->
    index <= List.length arr ->
    (m < index \/ (m = 0 /\ index = 0)) ->
    (forall j, j < index -> ltb (nth m arr NaN) (nth j arr NaN) = false) ->
    (forall j, j < m -> ltb (nth j arr NaN) (nth m arr NaN) = true) ->
    let k := reduce_maxIndex arr rest index m in
    (forall j, j < List.length arr -> ltb (nth k arr NaN) (nth j arr NaN) = false) /\
    (forall j, j < k -> ltb (nth j arr NaN) (nth k arr NaN) = true) /\
    (k < List.length arr \/ (k = 0 /\ arr = [])).
Proof.
  intros NN rest. induction rest as [|prob rest IH]; intros index m S I B M F.
  - simpl. assert (L : List.length arr = index).
    { assert (K : List.length (skipn index arr) = 0) by now rewrite S.
      rewrite length_skipn in K. lia. }
    split; [intros j Hj; apply M; lia|]. split; [exact F|].
    destruct B as [B|[B1 B2]]; [left; lia|].
    right. split; [exact B1|]. subst index. now destruct arr.
  - destruct (skipn_cons_nth arr index prob rest S) as [E S'].
    assert (Li : index < List.length arr) by (apply nth_error_Some; now rewrite E).
    assert (P : nth index arr NaN = prob) by now apply nth_error_nth.
    assert (Lm : m < List.length arr) by (destruct B as [B|[B _]]; lia).
    assert (G : gt_at prob arr m = ltb (nth m arr NaN) prob).
    { unfold gt_at. destruct (nth_error arr m) eqn:Em.
      - now rewrite (nth_error_nth arr m NaN Em).
      - apply nth_error_None in Em. lia. }
    assert (Nn : forall j, j < List.length arr -> nth j arr NaN <> NaN).
    { intros j Hj. apply (proj1 (Forall_forall _ arr) NN). now apply nth_In. }
    simpl reduce_maxIndex. rewrite G.
    destruct (ltb (nth m arr NaN) prob) eqn:C; apply IH; try exact S'; try lia.
    + intros j Hj. rewrite P.
      destruct (Nat.eq_dec j index) as [->|D]; [rewrite P; apply ltb_irrefl|].
      apply ltb_asym.
      apply (ltb_le_lt (nth j arr NaN) (nth m arr NaN) prob); try (apply Nn; lia).
      * rewrite <- P. apply Nn. lia.
      * apply M. lia.
      * exact C.
    + intros j Hj. rewrite P.
      apply (ltb_le_lt (nth j arr NaN) (nth m arr NaN) prob); try (apply Nn; lia).
      * rewrite <- P. apply Nn. lia.
      * apply M. lia.
      * exact C.
    + intros j Hj. destruct (Nat.eq_dec j index) as [->|D]; [now rewrite P|].
      apply M. lia.
    + exact F.
Qed.

(** X14.  For a vector of 4 probabilities none of which is [NaN],
    [getHighestProbabilityClass] names the label at the position of the
    largest entry, the first such position when several entries are largest. *)
Theorem getHighestProbabilityClass_first_largest (ps : list number) :
  List.length ps = 4 -> Forall (fun x => x <> NaN) ps ->
  exists label,
    getHighestProbabilityClass (Some ps) = Some label /\
    nth_error Layout.CLASS_LABELS (highest_index ps) = Some label /\
    highest_index ps < 4 /\
    (forall j, j < 4 -> ltb (nth (highest_index ps) ps NaN) (nth j ps NaN) = false) /\
    (forall j, j < highest_index ps -> ltb (nth j ps NaN) (nth (highest_index ps) ps NaN) = true).
Proof.
  intros L NN.
  destruct (reduce_maxIndex_first_max ps NN ps 0 0 eq_refl (Nat.le_0_l _)
              (or_intror (conj eq_refl eq_refl)))
    as (M & F & B); try (intros j Hj; lia).
  fold (highest_index ps) in M, F, B.
  assert (K : highest_index ps < 4).
  { destruct B as [B|[_ B]]; [lia|]. rewrite B in L. discriminate L. }
  destruct (nth_error Layout.CLASS_LABELS (highest_index ps)) as [label|] eqn:E.
  - exists label. repeat split; try assumption.
    + unfold getHighestProbabilityClass. rewrite L. exact E.
    + intros j Hj. apply M. lia.
  - apply nth_error_None in E. simpl in E. lia.
Qed.

Lemma getHighestProbabilityClass_first_largest_witness :
  exists label,
    getHighestProbabilityClass (Some [Fin (1 # 10); Fin (4 # 10); Fin (2 # 5); Fin (1 # 10)]) =
      Some label /\
    nth_error Layout.CLASS_LABELS
      (highest_index [Fin (1 # 10); Fin (4 # 10); Fin (2 # 5); Fin (1 # 10)]) = Some label.
Proof.
  destruct (getHighestProbabilityClass_first_largest
              [Fin (1 # 10); Fin (4 # 10); Fin (2 # 5); Fin (1 # 10)] eq_refl)
    as (label & G & N & _).
  - repeat constructor; discriminate.
  - exists label. split; assumption.
Defined.

(** The tie between the second and the third entry goes to the second label. *)
Example getHighestProbabilityClass_tie :
  getHighestProbabilityClass (Some [Fin (1 # 10); Fin (4 # 10); Fin (2 # 5); Fin (1 # 10)]) =
  Some "No Tumor"%string.
Proof. reflexivity. Qed.

Lemma Math_max_at_highest_index (arr : list number) :
  Forall (fun x => x <> NaN) arr ->
  forall rest index m h,
    skipn index arr = rest ->
    ((index = 0 /\ m = 0 /\ h = NInf) \/ (m < index /\ h = nth m arr NaN)) ->
    rest <> [] \/ 0 < index ->
    fold_left
      (fun highest x =>
         match highest, x with
         | NaN, _ | _, NaN => NaN
         | _, _ => if ltb highest x then x else highest
         end) rest h =
    nth (reduce_maxIndex arr rest index m) arr NaN.
Proof.
  intros NN rest. induction rest as [|prob rest IH]; intros index m h S B N.
  - simpl. destruct B as [(B & _)|(_ & B)]; [|exact B].
    destruct N as [N|N]; [contradiction|lia].
  - destruct (skipn_cons_nth arr index prob rest S) as [E S'].
    assert (Li : index < List.length arr) by (apply nth_error_Some; now rewrite E).
    assert (P : nth index arr NaN = prob) by now apply nth_error_nth.
    assert (Np : prob <> NaN).
    { apply (proj1 (Forall_forall _ arr) NN). now apply (nth_error_In arr index). }
    simpl fold_left. simpl reduce_maxIndex.
    apply IH; [exact S'| |right; lia].
    right. destruct B as [(B1 & B2 & B3)|(B1 & B2)].
    + subst index m h. unfold gt_at. rewrite E, ltb_irrefl. split; [lia|].
      rewrite P. destruct prob; try contradiction; reflexivity.
    + assert (Lm : m < List.length arr) by lia.
      assert (Nh : h <> NaN).
      { rewrite B2. apply (proj1 (Forall_forall _ arr) NN). now apply nth_In. }
      unfold gt_at. destruct (nth_error arr m) as [x|] eqn:Em;
        [|apply nth_error_None in Em; lia].
      rewrite (nth_error_nth arr m NaN Em) in B2. subst x.
      destruct (ltb h prob) eqn:C.
      * split; [lia|]. rewrite P. destruct h, prob; try contradiction; reflexivity.
      * split; [lia|]. rewrite (nth_error_nth arr m NaN Em).
        destruct h, prob; try contradiction; reflexivity.
Qed.

(** X15.  For a probability vector that is not empty and holds no [NaN], the
    confidence sample of the bulk run, [Math.max(...probability) * 100], is 100
    times the entry at the position whose label
    [getHighestProbabilityClass] names. *)
Theorem sample_is_highest_probability (a : Asset) :
  probabilities a <> [] -> Forall (fun x => x <> NaN) (probabilities a) ->
  sample a = mul (nth (highest_index (probabilities a)) (probabilities a) NaN) (Fin 100) /\
  forall x, In x (probabilities a) ->
    ltb (nth (highest_index (probabilities a)) (probabilities a) NaN) x = false.
Proof.
  intros N NN. split.
  - unfold sample, Math_max, highest_index. f_equal.
    apply (Math_max_at_highest_index (probabilities a) NN (probabilities a) 0 0 NInf eq_refl).
    + left. auto.
    + left. exact N.
  - intros x Hx.
    destruct (reduce_maxIndex_first_max (probabilities a) NN (probabilities a) 0 0 eq_refl
                (Nat.le_0_l _) (or_intror (conj eq_refl eq_refl))) as (M & _);
      try (intros j Hj; lia).
    destruct (In_nth _ _ NaN Hx) as (j & Hj & <-). now apply M.
Qed.

Lemma sample_is_highest_probability_witness :
  sample (example_asset "1.jpg" (example_answer "Glioma" (9 # 10))) =
  mul (round64 (9 # 10)) (Fin 100).
Proof.
  refine (proj1 (sample_is_highest_probability
                   (example_asset "1.jpg" (example_answer "Glioma" (9 # 10))) _ _)).
  - discriminate.
  - repeat constructor; vm_compute; discriminate.
Defined.

(** ** The model name *)

(** X16.  The record of a bulk run carries the time at which the run started,
    the grayscale switch and the model name of the component at that time,
    whatever the batch.  That name is the one the server reported when
    [fetchModelInfo] or [selectModel] was answered [ok]; after a
    [fetchModelInfo] that failed it is the word "Hata", after a [selectModel]
    that failed it is the name held before, and after the button of the error
    screen it is the placeholder. *)
Theorem bulk_record_model_name
    (r : Screen.ModelRequest) (app : App) (s : Screen.State) (w w' : World)
    (now : string) (batch : list Asset) :
  BulkPredictionResult.timestamp (fst (bulkResults app now batch w')) = now /\
  BulkPredictionResult.isGrayscale (fst (bulkResults app now batch w')) = isGrayscaleEnabled app /\
  BulkPredictionResult.modelName (fst (bulkResults app now batch w')) = modelName app /\
  BulkPredictionResult.modelName
    (fst (bulkResults (fst (fst (Screen.fetchModelInfo r app s w))) now batch w')) =
    match r with
    | Screen.Responded true data => Screen.model_name data
    | _ => "Hata"%string
    end /\
  BulkPredictionResult.modelName
    (fst (bulkResults (fst (fst (Screen.selectModel r app s w))) now batch w')) =
    match r with
    | Screen.Responded true data => Screen.model_name data
    | _ => modelName app
    end /\
  BulkPredictionResult.modelName
    (fst (bulkResults (fst (Screen.retry app s)) now batch w')) = "Yükleniyor..."%string.
Proof.
  destruct (bulkResults_timestamp app now batch w') as (T & M & G).
  repeat split; try assumption.
  - destruct (bulkResults_timestamp (fst (fst (Screen.fetchModelInfo r app s w))) now batch w')
      as (_ & M' & _).
    rewrite M'. now destruct r as [m|[|] d].
  - destruct (bulkResults_timestamp (fst (fst (Screen.selectModel r app s w))) now batch w')
      as (_ & M' & _).
    rewrite M'. now destruct r as [m|[|] d].
  - destruct (bulkResults_timestamp (fst (Screen.retry app s)) now batch w') as (_ & M' & _).
    now rewrite M'.
Qed.

(** ** Layouts *)

(** X17.  [selectLayout] with a layout whose first character is a digit
    replaces the sections by that many blank ones, whatever images and
    predictions they held, keeps the name of the layout and closes the dialog;
    with any other layout it throws once the name is set, and the sections
    stay. *)
Theorem selectLayout_resets_sections
    (RangeError_message layout' : string) (s : Screen.State) :
  (forall n, Screen.parseInt_first layout' = Some n ->
     fst (Screen.selectLayout RangeError_message layout' s) = History.Returns /\
     List.length (Screen.sections (snd (Screen.selectLayout RangeError_message layout' s))) = n /\
     n <= 9 /\
     Forall (fun section => section = Screen.blank)
       (Screen.sections (snd (Screen.selectLayout RangeError_message layout' s))) /\
     Screen.layout (snd (Screen.selectLayout RangeError_message layout' s)) = layout' /\
     Screen.layoutModalVisible (snd (Screen.selectLayout RangeError_message layout' s)) = false) /\
  (Screen.parseInt_first layout' = None ->
     Screen.selectLayout RangeError_message layout' s =
       (History.Throws RangeError_message, Screen.setLayout s layout')).
Proof.
  split.
  - intros n P. unfold Screen.selectLayout. rewrite P. simpl.
    repeat split.
    + now rewrite length_map, length_seq.
    + unfold Screen.parseInt_first in P. destruct layout' as [|c rest]; [discriminate|].
      destruct ((48 <=? nat_of_ascii c)%nat && (nat_of_ascii c <=? 57)%nat)%bool eqn:D;
        [|discriminate].
      apply andb_prop in D. destruct D as [D1 D2].
      apply Nat.leb_le in D1, D2. inversion P. lia.
    + apply Forall_forall. intros x Hx. apply in_map_iff in Hx.
      now destruct Hx as (k & <- & _).
  - intros P. unfold Screen.selectLayout. now rewrite P.
Qed.

Lemma selectLayout_resets_sections_witness :
  List.length (Screen.sections (snd (Screen.selectLayout "Invalid array length" "3x1"
                                       Screen.initial))) = 3 /\
  Screen.selectLayout "Invalid array length" "wide" Screen.initial =
    (History.Throws "Invalid array length", Screen.setLayout Screen.initial "wide").
Proof.
  split.
  - exact (proj1 (proj2 (proj1 (selectLayout_resets_sections "Invalid array length" "3x1"
                                  Screen.initial) 3 eq_refl))).
  - exact (proj2 (selectLayout_resets_sections "Invalid array length" "wide" Screen.initial)
             eq_refl).
Defined.

(** ** The console of a bulk run *)

Lemma bulkLoop_console (batch : list Asset) :
  forall st,
    console (snd (bulkLoop batch st)) =
    console (snd st) ++
    flat_map (fun a =>
                match predict a with
                | Threw message => [("Image upload error: " ++ message)%string]
                | Responded _ _ => []
                end) batch.
Proof.
  induction batch as [|a batch IH]; intros st.
  - simpl. now rewrite app_nil_r.
  - rewrite bulkLoop_cons, IH, processAsset_world. simpl.
    destruct (predict a); simpl; [now rewrite <- app_assoc|reflexivity].
Qed.

(** X18.  A bulk run writes to the console the message of every request that
    threw, in the order of the batch, and nothing for the other items: not for
    an answer whose status is not [ok], not for a class it does not know. *)
Theorem bulk_run_logs_thrown_requests
    (app : App) (now : string) (batch : list Asset) (w : World) :
  console (snd (bulkResults app now batch w)) =
  console w ++
  flat_map (fun a =>
              match predict a with
              | Threw message => [("Image upload error: " ++ message)%string]
              | Responded _ _ => []
              end) batch.
Proof.
  rewrite bulkResults_snd. apply (bulkLoop_console batch (initial_tally app now, w)).
Qed.
